(** * StatLysis / AnalysisProgram.py: a shallow embedding of the analysis pipeline

    The Python module [AnalysisProgram.py] loads aggregated spreadsheet files,
    preprocesses one response column, runs ANOVA / Tukey / regression fits and
    writes the artefacts of a run.  This file embeds the functions of that
    module as Rocq functions and proves properties of them.

    Conventions of the embedding:
    - a Python [str] is a [string] (a sequence of bytes);
    - a [float64] cell of a column is a [num]: a rational, an infinity, or
      [NaN]; comparisons with [NaN] are all false.  The array arithmetic
      of [apply_normalization] goes through the rounding [rnd] of the class
      [MathLib], which can overflow to an infinity; the other arithmetic
      (the reductions of the libraries, the quotients of the derived
      variables and of the effect sizes) is taken exactly.  Columns of
      integers are not modelled;
    - a function that can raise returns a [result];
    - calls into scipy / statsmodels / numpy that fit a model are the fields of
      the class [StatsLib]: the embedded code is everything around them;
    - making a directory and writing a file are calls into the operating
      system, the fields of the class [App.OsLib], which return or raise;
      a call that has returned is an event of the run.  The message boxes,
      the log and the canvas of the window are events that succeed. *)

From Stdlib Require Import List String Ascii ZArith QArith Qabs Qround Bool Lia Lqa.
From Stdlib Require Import DecimalString.
Import ListNotations.
Close Scope Q_scope.
Open Scope string_scope.

(** ** Python values that can be raised *)

Inductive exn : Type :=
| IndexError (msg : string)
| KeyError (key : string)
| ValueError (msg : string)
| TypeError (msg : string)
| AttributeError (msg : string)
| OSError (msg : string)
| LibraryError (msg : string).

Definition exn_message (e : exn) : string :=
  match e with
  | IndexError m | ValueError m | TypeError m | AttributeError m | OSError m
  | LibraryError m => m
  | KeyError k => "'" ++ k ++ "'"
  end.

Inductive result (A : Type) : Type :=
| Ok (a : A)
| Raise (e : exn).
Arguments Ok {A} a.
Arguments Raise {A} e.

Definition bind {A B : Type} (r : result A) (k : A -> result B) : result B :=
  match r with
  | Ok a => k a
  | Raise e => Raise e
  end.

Notation "x <- r ;; k" := (bind r (fun x => k))
  (at level 61, r at next level, right associativity).

Definition is_ok {A : Type} (r : result A) : bool :=
  match r with Ok _ => true | Raise _ => false end.

(** ** The string methods the module calls *)

Module PyStr.

Fixpoint rev_string (acc s : string) : string :=
  match s with
  | EmptyString => acc
  | String c s' => rev_string (String c acc) s'
  end.

(** [s.split(sep)] for a non-empty [sep]: scan left to right; [skip] counts the
    characters of a separator just matched that are still to be passed over,
    [cur] is the segment being read, reversed. *)
Fixpoint split_go (sep : string) (skip : nat) (cur : string) (s : string)
  : list string :=
  match s with
  | EmptyString => [rev_string "" cur]
  | String c s' =>
      match skip with
      | S k => split_go sep k cur s'
      | O =>
          if prefix sep s
          then rev_string "" cur :: split_go sep (String.length sep - 1) "" s'
          else split_go sep O (String c cur) s'
      end
  end.

Definition split (sep s : string) : list string := split_go sep O "" s.

(** [s.replace(old, new)] for a non-empty [old]. *)
Fixpoint replace_go (old new : string) (skip : nat) (s : string) : string :=
  match s with
  | EmptyString => ""
  | String c s' =>
      match skip with
      | S k => replace_go old new k s'
      | O =>
          if prefix old s
          then new ++ replace_go old new (String.length old - 1) s'
          else String c (replace_go old new O s')
      end
  end.

Definition replace (old new s : string) : string := replace_go old new O s.

(** [sub in s]. *)
Fixpoint contains (sub s : string) : bool :=
  prefix sub s ||
  match s with
  | EmptyString => false
  | String _ s' => contains sub s'
  end.

(** Whitespace as [str.strip()] sees it, among the 7-bit characters. *)
Definition is_space (c : ascii) : bool :=
  let n := nat_of_ascii c in
  (((9 <=? n) && (n <=? 13)) || ((28 <=? n) && (n <=? 32)))%nat.

Fixpoint lstrip (s : string) : string :=
  match s with
  | EmptyString => ""
  | String c s' => if is_space c then lstrip s' else s
  end.

Definition strip (s : string) : string :=
  rev_string "" (lstrip (rev_string "" (lstrip s))).

(** [s.rfind(c)] for a one-character [c]: the last index, or -1. *)
Fixpoint rfind_go (c : ascii) (i : Z) (last : Z) (s : string) : Z :=
  match s with
  | EmptyString => last
  | String d s' => rfind_go c (i + 1) (if Ascii.eqb c d then i else last) s'
  end.

Definition rfind (c : ascii) (s : string) : Z := rfind_go c 0 (-1) s.

(** The slices [s[:n]] and [s[n:]] for [0 <= n]. *)
Fixpoint take (n : nat) (s : string) : string :=
  match n, s with
  | S k, String c s' => String c (take k s')
  | _, _ => ""
  end.

Fixpoint drop (n : nat) (s : string) : string :=
  match n, s with
  | S k, String _ s' => drop k s'
  | _, _ => s
  end.

(** The 7-bit line boundaries of [str.splitlines()]. *)
Definition is_linebreak (c : ascii) : bool :=
  let n := nat_of_ascii c in
  (((10 <=? n) && (n <=? 13)) || ((28 <=? n) && (n <=? 30)))%nat.

Fixpoint until_linebreak (s : string) : string :=
  match s with
  | EmptyString => ""
  | String c s' => if is_linebreak c then "" else String c (until_linebreak s')
  end.

(** [s.splitlines()[0]]: the empty text has no line. *)
Definition first_line (s : string) : result string :=
  match s with
  | EmptyString => Raise (IndexError "list index out of range")
  | _ => Ok (until_linebreak s)
  end.

End PyStr.

(** ** os.path.splitext *)

Module OsPath.

(** The two flavours of [os.path]: [posixpath] has [sep = '/'] and no
    [altsep]; [ntpath] has [sep = '\'] and [altsep = '/']. *)
Inductive flavour : Type := Posix | Nt.

Definition sep (fl : flavour) : ascii :=
  match fl with Posix => "/"%char | Nt => "\"%char end.

Definition altsep (fl : flavour) : option ascii :=
  match fl with Posix => None | Nt => Some "/"%char end.

(** The [while] loop of [genericpath._splitext] that passes over the dots a
    file name starts with: [true] when a character other than ['.'] stands
    in [p[filenameIndex:dotIndex]]. *)
Fixpoint has_non_dot (s : string) : bool :=
  match s with
  | EmptyString => false
  | String c s' => negb (Ascii.eqb c "."%char) || has_non_dot s'
  end.

Definition splitext (fl : flavour) (p : string) : string * string :=
  let sepIndex := PyStr.rfind (sep fl) p in
  let sepIndex :=
    match altsep fl with
    | Some a => Z.max sepIndex (PyStr.rfind a p)
    | None => sepIndex
    end in
  let dotIndex := PyStr.rfind "."%char p in
  if (sepIndex <? dotIndex)%Z
  then
    let filenameIndex := Z.to_nat (sepIndex + 1) in
    let d := Z.to_nat dotIndex in
    if has_non_dot (PyStr.take (d - filenameIndex) (PyStr.drop filenameIndex p))
    then (PyStr.take d p, PyStr.drop d p)
    else (p, "")
  else (p, "").

End OsPath.

(** ** Data loading *)

Module Loader.

(** [parts[i]] on a Python list. *)
Definition getitem (parts : list string) (i : nat) : result string :=
  match nth_error parts i with
  | Some s => Ok s
  | None => Raise (IndexError "list index out of range")
  end.

(** A [dict] with string keys and values, in insertion order. *)
Definition dict : Type := list (string * string).

Definition unknown_metadata : dict :=
  map (fun k => (k, "Unknown")) ["CellLine"; "Radiation"; "NP"; "Dose"].

Definition parse_metadata_from_filename (fl : OsPath.flavour) (filename : string)
  : result dict :=
  let parts := PyStr.split "_" (fst (OsPath.splitext fl filename)) in
  let body :=
    cellline <- getitem parts 1 ;;
    radiation <- getitem parts 2 ;;
    np <- getitem parts 3 ;;
    dose <- getitem parts 4 ;;
    Ok [("CellLine", cellline);
        ("Radiation", radiation);
        ("NP", np);
        ("Dose", PyStr.strip (PyStr.replace "Gy" "" dose))] in
  match body with
  | Raise (IndexError _) => Ok unknown_metadata
  | r => r
  end.

End Loader.

(** ** Numbers: a [float64] without rounding *)

Module Num.

(** A cell of a numeric column: a finite value, an infinity, or [NaN], which
    pandas also uses for a missing value. *)
Inductive num : Type :=
| NaN
| PInf
| NInf
| Fin (q : Q).

Definition Qltb (x y : Q) : bool := negb (Qle_bool y x).

Definition is_nan (x : num) : bool :=
  match x with NaN => true | _ => false end.

Definition fneg (x : num) : num :=
  match x with
  | NaN => NaN
  | PInf => NInf
  | NInf => PInf
  | Fin q => Fin (- q)%Q
  end.

Definition fadd (x y : num) : num :=
  match x, y with
  | NaN, _ | _, NaN => NaN
  | PInf, NInf | NInf, PInf => NaN
  | PInf, _ | _, PInf => PInf
  | NInf, _ | _, NInf => NInf
  | Fin a, Fin b => Fin (a + b)%Q
  end.

Definition fsub (x y : num) : num := fadd x (fneg y).

(** The infinity of the sign of [q] ([q] is not zero). *)
Definition inf_of_sign (positive : bool) : num :=
  if positive then PInf else NInf.

Definition fmul (x y : num) : num :=
  match x, y with
  | NaN, _ | _, NaN => NaN
  | PInf, PInf | NInf, NInf => PInf
  | PInf, NInf | NInf, PInf => NInf
  | PInf, Fin q | Fin q, PInf =>
      if Qeq_bool q 0 then NaN else inf_of_sign (Qltb 0 q)
  | NInf, Fin q | Fin q, NInf =>
      if Qeq_bool q 0 then NaN else inf_of_sign (Qltb q 0)
  | Fin a, Fin b => Fin (a * b)%Q
  end.

(** Division as numpy does it: [0/0] is [NaN], [x/0] an infinity. *)
Definition fdiv (x y : num) : num :=
  match x, y with
  | NaN, _ | _, NaN => NaN
  | (PInf | NInf), (PInf | NInf) => NaN
  | PInf, Fin q => inf_of_sign (Qle_bool 0 q)
  | NInf, Fin q => inf_of_sign (Qltb q 0)
  | Fin _, (PInf | NInf) => Fin 0
  | Fin a, Fin b =>
      if Qeq_bool b 0
      then (if Qeq_bool a 0 then NaN else inf_of_sign (Qltb 0 a))
      else Fin (a / b)%Q
  end.

Definition fabs (x : num) : num :=
  match x with
  | NaN => NaN
  | PInf | NInf => PInf
  | Fin q => Fin (Qabs q)
  end.

(** [x < y], [x <= y], [x == y]: false as soon as one side is [NaN]. *)
Definition flt (x y : num) : bool :=
  match x, y with
  | NaN, _ | _, NaN => false
  | _, NInf | PInf, _ => false
  | NInf, _ | _, PInf => true
  | Fin a, Fin b => Qltb a b
  end.

Definition fle (x y : num) : bool :=
  match x, y with
  | NaN, _ | _, NaN => false
  | NInf, _ | _, PInf => true
  | _, NInf | PInf, _ => false
  | Fin a, Fin b => Qle_bool a b
  end.

Definition fgt (x y : num) : bool := flt y x.
Definition fge (x y : num) : bool := fle y x.

Definition feq (x y : num) : bool :=
  match x, y with
  | PInf, PInf | NInf, NInf => true
  | Fin a, Fin b => Qeq_bool a b
  | _, _ => false
  end.

Definition of_nat (n : nat) : num := Fin (inject_Z (Z.of_nat n)).
Definition of_Z (z : Z) : num := Fin (inject_Z z).

(** The numeric library.  Its elementary functions are values the model
    takes from outside, since none of them maps rationals to rationals.  So
    is [rnd], the float64 that the arithmetic of an array stores for a real
    result: the nearest float64, or an infinity when the result overflows.
    Of [rnd] the model asks what IEEE 754 rounding gives: it keeps the
    order, and 0 and 1 are float64 values. *)
Class MathLib : Type := {
  sqrtQ : Q -> Q;
  log1pQ : Q -> Q;
  logQ : Q -> Q;
  expQ : Q -> Q;
  rnd : Q -> num;
  rnd_monotone : forall a b : Q, (a <= b)%Q -> fle (rnd a) (rnd b) = true;
  rnd_zero : rnd 0 = Fin 0;
  rnd_one : rnd 1 = Fin 1
}.

(** The float64 stored for a result: a finite result is rounded, and can
    overflow to an infinity. *)
Definition round64 `{MathLib} (x : num) : num :=
  match x with
  | Fin q => rnd q
  | _ => x
  end.

(** [a - b] and [a / b] on the float64 entries of two arrays. *)
Definition sub64 `{MathLib} (x y : num) : num := round64 (fsub x y).
Definition div64 `{MathLib} (x y : num) : num := round64 (fdiv x y).

Definition fsqrt `{MathLib} (x : num) : num :=
  match x with
  | NaN | NInf => NaN
  | PInf => PInf
  | Fin q => if Qltb q 0 then NaN else Fin (sqrtQ q)
  end.

(** [np.log1p]: [NaN] below -1, [-inf] at -1. *)
Definition flog1p `{MathLib} (x : num) : num :=
  match x with
  | NaN | NInf => NaN
  | PInf => PInf
  | Fin q =>
      if Qltb q (-1) then NaN
      else if Qeq_bool q (-1) then NInf
      else Fin (log1pQ q)
  end.

(** [np.log]: [NaN] below 0, [-inf] at 0. *)
Definition flog `{MathLib} (x : num) : num :=
  match x with
  | NaN | NInf => NaN
  | PInf => PInf
  | Fin q =>
      if Qltb q 0 then NaN
      else if Qeq_bool q 0 then NInf
      else Fin (logQ q)
  end.

Definition fexp `{MathLib} (x : num) : num :=
  match x with
  | NaN => NaN
  | PInf => PInf
  | NInf => Fin 0
  | Fin q => Fin (expQ q)
  end.

(** *** Reductions of a column that skip [NaN] *)

Definition dropna (xs : list num) : list num :=
  filter (fun x => negb (is_nan x)) xs.

Definition fsum (xs : list num) : num := fold_left fadd xs (Fin 0).

(** [np.nanmean] and the mean of a pandas Series: [NaN] when nothing is left. *)
Definition nanmean (xs : list num) : num :=
  let ys := dropna xs in
  fdiv (fsum ys) (of_nat (List.length ys)).

(** The variance of the non-missing values around their mean, with [ddof]
    degrees of freedom removed from the count. *)
Definition nanvar (ddof : nat) (xs : list num) : num :=
  let ys := dropna xs in
  let m := nanmean xs in
  fdiv (fsum (map (fun y => fmul (fsub y m) (fsub y m)) ys))
       (of_Z (Z.of_nat (List.length ys) - Z.of_nat ddof)).

Definition nanstd `{MathLib} (ddof : nat) (xs : list num) : num :=
  fsqrt (nanvar ddof xs).

Definition fmin2 (x y : num) : num := if flt y x then y else x.
Definition fmax2 (x y : num) : num := if flt x y then y else x.

(** [Series.min()] and [Series.max()]: over the non-missing values, [NaN]
    when there is none. *)
Definition nanmin (xs : list num) : num :=
  match dropna xs with
  | [] => NaN
  | y :: ys => fold_left fmin2 ys y
  end.

Definition nanmax (xs : list num) : num :=
  match dropna xs with
  | [] => NaN
  | y :: ys => fold_left fmax2 ys y
  end.

End Num.
Export Num.

(** ** Data frames *)

Module Frame.

(** A cell is a float (numeric columns; [NaN] is the missing value) or a
    text (object columns). *)
Inductive cell : Type :=
| CNum (x : num)
| CStr (s : string).

(** A frame is a header and rows, each row aligned with the header. *)
Record DataFrame : Type := mkDF {
  header : list string;
  rows : list (list cell)
}.

(** [df.empty]: an axis of length zero. *)
Definition empty (df : DataFrame) : bool :=
  match header df, rows df with
  | [], _ | _, [] => true
  | _, _ => false
  end.

Definition len (df : DataFrame) : nat := List.length (rows df).

Fixpoint index_of (name : string) (h : list string) : option nat :=
  match h with
  | [] => None
  | c :: h' => if String.eqb name c then Some O else option_map S (index_of name h')
  end.

(** [name in df.columns] *)
Definition has_column (df : DataFrame) (name : string) : bool :=
  match index_of name (header df) with Some _ => true | None => false end.

(** [df[name]] *)
Definition column (df : DataFrame) (name : string) : result (list cell) :=
  match index_of name (header df) with
  | Some i => Ok (map (fun r => nth i r (CNum NaN)) (rows df))
  | None => Raise (KeyError name)
  end.

Definition to_float (c : cell) : result num :=
  match c with
  | CNum x => Ok x
  | CStr _ => Raise (TypeError "unsupported operand type(s): 'str'")
  end.

Fixpoint floats (cs : list cell) : result (list num) :=
  match cs with
  | [] => Ok []
  | c :: cs' => x <- to_float c ;; xs <- floats cs' ;; Ok (x :: xs)
  end.

(** [df[name]] read as an array of floats. *)
Definition numeric_column (df : DataFrame) (name : string) : result (list num) :=
  cs <- column df name ;; floats cs.

(** [df[mask]] for a boolean array [mask]: the rows where it is true, in order. *)
Fixpoint select {A : Type} (xs : list A) (mask : list bool) : list A :=
  match xs, mask with
  | x :: xs', b :: mask' => if b then x :: select xs' mask' else select xs' mask'
  | _, _ => []
  end.

Definition select_rows (df : DataFrame) (mask : list bool) : DataFrame :=
  mkDF (header df) (select (rows df) mask).

Fixpoint set_nth {A : Type} (i : nat) (v : A) (xs : list A) : list A :=
  match i, xs with
  | O, _ :: xs' => v :: xs'
  | S k, x :: xs' => x :: set_nth k v xs'
  | _, [] => []
  end.

(** [df[name] = values]: overwrite the column, or append it. *)
Definition set_column (df : DataFrame) (name : string) (values : list cell)
  : DataFrame :=
  match index_of name (header df) with
  | Some i =>
      mkDF (header df)
           (map (fun rv => set_nth i (snd rv) (fst rv)) (combine (rows df) values))
  | None =>
      mkDF (header df ++ [name])%list
           (map (fun rv => (fst rv ++ [snd rv])%list) (combine (rows df) values))
  end.

(** [int(mask.sum())] *)
Definition count_true (mask : list bool) : nat :=
  List.length (filter (fun b => b) mask).

End Frame.
Export Frame.

(** ** Preprocessing *)

Module Preprocessor.

(** [scipy.stats.zscore(a, nan_policy='omit')]: every value minus the mean
    of the non-missing values, over their population standard deviation; a
    missing value stays missing, and a column whose non-missing values are
    all equal (or that has none) gives [NaN] everywhere. *)
Definition isconst (a : list num) : bool :=
  match dropna a with
  | [] => true
  | y0 :: ys => forallb (fun y => feq y0 y) (y0 :: ys)
  end.

Definition zscore `{MathLib} (a : list num) : list num :=
  let mn := nanmean a in
  let std := nanstd 0 a in
  let const := isconst a in
  map (fun x => if const then NaN else fdiv (fsub x mn) std) a.

Definition remove_outliers `{MathLib}
    (df : DataFrame) (response_var : string) (z_thresh : num)
  : result (DataFrame * nat) :=
  col <- numeric_column df response_var ;;
  let z := map fabs (zscore col) in
  Ok (select_rows df (map (fun zi => flt zi z_thresh) z),
      count_true (map (fun zi => fge zi z_thresh) z)).

(** The default of the keyword argument [z_thresh]. *)
Definition default_z_thresh : num := of_nat 3.

(** The subtractions and the division of the z-score and min-max branches
    are array arithmetic on float64: each result is rounded and can
    overflow. *)
Definition apply_normalization `{MathLib}
    (df : DataFrame) (response_var : string) (method : string)
  : result DataFrame :=
  if String.eqb method "log1p" then
    col <- numeric_column df response_var ;;
    Ok (set_column df response_var (map (fun x => CNum (flog1p x)) col))
  else if String.eqb method "zscore" then
    col <- numeric_column df response_var ;;
    let mean := nanmean col in
    let std := nanstd 1 col in
    Ok (set_column df response_var
          (map (fun x => CNum (div64 (sub64 x mean) std)) col))
  else if String.eqb method "minmax" then
    col <- numeric_column df response_var ;;
    let mn := nanmin col in
    let mx := nanmax col in
    Ok (set_column df response_var
          (map (fun x => CNum (div64 (sub64 x mn) (sub64 mx mn))) col))
  else Ok df.

(** One derived column: [df[target] = df[numerator] / df[denominator]] when
    both columns are there. *)
Definition derive (target numerator denominator : string) (df : DataFrame)
  : result DataFrame :=
  if has_column df numerator && has_column df denominator then
    a <- numeric_column df numerator ;;
    b <- numeric_column df denominator ;;
    Ok (set_column df target
          (map (fun ab => CNum (fdiv (fst ab) (snd ab))) (combine a b)))
  else Ok df.

Definition create_derived_vars (df : DataFrame) : result DataFrame :=
  df <- derive "ROS_per_Nucleus" "NumROS" "NumNuclei" df ;;
  df <- derive "Fluo_per_Nucleus" "TotalROSFluorescence" "NumNuclei" df ;;
  df <- derive "Area_per_ROS" "TotalROSArea" "NumROS" df ;;
  derive "LDAreaRed_per_Nucleus" "TotalLDAreaRed" "NumNuclei" df.

End Preprocessor.

(** ** Formatting *)

Module Format.

Definition string_of_N (n : N) : string := NilZero.string_of_uint (N.to_uint n).
Definition string_of_nat (n : nat) : string := string_of_N (N.of_nat n).

(** The nearest integer to a non-negative rational, ties to even. *)
Definition round_half_even (q : Q) : Z :=
  let n := Qnum q in
  let d := Zpos (Qden q) in
  let fl := (n / d)%Z in
  let r2 := (2 * (n mod d))%Z in
  if (r2 <? d)%Z then fl
  else if (d <? r2)%Z then (fl + 1)%Z
  else if Z.even fl then fl else (fl + 1)%Z.

(** [format(x, '.<prec>f')] *)
Definition format_fixed (prec : nat) (x : num) : string :=
  match x with
  | NaN => "nan"
  | PInf => "inf"
  | NInf => "-inf"
  | Fin q =>
      let scale := (10 ^ Z.of_nat prec)%Z in
      let n := round_half_even (Qabs q * inject_Z scale)%Q in
      let whole := string_of_N (Z.to_N (n / scale)) in
      let frac := PyStr.drop 1 (string_of_N (Z.to_N (scale + n mod scale))) in
      (if Qltb q 0 then "-" else "") ++ whole ++
      (match prec with O => "" | S _ => "." ++ frac end)
  end.

(** [sep.join(items)] *)
Fixpoint join (sep : string) (items : list string) : string :=
  match items with
  | [] => ""
  | [x] => x
  | x :: rest => x ++ sep ++ join sep rest
  end.

End Format.

(** ** What the statistics libraries return *)

Module Lib.

(** A fitted OLS model ([RegressionResults]): the attributes the module
    reads.  [coefficients] lists the terms of the design with the estimate
    and the p-value of each; [params] and [pvalues] are the two Series over
    that one index. *)
Record FittedModel : Type := mkModel {
  rsquared : num;
  ssr : num;
  df_resid : num;
  coefficients : list (string * (num * num));
  summary_text : string
}.

Definition params (model : FittedModel) : list (string * num) :=
  map (fun t => (fst t, fst (snd t))) (coefficients model).

Definition pvalues (model : FittedModel) : list (string * num) :=
  map (fun t => (fst t, snd (snd t))) (coefficients model).

(** One row of an ANOVA table; [eta_sq] is the column the module appends. *)
Record AnovaRow : Type := mkRow {
  term : string;
  sum_sq : num;
  df : num;
  F : num;
  PR : num;
  eta_sq : option num
}.

(** [TukeyHSDResults]: the summary text and [_results_table.data], whose
    first row is the header. *)
Record TukeyResults : Type := mkTukey {
  tukey_text : string;
  tukey_data : list (list string)
}.

(** The functions [a * exp(b * x)] and [a + b * log(x)] are passed to
    [curve_fit] as they are. *)
Definition model_fn : Type := num -> num -> num -> num.

Class StatsLib : Type := {
  (** [ols(formula, data=df).fit()] *)
  ols_fit : string -> DataFrame -> result FittedModel;
  (** The rows [anova_lm(model, typ=2)] computes for the terms of the design. *)
  typ2_terms : FittedModel -> result (list AnovaRow);
  anova_to_string : list AnovaRow -> string;
  (** [pairwise_tukeyhsd(endog, groups)] *)
  pairwise_tukeyhsd : list cell -> list cell -> result TukeyResults;
  (** [np.polyfit(x, y, deg)]: the coefficients, highest power first. *)
  polyfit : list num -> list num -> nat -> result (list num);
  (** [curve_fit(f, xdata, ydata, maxfev=...)]: the two parameters. *)
  curve_fit : model_fn -> list num -> list num -> option N -> result (num * num);
  (** [pd.to_numeric(text, errors='coerce')] on one text. *)
  to_numeric : string -> num;
  (** [np.polyfit] refuses an empty [x]; [curve_fit] refuses empty data. *)
  polyfit_empty : forall ys deg, is_ok (polyfit [] ys deg) = false;
  curve_fit_empty : forall f ys maxfev, is_ok (curve_fit f [] ys maxfev) = false
}.

End Lib.
Export Lib.

(** ** Statistical analysis *)

Module Stats.

Definition C (f : string) : string := "C(" ++ f ++ ")".

Definition anova_formula (response_var : string) (factors : list string) : string :=
  response_var ++ " ~ " ++ Format.join " + " (map C factors)
    ++ " + " ++ Format.join ":" (map C factors).

(** [sm.stats.anova_lm(model, typ=2)]: the rows of the terms, then the row
    ['Residual'] that carries [model.ssr] and [model.df_resid]. *)
Definition anova_lm `{StatsLib} (model : FittedModel) : result (list AnovaRow) :=
  terms <- typ2_terms model ;;
  Ok (terms ++ [mkRow "Residual" (ssr model) (df_resid model) NaN NaN None])%list.

(** [Series.sum()] skips [NaN]. *)
Definition series_sum (xs : list num) : num := fsum (dropna xs).

Definition with_eta_sq (model : FittedModel) (anova : list AnovaRow) : list AnovaRow :=
  let total := fadd (series_sum (map sum_sq anova)) (ssr model) in
  map (fun r => mkRow (term r) (sum_sq r) (df r) (F r) (PR r)
                      (Some (fdiv (sum_sq r) total))) anova.

Definition perform_anova `{StatsLib}
    (df : DataFrame) (response_var : string) (factors : list string)
  : result (FittedModel * list AnovaRow) :=
  let formula := anova_formula response_var factors in
  model <- ols_fit formula df ;;
  anova <- anova_lm model ;;
  Ok (model, with_eta_sq model anova).

Definition cell_eqb (a b : cell) : bool :=
  match a, b with
  | CNum x, CNum y => feq x y
  | CStr s, CStr t => String.eqb s t
  | _, _ => false
  end.

Definition is_missing (c : cell) : bool :=
  match c with CNum x => is_nan x | CStr _ => false end.

(** [Series.unique()] without the missing values: first occurrences, in order. *)
Fixpoint distinct (seen : list cell) (cs : list cell) : list cell :=
  match cs with
  | [] => []
  | c :: cs' =>
      if is_missing c || existsb (cell_eqb c) seen
      then distinct seen cs'
      else c :: distinct (c :: seen) cs'
  end.

(** [Series.nunique()] *)
Definition nunique (cs : list cell) : nat := List.length (distinct [] cs).

(** What [run_tukey] returns: a bare [str], or a 2-tuple. *)
Inductive tukey_value : Type :=
| Bare (text : string)
| Pair (text : string) (data : list (list string)).

Definition skipped_message (factor : string) : string :=
  "Tukey HSD skipped: only one group in '" ++ factor ++ "'".

Definition run_tukey `{StatsLib}
    (df : DataFrame) (response_var : string) (factor : string)
  : result tukey_value :=
  groups <- column df factor ;;
  if (nunique groups <? 2)%nat then Ok (Bare (skipped_message factor))
  else
    endog <- column df response_var ;;
    tukey <- pairwise_tukeyhsd endog groups ;;
    Ok (Pair (tukey_text tukey) (tukey_data tukey)).

Definition regression_formula (response_var num_var cat_var : string) : string :=
  response_var ++ " ~ " ++ num_var ++ " * " ++ C cat_var.

Definition run_regression `{StatsLib}
    (df : DataFrame) (response_var num_var cat_var : string)
  : result (FittedModel * string) :=
  model <- ols_fit (regression_formula response_var num_var cat_var) df ;;
  Ok (model, summary_text model).

(** *** Unpacking [result, data = run_tukey(...)] *)

(** A target of the unpacking: a text, or the table. *)
Inductive pyobj : Type :=
| OStr (s : string)
| OTable (data : list (list string)).

Definition unpack2 (v : tukey_value) : result (pyobj * pyobj) :=
  match v with
  | Pair text data => Ok (OStr text, OTable data)
  | Bare (String a (String b EmptyString)) =>
      Ok (OStr (String a ""), OStr (String b ""))
  | Bare (String _ (String _ (String _ _))) =>
      Raise (ValueError "too many values to unpack (expected 2)")
  | Bare s =>
      Raise (ValueError ("not enough values to unpack (expected 2, got "
                         ++ Format.string_of_nat (String.length s) ++ ")"))
  end.

End Stats.

(** ** Interpretation of a fitted model *)

Module Interpreter.

(** [series.get(key, default)] and [series[key]] *)
Definition series_get (s : list (string * num)) (key : string) (default : num) : num :=
  match find (fun kv => String.eqb (fst kv) key) s with
  | Some kv => snd kv
  | None => default
  end.

Definition series_at (s : list (string * num)) (key : string) : result num :=
  match find (fun kv => String.eqb (fst kv) key) s with
  | Some kv => Ok (snd kv)
  | None => Raise (KeyError key)
  end.

(** [series.index] *)
Definition index (s : list (string * num)) : list string := map fst s.

Definition strength (r2 : num) : string :=
  if flt r2 (Fin (2 # 10)) then "weak"
  else if flt r2 (Fin (5 # 10)) then "moderate"
  else "strong".

Definition direction (coef_dose : num) : string :=
  if fgt coef_dose (Fin 0) then "increase"
  else if flt coef_dose (Fin 0) then "decrease"
  else "remain constant".

Definition significance (p_value : num) : string :=
  if flt p_value (Fin (5 # 100)) then "significant" else "not significant".

(** The body of the [for term in model.params.index] loop: the sentence to
    append for [term], if any. *)
Definition moderation_sentence (model : FittedModel) (term : string)
  : result string :=
  if PyStr.contains "Dose_numeric:C(" term then
    p <- series_at (pvalues model) term ;;
    if flt p (Fin (5 # 100)) then
      after_colon <- Loader.getitem (PyStr.split ":" term) 1 ;;
      before_bracket <- Loader.getitem (PyStr.split "[" after_colon) 0 ;;
      let factor_name := PyStr.replace ")" "" (PyStr.replace "C(" "" before_bracket) in
      after_T <- Loader.getitem (PyStr.split "[T." term) 1 ;;
      level <- Loader.getitem (PyStr.split "]" after_T) 0 ;;
      Ok (" There is also evidence that dose effect differs for group '" ++ level
          ++ "' of factor '" ++ factor_name ++ "'.")
    else Ok ""
  else Ok "".

Fixpoint moderation_loop (model : FittedModel) (terms : list string)
    (conclusion : string) : result string :=
  match terms with
  | [] => Ok conclusion
  | term :: rest =>
      extra <- moderation_sentence model term ;;
      moderation_loop model rest (conclusion ++ extra)
  end.

Definition generate_conclusion (model : FittedModel) (response_var cat_factor : string)
  : result string :=
  let r2 := rsquared model in
  let coef_dose := series_get (params model) "Dose_numeric" (Fin 0) in
  let p_value := series_get (pvalues model) "Dose_numeric" (Fin 1) in
  let conclusion :=
    "Based on an R² of " ++ Format.format_fixed 2 r2 ++ ", there is a "
    ++ strength r2 ++ " association between '" ++ response_var ++ "' "
    ++ "and the dose. The coefficient suggests the response tends to "
    ++ direction coef_dose ++ " as the dose increases. "
    ++ "This effect was " ++ significance p_value
    ++ " (p = " ++ Format.format_fixed 4 p_value ++ ")." in
  moderation_loop model (index (params model)) conclusion.

End Interpreter.

(** ** The regression comparison plot *)

Module Explorer.

(** A curve: the sampled abscissas and ordinates. *)
Definition curve : Type := (list num * list num)%type.

(** What the figure shows: the scatter of the data, one labelled line per
    entry of the dict [models] (in insertion order), the texts, and where
    it was saved. *)
Record Figure : Type := mkFigure {
  scatter : curve;
  models : list (string * curve);
  title : string;
  xlabel : string;
  ylabel : string;
  saved_to : option string
}.

(** [np.linspace(start, stop, n)] for [2 <= n]. *)
Definition linspace (start stop : num) (n : nat) : list num :=
  let step := fdiv (fsub stop start) (of_nat (n - 1)) in
  (map (fun i => fadd (fmul (of_nat i) step) start) (seq 0 (n - 1)) ++ [stop])%list.

(** [np.polyval(p, x)] on one point, and on an array. *)
Definition polyval1 (p : list num) (x : num) : num :=
  fold_left (fun acc c => fadd (fmul acc x) c) p (Fin 0).

Definition polyval (p : list num) (xs : list num) : list num := map (polyval1 p) xs.

Definition exponential `{MathLib} : model_fn :=
  fun x a b => fmul a (fexp (fmul b x)).

Definition logarithmic `{MathLib} : model_fn :=
  fun x a b => fadd a (fmul b (flog x)).

(** [models[name] = value] for a name not yet in the dict. *)
Definition put (models : list (string * curve)) (name : string) (value : curve)
  : list (string * curve) := (models ++ [(name, value)])%list.

(** A [try: ... except Exception: pass] block that adds one entry. *)
Definition try_put (models : list (string * curve)) (name : string)
    (attempt : result curve) : list (string * curve) :=
  match attempt with
  | Ok value => put models name value
  | Raise _ => models
  end.

Definition coefficient (p : list num) (i : nat) : result num :=
  match nth_error p i with
  | Some c => Ok c
  | None => Raise (IndexError "index out of bounds")
  end.

(** [df_exp[x]] and [df_exp[y]] are the columns [x] and [y] at the rows
    [df[y] > 0] selects, and likewise for [df_log] and [df_loglin].  The
    figure is the record of what the matplotlib calls are given; the file
    of [fig.savefig(save_path)] is written by the caller in [App], where
    writing can fail. *)
Definition plot_regression_models `{MathLib} `{StatsLib}
    (df : DataFrame) (x y : string) (save_path : option string)
  : result Figure :=
  xs <- numeric_column df x ;;
  ys <- numeric_column df y ;;
  let x_vals := linspace (nanmin xs) (nanmax xs) 200 in
  lin <- polyfit xs ys 1 ;;
  let models := put [] "Linear" (x_vals, polyval lin x_vals) in
  poly2 <- polyfit xs ys 2 ;;
  let models := put models "Poly2" (x_vals, polyval poly2 x_vals) in
  poly3 <- polyfit xs ys 3 ;;
  let models := put models "Poly3" (x_vals, polyval poly3 x_vals) in
  (* Exponential (fit only on positive y) *)
  let positive_y := map (fun v => fgt v (Fin 0)) ys in
  let models :=
    try_put models "Exponential"
      (popt <- curve_fit exponential (select xs positive_y) (select ys positive_y)
                 (Some 10000%N) ;;
       Ok (x_vals, map (fun v => fmul (fst popt) (fexp (fmul (snd popt) v))) x_vals)) in
  (* Logarithmic (fit on x > 0) *)
  let positive_x := map (fun v => fgt v (Fin 0)) xs in
  let models :=
    try_put models "Logarithmic"
      (popt <- curve_fit logarithmic (select xs positive_x) (select ys positive_x)
                 None ;;
       Ok (x_vals, map (fun v => fadd (fst popt) (fmul (snd popt) (flog v))) x_vals)) in
  (* Log-Linear (log(y) = a + b * x) *)
  let models :=
    try_put models "Log-Linear"
      (let log_y := map flog (select ys positive_y) in
       linfit <- polyfit (select xs positive_y) log_y 1 ;;
       c1 <- coefficient linfit 1 ;;
       c0 <- coefficient linfit 0 ;;
       Ok (x_vals, map (fun v => fexp (fadd c1 (fmul c0 v))) x_vals)) in
  Ok (mkFigure (xs, ys) models
        ("Regression Fits: " ++ y ++ " vs " ++ x) x y save_path).

(** The names in the legend besides ['Data']: the keys of [models]. *)
Definition model_names (fig : Figure) : list string := map fst (models fig).

End Explorer.

(** ** The analysis run *)

Module App.

(** The widgets [run_analysis] reads: the loaded frame, the three combo
    boxes, the factor check boxes in the order of [self.factors], the two
    flags and the normalisation combo box. *)
Record AnalyzerApp : Type := mkApp {
  df : DataFrame;
  response_combo : string;
  factor_vars : list (string * bool);
  cellline_combo : string;
  np_combo : string;
  outlier_var : bool;
  derived_var : bool;
  norm_combo : string
}.

(** What a run writes into its output directory. *)
Inductive artefact : Type :=
| AnovaCsv (table : list AnovaRow)
| TukeyCsv (header : list string) (body : list (list string))
| PlotGridPng
| RegressionTxt (summary : string)
| ConclusionTxt (conclusion : string)
| RegressionModelsPng (fig : Explorer.Figure)
| FilteredCsv (data : DataFrame).

(** What a run does that can be seen from outside, in order: a directory
    or a file appears in the list once the call that makes it has
    returned. *)
Inductive event : Type :=
| Cleared
| ErrorBox (title message : string)
| Logged (text : string)
| MadeDir (path : string)
| Wrote (path : string) (content : artefact)
| Drew.

(** The seaborn / matplotlib block of the plot grid, from [plt.subplots] to
    [fig.tight_layout()], as one call that draws or raises. *)
Class PlotLib : Type := {
  plot_grid : DataFrame -> string -> result unit
}.

(** What a run takes from the operating system: the directory of the
    module ([os.path.dirname(__file__)]), [os.path.join],
    [os.makedirs(path, exist_ok=True)], and the creation of the file at a
    path ([to_csv], [savefig], or [open(path, "w")] with its [write]); the
    last two return or raise an [OSError]. *)
Class OsLib : Type := {
  module_dir : string;
  os_path_join : string -> string -> string;
  makedirs : string -> result unit;
  write_file : string -> result unit
}.

(** A computation that emits events and may raise; the events emitted
    before a raise stay emitted. *)
Definition run (A : Type) : Type := (list event * result A)%type.

Definition ret {A : Type} (a : A) : run A := ([], Ok a).
Definition emit (e : event) : run unit := ([e], Ok tt).
Definition lift {A : Type} (r : result A) : run A := ([], r).

Definition rbind {A B : Type} (m : run A) (k : A -> run B) : run B :=
  match m with
  | (es, Ok a) => let (es', r) := k a in ((es ++ es')%list, r)
  | (es, Raise e) => (es, Raise e)
  end.

(** [try: m except Exception as e: handler(e)] *)
Definition try_except (m : run unit) (handler : exn -> run unit) : run unit :=
  match m with
  | (es, Raise e) => let (es', r) := handler e in ((es ++ es')%list, r)
  | ok => ok
  end.

Notation "x <~ m ;; k" := (rbind m (fun x => k))
  (at level 61, m at next level, right associativity).
Notation "m ;;; k" := (rbind m (fun _ => k))
  (at level 61, right associativity).

Definition log (text : string) : run unit := emit (Logged text).

(** [df[df[name] == value]] *)
Definition filter_equal (d : DataFrame) (name value : string) : result DataFrame :=
  cs <- column d name ;;
  Ok (select_rows d (map (fun c => Stats.cell_eqb c (CStr value)) cs)).

(** [pd.to_numeric(df['Dose'].str.replace("Gy", "").str.strip(), errors='coerce')]:
    a cell of the object column that is not a text gives [NaN]. *)
Definition dose_numeric `{StatsLib} (c : cell) : cell :=
  match c with
  | CStr s => CNum (to_numeric (PyStr.strip (PyStr.replace "Gy" "" s)))
  | CNum _ => CNum NaN
  end.

(** [df.dropna(subset=[name])] *)
Definition dropna_subset (d : DataFrame) (name : string) : result DataFrame :=
  cs <- column d name ;;
  Ok (select_rows d (map (fun c => negb (Stats.is_missing c)) cs)).

(** [x or "ALL"] *)
Definition or_all (x : string) : string :=
  match x with EmptyString => "ALL" | _ => x end.

(** The directory name [make_output_dir] builds under [Análise]. *)
Definition group_name (cellline radiation np_status : string) : string :=
  PyStr.replace " " "_" (cellline ++ "_" ++ radiation ++ "_" ++ np_status).

Definition make_output_dir `{OsLib} (cellline radiation np_status : string)
  : run string :=
  let base_dir := os_path_join module_dir "Análise" in
  lift (makedirs base_dir) ;;;
  emit (MadeDir base_dir) ;;;
  let output_dir := os_path_join base_dir (group_name cellline radiation np_status) in
  lift (makedirs output_dir) ;;;
  emit (MadeDir output_dir) ;;;
  ret output_dir.

(** The creation of the file at [path]; [content] is what it holds once the
    call has returned. *)
Definition write `{OsLib} (path : string) (content : artefact) : run unit :=
  lift (write_file path) ;;;
  emit (Wrote path content).

(** One turn of [for f in factors] in the Tukey phase. *)
Definition tukey_step `{StatsLib} `{OsLib}
    (d : DataFrame) (y f : string) (output_dir : string) : run unit :=
  try_except
    (v <~ lift (Stats.run_tukey d y f) ;;
     rd <~ lift (Stats.unpack2 v) ;;
     let (result, data) := (rd : Stats.pyobj * Stats.pyobj) in
     match data with
     | Stats.OTable (h :: body) =>
         write (os_path_join output_dir ("tukey_" ++ f ++ ".csv")) (TukeyCsv h body) ;;;
         log ("📌 Tukey HSD (" ++ f ++ "):" ++ String "010" ""
              ++ match result with Stats.OStr t => t | Stats.OTable _ => "" end)
     | Stats.OTable [] => lift (Raise (IndexError "list index out of range"))
     | Stats.OStr _ =>
         lift (Raise (ValueError "DataFrame constructor not properly called!"))
     end)
    (fun e => log ("❌ Tukey error (" ++ f ++ "): " ++ exn_message e)).

Fixpoint tukey_phase `{StatsLib} `{OsLib}
    (d : DataFrame) (y : string) (factors : list string) (output_dir : string)
  : run unit :=
  match factors with
  | [] => ret tt
  | f :: rest => tukey_step d y f output_dir ;;; tukey_phase d y rest output_dir
  end.

Definition plot_grid_phase `{PlotLib} `{OsLib}
    (d : DataFrame) (y : string) (output_dir : string) : run unit :=
  try_except
    (lift (plot_grid d y) ;;;
     write (os_path_join output_dir (y ++ "_plot_grid.png")) PlotGridPng ;;;
     emit Drew)
    (fun e => log ("❌ Grid plot error: " ++ exn_message e)).

(** [plot_regression_models] saves the figure as its last step. *)
Definition regression_phase `{MathLib} `{StatsLib} `{OsLib}
    (d : DataFrame) (y : string) (factors : list string) (output_dir : string)
  : run unit :=
  try_except
    (if has_column d "Dose_numeric" then
       cat <~ lift (match factors with
                    | _ :: f1 :: _ => Ok f1
                    | f0 :: _ => Ok f0
                    | [] => Raise (IndexError "list index out of range")
                    end) ;;
       ms <~ lift (Stats.run_regression d y "Dose_numeric" cat) ;;
       let (model, summary) := (ms : FittedModel * string) in
       write (os_path_join output_dir "regression.txt") (RegressionTxt summary) ;;;
       line <~ lift (PyStr.first_line summary) ;;
       log (String "010" "" ++ "📉 Regression summary:" ++ String "010" "" ++ line) ;;;
       conclusion <~ lift (Interpreter.generate_conclusion model y cat) ;;
       write (os_path_join output_dir "conclusion.txt") (ConclusionTxt conclusion) ;;;
       log (String "010" "" ++ "🧠 Conclusion:" ++ String "010" "" ++ conclusion) ;;;
       let save_path := os_path_join output_dir (y ++ "_regression_models.png") in
       reg_fig <~ lift (Explorer.plot_regression_models d "Dose_numeric" y
                          (Some save_path)) ;;
       write save_path (RegressionModelsPng reg_fig)
     else ret tt)
    (fun e => log ("❌ Regression error: " ++ exn_message e)).

(** Everything [run_analysis] does after the ANOVA phase.  The last
    [to_csv] is in no [try] block. *)
Definition later_phases `{MathLib} `{StatsLib} `{PlotLib} `{OsLib}
    (d : DataFrame) (y : string) (factors : list string) (output_dir : string)
  : run unit :=
  tukey_phase d y factors output_dir ;;;
  plot_grid_phase d y output_dir ;;;
  regression_phase d y factors output_dir ;;;
  write (os_path_join output_dir "filtered_data.csv") (FilteredCsv d) ;;;
  log (String "010" "" ++ "✅ Saved in: " ++ output_dir).

(** The ANOVA phase and what follows it: the [try] block fits, writes the
    table and logs it; its [except] branch logs and returns from
    [run_analysis]. *)
Definition anova_phase `{MathLib} `{StatsLib} `{PlotLib} `{OsLib}
    (d : DataFrame) (y : string) (factors : list string) (output_dir : string)
  : run unit :=
  match Stats.perform_anova d y factors with
  | Ok (model, anova) =>
      match write_file (os_path_join output_dir "anova.csv") with
      | Ok _ =>
          emit (Wrote (os_path_join output_dir "anova.csv") (AnovaCsv anova)) ;;;
          log ("📈 ANOVA:" ++ String "010" "" ++ anova_to_string anova) ;;;
          later_phases d y factors output_dir
      | Raise e =>
          log ("❌ ANOVA failed: " ++ exn_message e)
      end
  | Raise e =>
      log ("❌ ANOVA failed: " ++ exn_message e)
  end.

(** [run_analysis] up to the creation of the output directory: the frame,
    the response and the factors it goes on with, and the path of the
    directory; [None] when it has returned before. *)
Definition prepare `{MathLib} `{StatsLib} `{OsLib} (self : AnalyzerApp)
  : run (option (DataFrame * string * list string * string)) :=
  emit Cleared ;;;
  if empty (df self)
  then emit (ErrorBox "Error" "Load data first.") ;;; ret None
  else
    let d := df self in
    let y := response_combo self in
    let factors := map fst (filter snd (factor_vars self)) in
    match y, factors with
    | EmptyString, _ | _, [] =>
        log "❗ Select a response variable and factors." ;;; ret None
    | _, _ =>
        (* Filters *)
        let cl := cellline_combo self in
        d <~ lift (if String.eqb cl "--" then Ok d else filter_equal d "CellLine" cl) ;;
        let np_type := np_combo self in
        d <~ lift (if String.eqb np_type "--" then Ok d else filter_equal d "NP" np_type) ;;
        dose <~ lift (column d "Dose") ;;
        let d := set_column d "Dose_numeric" (map dose_numeric dose) in
        d <~ lift (dropna_subset d y) ;;
        d <~ (if derived_var self
              then d' <~ lift (Preprocessor.create_derived_vars d) ;;
                   log "📐 Derived variables added." ;;; ret d'
              else ret d) ;;
        d <~ (if outlier_var self
              then r <~ lift (Preprocessor.remove_outliers d y
                                Preprocessor.default_z_thresh) ;;
                   log ("🧹 Removed outliers: " ++ Format.string_of_nat (snd r)) ;;;
                   ret (fst r)
              else ret d) ;;
        if empty d || (len d <? 5)%nat
        then log "⚠️ Too few data points." ;;; ret None
        else
          let norm := norm_combo self in
          d <~ (if String.eqb norm "None" then ret d
                else d' <~ lift (Preprocessor.apply_normalization d y norm) ;;
                     log ("📊 Normalized using: " ++ norm) ;;; ret d') ;;
          output_dir <~ make_output_dir (or_all cl) "ALL" (or_all np_type) ;;
          ret (Some (d, y, factors, output_dir))
    end.

Definition run_analysis `{MathLib} `{StatsLib} `{PlotLib} `{OsLib}
    (self : AnalyzerApp) : run unit :=
  p <~ prepare self ;;
  match p with
  | Some (d, y, factors, output_dir) => anova_phase d y factors output_dir
  | None => ret tt
  end.

End App.

(** ** Sample libraries and data

    Concrete values for the fields of [MathLib], [StatsLib], [PlotLib] and
    [OsLib], so that the functions above can be run on sample frames. *)

Module Sample.

(** A square root that is exact on the squares of rationals. *)
Definition sqrt_on_squares (q : Q) : Q :=
  Qmake (Z.sqrt (Qnum q * Zpos (Qden q))) (Qden q).

(** First-order stand-ins for the transcendental functions, and an
    arithmetic in which every rational is a value: nothing is rounded and
    nothing overflows. *)
#[refine] #[export] Instance math : MathLib := {
  sqrtQ := sqrt_on_squares;
  log1pQ := fun q => q;
  logQ := fun q => (q - 1)%Q;
  expQ := fun q => (1 + q)%Q;
  rnd := Fin
}.
Proof.
  - intros a b Hab. apply Qle_bool_iff. exact Hab.
  - reflexivity.
  - reflexivity.
Defined.

(** An arithmetic that rounds and overflows: the values are the multiples
    of 1/8 up to 1000 in magnitude, a result is rounded to the nearest of
    them (a tie goes up), and a result beyond 1000 in magnitude overflows to
    an infinity. *)
Definition nearest_eighth (q : Q) : num :=
  if Qltb 1000 q then PInf
  else if Qltb q (-1000) then NInf
  else Fin (Qred (Qfloor (q * 8 + (1 # 2)) # 8)).

Definition coarse : MathLib.
Proof.
  refine {| sqrtQ := sqrt_on_squares;
            log1pQ := fun q => q;
            logQ := fun q => (q - 1)%Q;
            expQ := fun q => (1 + q)%Q;
            rnd := nearest_eighth |}.
  - intros a b Hab. unfold nearest_eighth, Qltb.
    destruct (Qle_bool b 1000) eqn:Eb; cbn [negb].
    + assert (Ea : Qle_bool a 1000 = true).
      { apply Qle_bool_iff. apply Qle_bool_iff in Eb. lra. }
      rewrite Ea. cbn [negb].
      destruct (Qle_bool (-1000) a) eqn:Ea'; cbn [negb].
      * assert (Eb' : Qle_bool (-1000) b = true).
        { apply Qle_bool_iff. apply Qle_bool_iff in Ea'. lra. }
        rewrite Eb'. cbn [negb fle]. apply Qle_bool_iff.
        rewrite !Qred_correct.
        unfold Qle. cbn [Qnum Qden]. apply Z.mul_le_mono_nonneg_r; [lia|].
        apply Qfloor_resp_le. lra.
      * destruct (Qle_bool (-1000) b); reflexivity.
    + destruct (Qle_bool a 1000); cbn [negb]; [|reflexivity].
      destruct (Qle_bool (-1000) a); reflexivity.
  - reflexivity.
  - reflexivity.
Defined.

(** A fitted model with an intercept and a dose slope. *)
Definition fitted : FittedModel :=
  mkModel (Fin (1 # 2)) (Fin 4) (Fin 3)
    [("Intercept", (Fin 1, Fin (1 # 100)));
     ("Dose_numeric", (Fin 2, Fin (1 # 50)))]
    "OLS Regression Results".

(** The line through the first two points, padded to the degree asked for:
    the least-squares polynomial when the points are on one line. *)
Definition line_fit (xs ys : list num) (deg : nat) : result (list num) :=
  match xs, ys with
  | [], _ => Raise (TypeError "expected non-empty vector for x")
  | x0 :: x1 :: _, y0 :: y1 :: _ =>
      let b := fdiv (fsub y1 y0) (fsub x1 x0) in
      Ok (repeat (Fin 0) (deg - 1) ++ [b; fsub y0 (fmul b x0)])%list
  | _, _ => Raise (LibraryError "SVD did not converge in Linear Least Squares")
  end.

(** [curve_fit] that refuses fewer points than parameters and otherwise
    answers with fixed parameters. *)
Definition two_point_fit (f : model_fn) (xs ys : list num) (maxfev : option N)
  : result (num * num) :=
  match xs with
  | _ :: _ :: _ => Ok (Fin 1, Fin 1)
  | _ => Raise (TypeError "Improper input: func input vector length N=2 must not exceed func output vector length M")
  end.

Fixpoint digits (acc : N) (s : string) : option N :=
  match s with
  | EmptyString => Some acc
  | String c s' =>
      let n := N_of_ascii c in
      if ((48 <=? n) && (n <=? 57))%N then digits (acc * 10 + (n - 48))%N s' else None
  end.

(** [pd.to_numeric] on the texts that are a run of digits. *)
Definition numeric_of_digits (s : string) : num :=
  match s with
  | EmptyString => NaN
  | _ => match digits 0%N s with
         | Some n => Fin (inject_Z (Z.of_N n))
         | None => NaN
         end
  end.

(** A library whose [anova_lm] gives [table], everything else succeeding. *)
#[refine] Instance stats (table : result (list AnovaRow)) : StatsLib := {
  ols_fit := fun _ _ => Ok fitted;
  typ2_terms := fun _ => table;
  anova_to_string := fun rows => Format.join (String "010" "") (map term rows);
  pairwise_tukeyhsd := fun _ _ =>
    Ok (mkTukey "Multiple Comparison of Means - Tukey HSD, FWER=0.05"
          [["group1"; "group2"; "meandiff"; "p-adj"; "lower"; "upper"; "reject"];
           ["1"; "2"; "1.0"; "0.01"; "0.5"; "1.5"; "True"]]);
  polyfit := line_fit;
  curve_fit := two_point_fit;
  to_numeric := numeric_of_digits
}.
Proof.
  - reflexivity.
  - reflexivity.
Defined.

Definition dose_rows : list AnovaRow :=
  [mkRow "C(Dose)" (Fin 6) (Fin 1) (Fin 9) (Fin (1 # 100)) None].

(** [anova_lm] succeeds / fails on a singular design. *)
Definition anova_ok : StatsLib := stats (Ok dose_rows).
Definition anova_fails : StatsLib :=
  stats (Raise (ValueError "must have at least one row in constraint matrix")).

#[export] Instance plots : App.PlotLib := {
  App.plot_grid := fun _ _ => Ok tt
}.

(** A file system on which every directory and every file can be made. *)
#[export] Instance os : App.OsLib := {
  App.module_dir := "/opt/StatLysis";
  App.os_path_join := fun a b => a ++ "/" ++ b;
  App.makedirs := fun _ => Ok tt;
  App.write_file := fun _ => Ok tt
}.

(** A file system that is full once the run has written its plots and
    texts: the file [filtered_data.csv] cannot be made. *)
Definition full_disk : App.OsLib := {|
  App.module_dir := "/opt/StatLysis";
  App.os_path_join := fun a b => a ++ "/" ++ b;
  App.makedirs := fun _ => Ok tt;
  App.write_file := fun path =>
    if PyStr.contains "filtered_data.csv" path
    then Raise (OSError "[Errno 28] No space left on device")
    else Ok tt
|}.

Definition n (z : Z) : cell := CNum (of_Z z).

(** Three rows whose second response is missing. *)
Definition with_missing : DataFrame :=
  mkDF ["Dose"; "y"]
    [[CStr "1"; n 1]; [CStr "1"; CNum NaN]; [CStr "2"; n 2]].

(** Three rows with one and the same response. *)
Definition constant : DataFrame :=
  mkDF ["Dose"; "y"]
    [[CStr "1"; n 5]; [CStr "1"; n 5]; [CStr "2"; n 5]].

(** Responses 0, 5 and 10. *)
Definition spread : DataFrame :=
  mkDF ["Dose"; "y"]
    [[CStr "1"; n 0]; [CStr "1"; n 5]; [CStr "2"; n 10]].

(** Four doses, no positive response. *)
Definition no_positive_y : DataFrame :=
  mkDF ["Dose_numeric"; "y"]
    [[n 1; n (-1)]; [n 2; n (-2)]; [n 3; n (-3)]; [n 4; n (-4)]].

(** Six rows of one nanoparticle, two doses. *)
Definition six_rows : DataFrame :=
  mkDF ["CellLine"; "Radiation"; "NP"; "Dose"; "y"]
    [[CStr "A549"; CStr "Xray"; CStr "NDAuNP"; CStr "1"; n 1];
     [CStr "A549"; CStr "Xray"; CStr "NDAuNP"; CStr "1"; n 2];
     [CStr "A549"; CStr "Xray"; CStr "NDAuNP"; CStr "1"; n 3];
     [CStr "A549"; CStr "Xray"; CStr "NDAuNP"; CStr "2Gy"; n 4];
     [CStr "A549"; CStr "Xray"; CStr "NDAuNP"; CStr "2Gy"; n 5];
     [CStr "A549"; CStr "Xray"; CStr "NDAuNP"; CStr "2Gy"; n 6]].

(** The application with [six_rows] loaded, response [y], the factors Dose
    and NP ticked, no filter, no preprocessing. *)
Definition app : App.AnalyzerApp :=
  App.mkApp six_rows "y"
    [("Dose", true); ("Radiation", false); ("CellLine", false); ("NP", true)]
    "--" "--" false false "None".

(** Responses 0, 1/3 and 10: the middle one is not a multiple of 1/8. *)
Definition thirds : DataFrame :=
  mkDF ["Dose"; "y"]
    [[CStr "1"; n 0]; [CStr "1"; CNum (Fin (1 # 3))]; [CStr "2"; n 10]].

(** Responses -600, 0 and 600: their range is beyond 1000. *)
Definition wide : DataFrame :=
  mkDF ["Dose"; "y"]
    [[CStr "1"; n (-600)]; [CStr "1"; n 0]; [CStr "2"; n 600]].

(** Six rows of two doses with one and the same response. *)
Definition six_constant : DataFrame :=
  mkDF ["CellLine"; "Radiation"; "NP"; "Dose"; "y"]
    [[CStr "A549"; CStr "Xray"; CStr "NDAuNP"; CStr "1"; n 5];
     [CStr "A549"; CStr "Xray"; CStr "NDAuNP"; CStr "1"; n 5];
     [CStr "A549"; CStr "Xray"; CStr "NDAuNP"; CStr "1"; n 5];
     [CStr "A549"; CStr "Xray"; CStr "NDAuNP"; CStr "2Gy"; n 5];
     [CStr "A549"; CStr "Xray"; CStr "NDAuNP"; CStr "2Gy"; n 5];
     [CStr "A549"; CStr "Xray"; CStr "NDAuNP"; CStr "2Gy"; n 5]].

(** The application with [six_constant] loaded, response [y], the factor
    Dose ticked, no filter, and the box "remove outliers" ticked. *)
Definition app_constant : App.AnalyzerApp :=
  App.mkApp six_constant "y"
    [("Dose", true); ("Radiation", false); ("CellLine", false); ("NP", false)]
    "--" "--" true false "None".

End Sample.

(** ** Reading the aggregated files *)

Module Files.

Import App.

(** The first sheet of a workbook as [pd.read_excel] returns it.  [cells]
    is the frame of its numbers and texts.  [other_objects] names the
    columns of dtype object that hold neither a number nor a text, such as
    TRUE / FALSE with blanks: on such a column pandas refuses the accessor
    [.str]. *)
Record Sheet : Type := mkSheet {
  cells : DataFrame;
  other_objects : list string
}.

(** What the module takes from the file system and from Python: the names
    in a folder, the path functions, the first sheet of a workbook (or the
    exception of an unreadable file) and [float(text)] ([None] for its
    [ValueError]). *)
Class IoLib : Type := {
  flavour : OsPath.flavour;
  listdir : string -> result (list string);
  path_join : string -> string -> string;
  basename : string -> string;
  read_first_sheet : string -> result Sheet;
  py_float : string -> option num
}.

(** [s.startswith(p)] and [s.endswith(p)] *)
Definition startswith (p s : string) : bool := prefix p s.

Definition endswith (p s : string) : bool :=
  prefix (PyStr.rev_string "" p) (PyStr.rev_string "" s).

(** [df[k] = v] for a text [v]: the same text in every row. *)
Definition set_constant (d : DataFrame) (k v : string) : DataFrame :=
  set_column d k (repeat (CStr v) (len d)).

Definition attach_metadata (metadata : Loader.dict) (d : DataFrame) : DataFrame :=
  fold_left (fun d kv => set_constant d (fst kv) (snd kv)) metadata d.

Definition is_text (c : cell) : bool :=
  match c with CStr _ => true | CNum _ => false end.

Definition mem (name : string) (names : list string) : bool :=
  existsb (String.eqb name) names.

(** The columns [df.select_dtypes(include='object')] keeps: those that hold
    a text, and those of [others], which hold other Python objects. *)
Definition object_columns (others : list string) (d : DataFrame) : list string :=
  filter (fun name =>
            mem name others
            || match column d name with
               | Ok cs => existsb is_text cs
               | Raise _ => false
               end) (header d).

(** [df[col].str]: pandas raises on a column of dtype object that holds no
    text. *)
Definition str_accessor (others : list string) (col : string) : result unit :=
  if mem col others
  then Raise (AttributeError "Can only use .str accessor with string values!")
  else Ok tt.

(** One cell of [series.str.contains(',', regex=False)]; a cell that is not
    a text gives [NaN], which [any()] skips. *)
Definition has_comma (c : cell) : bool :=
  match c with
  | CStr s => PyStr.contains "," s
  | CNum _ => false
  end.

(** One cell of [series.str.replace(',', '.').astype(float)]: a cell that is
    not a text becomes [NaN]; a text that [float] refuses fails the column. *)
Definition comma_to_float `{IoLib} (c : cell) : option cell :=
  match c with
  | CStr s => option_map CNum (py_float (PyStr.replace "," "." s))
  | CNum _ => Some (CNum NaN)
  end.

Fixpoint all_floats `{IoLib} (cs : list cell) : option (list cell) :=
  match cs with
  | [] => Some []
  | c :: cs' =>
      match comma_to_float c, all_floats cs' with
      | Some v, Some vs => Some (v :: vs)
      | _, _ => None
      end
  end.

(** The body of the loop over the object columns, with its [try] whose
    [except] passes. *)
Definition convert_column `{IoLib} (d : DataFrame) (col : string) : DataFrame :=
  match column d col with
  | Ok cs =>
      if existsb has_comma cs
      then match all_floats cs with
           | Some values => set_column d col values
           | None => d
           end
      else d
  | Raise _ => d
  end.

(** The loop [for col in df.select_dtypes(include='object')]: the accessor
    [.str] of the [if] is outside the inner [try], so its exception ends
    the loop. *)
Fixpoint convert_columns `{IoLib} (others cols : list string) (d : DataFrame)
  : result DataFrame :=
  match cols with
  | [] => Ok d
  | col :: rest =>
      _ <- str_accessor others col ;;
      convert_columns others rest (convert_column d col)
  end.

(** The body of the outer [try]: the sheet is read, the metadata are
    assigned (a column of the sheet with the name of one of them is
    replaced by texts), and the columns of dtype object are converted. *)
Definition read_and_convert `{IoLib} (metadata : Loader.dict) (filepath : string)
  : result DataFrame :=
  sheet <- read_first_sheet filepath ;;
  let d := attach_metadata metadata (cells sheet) in
  let others :=
    filter (fun name => negb (mem name (map fst metadata))) (other_objects sheet) in
  convert_columns others (object_columns others d) d.

Definition read_aggregated_excel `{IoLib} (filepath : string) : run DataFrame :=
  metadata <~ lift (Loader.parse_metadata_from_filename flavour (basename filepath)) ;;
  match read_and_convert metadata filepath with
  | Ok d => ret d
  | Raise e =>
      emit (ErrorBox "Read Error" (filepath ++ ":" ++ String "010" "" ++ exn_message e)) ;;;
      ret (mkDF [] [])
  end.

(** [pd.concat(dfs, ignore_index=True)]: the columns of all frames in the
    order of their first appearance, and the rows of the frames one after
    the other, with [NaN] where a frame has no such column. *)
Definition union_headers (dfs : list DataFrame) : list string :=
  fold_left
    (fun acc d =>
       (acc ++ filter (fun name => negb (existsb (String.eqb name) acc)) (header d))%list)
    dfs [].

Definition realign (target : list string) (d : DataFrame) (row : list cell)
  : list cell :=
  map (fun name =>
         match index_of name (header d) with
         | Some i => nth i row (CNum NaN)
         | None => CNum NaN
         end) target.

Definition concat (dfs : list DataFrame) : DataFrame :=
  let target := union_headers dfs in
  mkDF target (flat_map (fun d => map (realign target d) (rows d)) dfs).

Definition is_aggregated_name (fname : string) : bool :=
  endswith ".xlsx" fname && startswith "Aggregated_" fname.

(** The loop of [load_all_aggregated_data] over the names of the folder. *)
Fixpoint load_names `{IoLib} (folder : string) (names : list string)
    (dfs : list DataFrame) : run (list DataFrame) :=
  match names with
  | [] => ret dfs
  | fname :: rest =>
      if is_aggregated_name fname
      then d <~ read_aggregated_excel (path_join folder fname) ;;
           load_names folder rest (if empty d then dfs else dfs ++ [d])%list
      else load_names folder rest dfs
  end.

Definition load_all_aggregated_data `{IoLib} (folder : string) : run DataFrame :=
  names <~ lift (listdir folder) ;;
  dfs <~ load_names folder names [] ;;
  ret (match dfs with
       | [] => mkDF [] []
       | _ => concat dfs
       end).

End Files.

(** A folder with two workbooks, a third file that cannot be read and a file
    that is not an aggregated workbook. *)
Module SampleFiles.

Import Files.

Definition sheet : DataFrame :=
  mkDF ["NumROS"; "Area"]
    [[CNum (of_Z 3); CStr "1,5"]; [CNum (of_Z 4); CStr "2,5"]].

(** A sheet with a column of TRUE / FALSE and blanks, whose cells the
    frame does not show. *)
Definition flags : DataFrame :=
  mkDF ["NumROS"; "Treated"]
    [[CNum (of_Z 3); CNum NaN]; [CNum (of_Z 4); CNum NaN]].

Definition decimal (s : string) : option num :=
  if String.eqb s "1.5" then Some (Fin (3 # 2))
  else if String.eqb s "2.5" then Some (Fin (5 # 2))
  else if String.eqb s "2" then Some (Fin 2)
  else None.

#[export] Instance io : IoLib := {
  flavour := OsPath.Posix;
  listdir := fun _ =>
    Ok ["Aggregated_A549_Xray_NDAuNP_2Gy.xlsx"; "notes.txt";
        "Aggregated_A549_Xray_NDAuNP_4Gy.xlsx"; "Aggregated_broken.xlsx"];
  path_join := fun folder fname => folder ++ "/" ++ fname;
  basename := fun p => PyStr.drop (Z.to_nat (PyStr.rfind "/" p + 1)) p;
  read_first_sheet := fun p =>
    if PyStr.contains "broken" p
    then Raise (LibraryError "File is not a zip file")
    else if PyStr.contains "flags" p
    then Ok (mkSheet flags ["Treated"])
    else Ok (mkSheet sheet []);
  py_float := decimal
}.

End SampleFiles.

(** * Properties *)

(** ** Loading: the metadata of a file name *)

Section LoaderFacts.

Import PyStr OsPath Loader.

Lemma prefix_empty (s : string) : prefix "" s = true.
Proof. destruct s; reflexivity. Qed.

Lemma split_go_nonempty (sep : string) (s : string) :
  forall skip cur, (1 <= List.length (split_go sep skip cur s))%nat.
Proof.
  induction s as [|c s IH]; intros skip cur; simpl.
  - lia.
  - destruct skip as [|k]; [|apply IH].
    destruct sep as [|a sep']; simpl; [lia|].
    destruct (ascii_dec a c); [|apply IH].
    destruct (prefix sep' s); simpl; [lia|apply IH].
Qed.

Lemma split_go_step (sep : string) (cur : string) (c : ascii) (s : string) :
  split_go sep 0 cur (String c s)
  = if prefix sep (String c s)
    then rev_string "" cur :: split_go sep (String.length sep - 1) "" s
    else split_go sep 0 (String c cur) s.
Proof. reflexivity. Qed.

Lemma prefix_underscore (c : ascii) (s : string) :
  prefix "_" (String c s) = Ascii.eqb "_" c.
Proof.
  change (prefix "_" (String c s))
    with (if ascii_dec "_" c then prefix "" s else false).
  destruct (ascii_dec "_" c) as [<- | Hne].
  - rewrite prefix_empty. reflexivity.
  - symmetry. apply Ascii.eqb_neq. exact Hne.
Qed.

(** A slice [s[:n]] has no more segments than [s]. *)
Lemma underscore_segments_take (s : string) :
  forall n cur,
    (List.length (split_go "_" 0 cur (take n s))
     <= List.length (split_go "_" 0 cur s))%nat.
Proof.
  induction s as [|c s IH]; intros n cur.
  - destruct n; simpl; lia.
  - destruct n as [|n].
    + apply (split_go_nonempty "_" (String c s) 0 cur).
    + change (take (S n) (String c s)) with (String c (take n s)).
      rewrite !split_go_step, !prefix_underscore.
      destruct (Ascii.eqb "_" c).
      * specialize (IH n ""). simpl in *. lia.
      * apply IH.
Qed.

(** The stem [splitext] returns is the name, or a slice [name[:d]]. *)
Lemma splitext_stem (fl : flavour) (p : string) :
  fst (splitext fl p) = p \/ exists d, fst (splitext fl p) = take d p.
Proof.
  unfold splitext.
  destruct (_ <? _)%Z; [|left; reflexivity].
  destruct (has_non_dot _); [right; eexists; reflexivity|left; reflexivity].
Qed.

Lemma stem_segments (fl : flavour) (p : string) :
  (List.length (split "_" (fst (splitext fl p))) <= List.length (split "_" p))%nat.
Proof.
  destruct (splitext_stem fl p) as [-> | [d ->]]; [lia|].
  apply underscore_segments_take.
Qed.

(** Fewer than five parts: one of the four subscripts raises [IndexError]. *)
Lemma too_few_parts (parts : list string) :
  (List.length parts < 5)%nat ->
  exists msg,
    (cellline <- getitem parts 1 ;;
     radiation <- getitem parts 2 ;;
     np <- getitem parts 3 ;;
     dose <- getitem parts 4 ;;
     Ok [("CellLine", cellline); ("Radiation", radiation); ("NP", np);
         ("Dose", strip (replace "Gy" "" dose))]) = Raise (IndexError msg).
Proof.
  intros Hlen.
  destruct parts as [|a [|b [|c [|d [|e r]]]]]; simpl in *;
    try (eexists; reflexivity); lia.
Qed.

(** C7. [parse_metadata_from_filename] maps
    "Aggregated_A549_Xray_NDAuNP_2Gy.xlsx" to CellLine "A549", Radiation
    "Xray", NP "NDAuNP", Dose "2"; and on every file name that splits on
    ['_'] into fewer than 5 segments it returns the four fields with the
    value "Unknown", without raising. *)
Theorem parse_metadata_from_filename_spec :
  (forall fl,
      parse_metadata_from_filename fl "Aggregated_A549_Xray_NDAuNP_2Gy.xlsx"
      = Ok [("CellLine", "A549"); ("Radiation", "Xray");
            ("NP", "NDAuNP"); ("Dose", "2")])
  /\ (forall fl filename,
         (List.length (split "_" filename) < 5)%nat ->
         parse_metadata_from_filename fl filename
         = Ok [("CellLine", "Unknown"); ("Radiation", "Unknown");
               ("NP", "Unknown"); ("Dose", "Unknown")]).
Proof.
  split.
  - intros []; reflexivity.
  - intros fl filename Hlen.
    unfold parse_metadata_from_filename.
    pose proof (stem_segments fl filename) as Hstem.
    destruct (too_few_parts (split "_" (fst (splitext fl filename)))) as [msg ->];
      [lia|reflexivity].
Qed.

Lemma parse_metadata_from_filename_spec_witness :
  parse_metadata_from_filename Nt "Aggregated_A549.xlsx"
  = Ok [("CellLine", "Unknown"); ("Radiation", "Unknown");
        ("NP", "Unknown"); ("Dose", "Unknown")].
Proof.
  apply (proj2 parse_metadata_from_filename_spec Nt "Aggregated_A549.xlsx").
  vm_compute. lia.
Defined.

End LoaderFacts.

(** ** Numbers: order facts *)

Section NumFacts.

Lemma Qltb_lt (a b : Q) : Qltb a b = true <-> (a < b)%Q.
Proof.
  unfold Qltb. rewrite negb_true_iff. split.
  - intros Hf. apply Qnot_le_lt. intros Hle.
    apply Qle_bool_iff in Hle. congruence.
  - intros Hlt. destruct (Qle_bool b a) eqn:E; [|reflexivity].
    apply Qle_bool_iff in E. apply Qlt_not_le in Hlt. contradiction.
Qed.

Lemma Qltb_ge (a b : Q) : Qltb a b = false <-> (b <= a)%Q.
Proof.
  unfold Qltb. rewrite negb_false_iff. apply Qle_bool_iff.
Qed.

(** Away from [NaN], [x < y] is the negation of [y <= x]. *)
Lemma flt_negb_fle (x y : num) :
  is_nan x = false -> is_nan y = false -> flt x y = negb (fle y x).
Proof.
  destruct x, y; simpl; intros; try discriminate; reflexivity.
Qed.

(** [x < y] and [x >= y] never hold together. *)
Lemma flt_fge_exclusive (x y : num) : flt x y = true -> fge x y = false.
Proof.
  unfold fge. destruct x, y; simpl; try discriminate; try reflexivity.
  unfold Qltb. intros Hf. apply negb_true_iff in Hf. exact Hf.
Qed.

Lemma flt_nan_l (y : num) : flt NaN y = false.
Proof. reflexivity. Qed.

Lemma fge_nan_l (y : num) : fge NaN y = false.
Proof. destruct y; reflexivity. Qed.

Lemma fle_refl (x : num) : is_nan x = false -> fle x x = true.
Proof.
  destruct x; simpl; intros; try discriminate; try reflexivity.
  apply Qle_bool_iff. apply Qle_refl.
Qed.

Lemma fle_trans (x y z : num) : fle x y = true -> fle y z = true -> fle x z = true.
Proof.
  destruct x, y, z; simpl; intros Hxy Hyz; try discriminate; try reflexivity.
  apply Qle_bool_iff. apply Qle_bool_iff in Hxy. apply Qle_bool_iff in Hyz.
  eapply Qle_trans; eassumption.
Qed.

Lemma flt_fle (x y : num) : flt x y = true -> fle x y = true.
Proof.
  destruct x, y; simpl; intros Hlt; try discriminate; try reflexivity.
  apply Qle_bool_iff. apply Qltb_lt in Hlt. apply Qlt_le_weak. exact Hlt.
Qed.

Lemma not_flt_fle (x y : num) :
  is_nan x = false -> is_nan y = false -> flt x y = false -> fle y x = true.
Proof.
  destruct x, y; simpl; intros Hx Hy Hlt; try discriminate; try reflexivity.
  apply Qle_bool_iff. apply Qltb_ge. exact Hlt.
Qed.

Lemma dropna_no_nan (xs : list num) : Forall (fun x => is_nan x = false) (dropna xs).
Proof.
  apply Forall_forall. intros x Hin. apply filter_In in Hin.
  destruct Hin as [_ Hx]. apply negb_true_iff. exact Hx.
Qed.

Lemma in_dropna (xs : list num) (x : num) :
  In x xs -> is_nan x = false -> In x (dropna xs).
Proof.
  intros Hin Hx. apply filter_In. split; [exact Hin|]. rewrite Hx. reflexivity.
Qed.

(** The running minimum is below its start and below every value folded in. *)
Lemma fold_fmin2_le (ys : list num) :
  forall y, is_nan y = false -> Forall (fun x => is_nan x = false) ys ->
    let r := fold_left fmin2 ys y in
    is_nan r = false /\ fle r y = true /\ Forall (fun x => fle r x = true) ys.
Proof.
  induction ys as [|a ys IH]; intros y Hy Hall; simpl.
  - repeat split; [exact Hy|apply fle_refl; exact Hy|constructor].
  - inversion Hall as [|? ? Ha Hys]; subst.
    assert (Hm : is_nan (fmin2 y a) = false)
      by (unfold fmin2; destruct (flt a y); assumption).
    destruct (IH (fmin2 y a) Hm Hys) as (Hr & Hle & Hrest).
    assert (Hmy : fle (fmin2 y a) y = true).
    { unfold fmin2. destruct (flt a y) eqn:E.
      - apply flt_fle. exact E.
      - apply fle_refl. exact Hy. }
    assert (Hma : fle (fmin2 y a) a = true).
    { unfold fmin2. destruct (flt a y) eqn:E.
      - apply fle_refl. exact Ha.
      - apply not_flt_fle; assumption. }
    repeat split.
    + exact Hr.
    + eapply fle_trans; eassumption.
    + constructor; [eapply fle_trans; eassumption|exact Hrest].
Qed.

Lemma fold_fmax2_ge (ys : list num) :
  forall y, is_nan y = false -> Forall (fun x => is_nan x = false) ys ->
    let r := fold_left fmax2 ys y in
    is_nan r = false /\ fle y r = true /\ Forall (fun x => fle x r = true) ys.
Proof.
  induction ys as [|a ys IH]; intros y Hy Hall; simpl.
  - repeat split; [exact Hy|apply fle_refl; exact Hy|constructor].
  - inversion Hall as [|? ? Ha Hys]; subst.
    assert (Hm : is_nan (fmax2 y a) = false)
      by (unfold fmax2; destruct (flt y a); assumption).
    destruct (IH (fmax2 y a) Hm Hys) as (Hr & Hle & Hrest).
    assert (Hmy : fle y (fmax2 y a) = true).
    { unfold fmax2. destruct (flt y a) eqn:E.
      - apply flt_fle. exact E.
      - apply fle_refl. exact Hy. }
    assert (Hma : fle a (fmax2 y a) = true).
    { unfold fmax2. destruct (flt y a) eqn:E.
      - apply fle_refl. exact Ha.
      - apply not_flt_fle; assumption. }
    repeat split.
    + exact Hr.
    + eapply fle_trans; eassumption.
    + constructor; [eapply fle_trans; eassumption|exact Hrest].
Qed.

(** [Series.min()] is below every non-missing value of the column, and
    [Series.max()] above. *)
Lemma nanmin_le (xs : list num) (x : num) :
  In x xs -> is_nan x = false -> fle (nanmin xs) x = true.
Proof.
  intros Hin Hx. pose proof (in_dropna xs x Hin Hx) as Hd.
  pose proof (dropna_no_nan xs) as Hall.
  unfold nanmin. destruct (dropna xs) as [|y ys]; [contradiction|].
  inversion Hall as [|? ? Hy Hys]; subst.
  destruct (fold_fmin2_le ys y Hy Hys) as (_ & Hle & Hrest).
  destruct Hd as [-> | Hd]; [exact Hle|].
  rewrite Forall_forall in Hrest. apply Hrest. exact Hd.
Qed.

Lemma nanmax_ge (xs : list num) (x : num) :
  In x xs -> is_nan x = false -> fle x (nanmax xs) = true.
Proof.
  intros Hin Hx. pose proof (in_dropna xs x Hin Hx) as Hd.
  pose proof (dropna_no_nan xs) as Hall.
  unfold nanmax. destruct (dropna xs) as [|y ys]; [contradiction|].
  inversion Hall as [|? ? Hy Hys]; subst.
  destruct (fold_fmax2_ge ys y Hy Hys) as (_ & Hle & Hrest).
  destruct Hd as [-> | Hd]; [exact Hle|].
  rewrite Forall_forall in Hrest. apply Hrest. exact Hd.
Qed.

End NumFacts.

(** ** Frames: columns and row selection *)

Section FrameFacts.

Lemma column_length (d : DataFrame) (name : string) (cs : list cell) :
  column d name = Ok cs -> List.length cs = len d.
Proof.
  unfold column, len. destruct (index_of name (header d)); [|discriminate].
  intros [= <-]. apply length_map.
Qed.

Lemma floats_length (cs : list cell) :
  forall xs, floats cs = Ok xs -> List.length xs = List.length cs.
Proof.
  induction cs as [|c cs IH]; simpl; intros xs Hf.
  - injection Hf as <-. reflexivity.
  - destruct (to_float c); [|discriminate]. simpl in Hf.
    destruct (floats cs) as [xs'|]; [|discriminate]. simpl in Hf.
    injection Hf as <-. simpl. f_equal. apply IH. reflexivity.
Qed.

Lemma numeric_column_length (d : DataFrame) (name : string) (xs : list num) :
  numeric_column d name = Ok xs -> List.length xs = len d.
Proof.
  unfold numeric_column. destruct (column d name) as [cs|] eqn:E; [|discriminate].
  simpl. intros Hf. rewrite (floats_length cs xs Hf). eapply column_length; eassumption.
Qed.

Lemma count_true_cons (b : bool) (mask : list bool) :
  count_true (b :: mask) = ((if b then 1 else 0) + count_true mask)%nat.
Proof. unfold count_true. destruct b; reflexivity. Qed.

Lemma select_length {A : Type} (xs : list A) :
  forall mask, List.length mask = List.length xs ->
    List.length (select xs mask) = count_true mask.
Proof.
  induction xs as [|x xs IH]; intros [|b mask] Hlen; simpl in *;
    try discriminate; try reflexivity.
  rewrite count_true_cons. destruct b; simpl; rewrite IH by lia; reflexivity.
Qed.

(** A row whose mask is true is kept, after the rows kept before it. *)
Lemma select_nth_error {A : Type} (xs : list A) :
  forall mask i x,
    nth_error xs i = Some x -> nth_error mask i = Some true ->
    nth_error (select xs mask) (count_true (firstn i mask)) = Some x.
Proof.
  induction xs as [|a xs IH]; intros mask i x Hx Hm.
  - destruct i; discriminate.
  - destruct mask as [|b mask]; [destruct i; discriminate|].
    destruct i as [|i]; simpl in *.
    + injection Hx as ->. injection Hm as ->. reflexivity.
    + rewrite count_true_cons. destruct b; simpl; apply IH; assumption.
Qed.

Lemma map_select {A B : Type} (f : A -> B) (xs : list A) :
  forall mask, map f (select xs mask) = select (map f xs) mask.
Proof.
  induction xs as [|x xs IH]; intros [|b mask]; simpl; try reflexivity.
  destruct b; simpl; rewrite IH; reflexivity.
Qed.

Lemma floats_select (cs : list cell) :
  forall xs mask, floats cs = Ok xs -> floats (select cs mask) = Ok (select xs mask).
Proof.
  induction cs as [|c cs IH]; simpl; intros xs mask Hf.
  - injection Hf as <-. destruct mask; reflexivity.
  - destruct (to_float c) as [x|] eqn:Ec; [|discriminate]. simpl in Hf.
    destruct (floats cs) as [xs'|]; [|discriminate]. simpl in Hf.
    injection Hf as <-. destruct mask as [|b mask]; [reflexivity|].
    destruct b; simpl.
    + rewrite Ec. simpl. rewrite (IH xs' mask eq_refl). reflexivity.
    + apply IH. reflexivity.
Qed.

(** The column of a selection is the selection of the column. *)
Lemma numeric_column_select (d : DataFrame) (name : string) (xs : list num)
    (mask : list bool) :
  numeric_column d name = Ok xs ->
  numeric_column (select_rows d mask) name = Ok (select xs mask).
Proof.
  unfold numeric_column, column, select_rows. simpl.
  destruct (index_of name (header d)); [|discriminate]. simpl.
  intros Hf. rewrite map_select. apply floats_select. exact Hf.
Qed.

End FrameFacts.

(** ** Preprocessing: outlier removal *)

Section OutlierFacts.

Context `{MathLib}.
Import Preprocessor.

(** The z-score is computed entry by entry, and a missing entry stays
    missing. *)
Lemma zscore_pointwise (col : list num) :
  exists f, zscore col = map f col /\ f NaN = NaN.
Proof.
  unfold zscore.
  exists (fun x => if isconst col then NaN
                   else fdiv (fsub x (nanmean col)) (nanstd 0 col)).
  split; [reflexivity|]. destruct (isconst col); reflexivity.
Qed.

Lemma abs_zscore_pointwise (col : list num) :
  exists g, map fabs (zscore col) = map g col /\ g NaN = NaN.
Proof.
  destruct (zscore_pointwise col) as (f & -> & Hf).
  exists (fun x => fabs (f x)). split; [apply map_map|]. rewrite Hf. reflexivity.
Qed.

(** With no [NaN] among the scores and a threshold that is a number, the
    two tests split the rows. *)
Lemma tests_split (t : num) (zs : list num) :
  is_nan t = false -> Forall (fun zi => is_nan zi = false) zs ->
  (count_true (map (fun zi => flt zi t) zs)
   + count_true (map (fun zi => fge zi t) zs) = List.length zs)%nat.
Proof.
  intros Ht. induction 1 as [|zi zs Hzi _ IH]; [reflexivity|].
  simpl map. rewrite !count_true_cons. simpl List.length.
  unfold fge at 1. rewrite (flt_negb_fle zi t Hzi Ht).
  destruct (fle t zi); simpl; lia.
Qed.

(** Whatever the scores of the missing entries: at most one test holds for
    a row, and none for a row whose response is missing. *)
Lemma tests_within_present (g : num -> num) (t : num) (col : list num) :
  g NaN = NaN ->
  (count_true (map (fun x => fge (g x) t) col)
   + count_true (map (fun x => flt (g x) t) col) <= List.length (dropna col))%nat.
Proof.
  intros Hg. induction col as [|x col IH]; [unfold count_true; simpl; lia|].
  simpl map. rewrite !count_true_cons.
  assert (Hstep : (List.length (dropna (x :: col))
                   = (if is_nan x then 0 else 1) + List.length (dropna col))%nat)
    by (unfold dropna; simpl; destruct (is_nan x); reflexivity).
  rewrite Hstep.
  destruct (is_nan x) eqn:Ex.
  - destruct x; try discriminate. rewrite Hg, fge_nan_l, flt_nan_l. simpl. lia.
  - destruct (flt (g x) t) eqn:E.
    + rewrite (flt_fge_exclusive _ _ E). simpl. lia.
    + destruct (fge (g x) t); simpl; lia.
Qed.

Lemma kept_are_present (g : num -> num) (t : num) (col : list num) :
  g NaN = NaN ->
  Forall (fun x => is_nan x = false)
         (select col (map (fun x => flt (g x) t) col)).
Proof.
  intros Hg. induction col as [|x col IH]; simpl; [constructor|].
  destruct (flt (g x) t) eqn:E; [|exact IH].
  constructor; [|exact IH].
  destruct x; try reflexivity. rewrite Hg in E. discriminate.
Qed.

(** Where the count is right.  [remove_outliers] keeps every row whose
    absolute z-score (over the non-missing responses) is strictly below the
    threshold, in the order of the frame; the count it returns is the number
    of rows whose absolute z-score is at least the threshold; and that
    count is the number of rows dropped when the threshold is a number and
    no z-score is [NaN]. *)
Lemma remove_outliers_counts_scored_rows
    (d : DataFrame) (y : string) (t : num) (col : list num) :
  numeric_column d y = Ok col ->
  let z := map fabs (zscore col) in
  let keep := map (fun zi => flt zi t) z in
  exists kept n,
    remove_outliers d y t = Ok (kept, n)
    /\ (forall i row zi,
           nth_error (rows d) i = Some row -> nth_error z i = Some zi ->
           flt zi t = true ->
           nth_error (rows kept) (count_true (firstn i keep)) = Some row)
    /\ n = count_true (map (fun zi => fge zi t) z)
    /\ (is_nan t = false -> Forall (fun zi => is_nan zi = false) z ->
        n = (len d - len kept)%nat).
Proof.
  intros Hcol z keep.
  exists (select_rows d keep), (count_true (map (fun zi => fge zi t) z)).
  assert (Hlen : List.length keep = List.length (rows d)).
  { unfold keep, z, zscore. rewrite !length_map.
    apply (numeric_column_length d y col Hcol). }
  repeat split.
  - unfold remove_outliers. rewrite Hcol. reflexivity.
  - intros i row zi Hrow Hz Hlt. simpl.
    apply select_nth_error; [exact Hrow|].
    unfold keep. rewrite nth_error_map, Hz. simpl. rewrite Hlt. reflexivity.
  - intros Ht Hz. unfold len. simpl.
    rewrite (select_length (rows d) keep Hlen).
    pose proof (tests_split t z Ht Hz) as Hsplit.
    fold keep in Hsplit.
    assert (List.length z = List.length (rows d))
      by (unfold keep in Hlen; rewrite length_map in Hlen; exact Hlen).
    lia.
Qed.

(** C8. [remove_outliers] removes every row whose response is missing,
    whatever the threshold, and never counts it: such a row fails the keep
    test [z < z_thresh] and the counting test [z >= z_thresh]; so no row
    of the result has a missing response, and the count and the rows kept
    together stay within the rows whose response is present. *)
Theorem remove_outliers_drops_missing
    (d : DataFrame) (y : string) (t : num) (col : list num) :
  numeric_column d y = Ok col ->
  let z := map fabs (zscore col) in
  exists kept n kept_col,
    remove_outliers d y t = Ok (kept, n)
    /\ (forall i, nth_error col i = Some NaN ->
          nth_error (map (fun zi => flt zi t) z) i = Some false
          /\ nth_error (map (fun zi => fge zi t) z) i = Some false)
    /\ numeric_column kept y = Ok kept_col
    /\ Forall (fun x => is_nan x = false) kept_col
    /\ (n + len kept <= List.length (dropna col))%nat.
Proof.
  intros Hcol z.
  destruct (abs_zscore_pointwise col) as (g & Hz & Hg).
  assert (Hrun : remove_outliers d y t
                 = Ok (select_rows d (map (fun x => flt (g x) t) col),
                       count_true (map (fun x => fge (g x) t) col))).
  { unfold remove_outliers. rewrite Hcol. simpl. rewrite Hz, !map_map. reflexivity. }
  subst z. rewrite Hz, !map_map.
  exists (select_rows d (map (fun x => flt (g x) t) col)),
    (count_true (map (fun x => fge (g x) t) col)),
    (select col (map (fun x => flt (g x) t) col)).
  split; [exact Hrun|].
  split.
  { intros i Hi. rewrite !nth_error_map, Hi. simpl.
    rewrite Hg, fge_nan_l. split; reflexivity. }
  split; [apply numeric_column_select; exact Hcol|].
  split; [apply kept_are_present; exact Hg|].
  unfold len. simpl. rewrite select_length.
  - apply tests_within_present. exact Hg.
  - rewrite length_map. apply (numeric_column_length d y col Hcol).
Qed.

End OutlierFacts.

(** C2, at the inputs where the code departs from it.  The two tests of
    [remove_outliers], [z < z_thresh] for the rows kept and [z >= z_thresh]
    for the count, are both false at a [NaN] z-score, so a row can be dropped
    without being counted.  On the three equal responses of [Sample.constant]
    every z-score is [NaN]: all three rows are dropped and the count is 0.
    On [Sample.with_missing] one of three rows is dropped and the count is 0.
    And a run of the application on six equal responses, with the outlier
    box ticked, logs "Removed outliers: 0" and then stops for want of data
    points: the six rows are gone. *)
Theorem remove_outliers_drops_uncounted_rows :
  (exists kept n,
      @Preprocessor.remove_outliers Sample.math Sample.constant "y"
        Preprocessor.default_z_thresh = Ok (kept, n)
      /\ len Sample.constant = 3%nat /\ len kept = 0%nat /\ n = 0%nat
      /\ n <> (len Sample.constant - len kept)%nat)
  /\ (exists kept n,
        @Preprocessor.remove_outliers Sample.math Sample.with_missing "y"
          Preprocessor.default_z_thresh = Ok (kept, n)
        /\ len Sample.with_missing = 3%nat /\ len kept = 2%nat /\ n = 0%nat
        /\ n <> (len Sample.with_missing - len kept)%nat)
  /\ len Sample.six_constant = 6%nat
  /\ @App.run_analysis Sample.math Sample.anova_ok Sample.plots Sample.os
       Sample.app_constant
     = ([App.Cleared;
         App.Logged "🧹 Removed outliers: 0";
         App.Logged "⚠️ Too few data points."], Ok tt).
Proof.
  split.
  { eexists _, _. split; [vm_compute; reflexivity|].
    repeat split. vm_compute. discriminate. }
  split.
  { eexists _, _. split; [vm_compute; reflexivity|].
    repeat split. vm_compute. discriminate. }
  split; [reflexivity|].
  vm_compute. reflexivity.
Qed.

Lemma remove_outliers_drops_missing_witness :
  let z := map fabs (@Preprocessor.zscore Sample.math [of_Z 1; NaN; of_Z 2]) in
  exists kept n kept_col,
    @Preprocessor.remove_outliers Sample.math Sample.with_missing "y"
      Preprocessor.default_z_thresh = Ok (kept, n)
    /\ (forall i, nth_error [of_Z 1; NaN; of_Z 2] i = Some NaN ->
          nth_error (map (fun zi => flt zi Preprocessor.default_z_thresh) z) i
          = Some false
          /\ nth_error (map (fun zi => fge zi Preprocessor.default_z_thresh) z) i
             = Some false)
    /\ numeric_column kept "y" = Ok kept_col
    /\ Forall (fun x => is_nan x = false) kept_col
    /\ (n + len kept <= List.length (dropna [of_Z 1; NaN; of_Z 2]))%nat.
Proof.
  apply (@remove_outliers_drops_missing Sample.math Sample.with_missing "y"
           Preprocessor.default_z_thresh [of_Z 1; NaN; of_Z 2]).
  reflexivity.
Defined.

(** ** Preprocessing: min-max normalisation *)

Section NormalizationFacts.

Context `{MathLib}.
Import Preprocessor.

(** A value between two numbers is a number. *)
Lemma between_finite (mn mx : Q) (x : num) :
  fle (Fin mn) x = true -> fle x (Fin mx) = true ->
  exists v, x = Fin v /\ (mn <= v)%Q /\ (v <= mx)%Q.
Proof.
  destruct x as [| | |v]; simpl; intros Hlo Hhi; try discriminate.
  exists v. split; [reflexivity|]. split; apply Qle_bool_iff; assumption.
Qed.

(** A real result between 0 and 1 is stored as a float64 between 0 and 1. *)
Lemma rnd_unit (q : Q) :
  (0 <= q)%Q -> (q <= 1)%Q ->
  exists w, rnd q = Fin w /\ (0 <= w)%Q /\ (w <= 1)%Q.
Proof.
  intros H0 H1. apply between_finite.
  - rewrite <- rnd_zero. apply rnd_monotone. exact H0.
  - rewrite <- rnd_one. apply rnd_monotone. exact H1.
Qed.

(** One entry of the min-max column, when the range [max - min] has been
    stored as the positive number [r]: the subtraction [v - mn] is rounded
    to a number between 0 and [r], and the quotient to a number between 0
    and 1. *)
Lemma minmax_entry (mn mx v r : Q) :
  (mn <= v)%Q -> (v <= mx)%Q ->
  sub64 (Fin mx) (Fin mn) = Fin r -> (0 < r)%Q ->
  exists w,
    div64 (sub64 (Fin v) (Fin mn)) (sub64 (Fin mx) (Fin mn)) = Fin w
    /\ (0 <= w)%Q /\ (w <= 1)%Q
    /\ (v == mn -> w == 0)%Q /\ (v == mx -> w == 1)%Q.
Proof.
  intros Hlo Hhi Hr Hpos. rewrite Hr.
  assert (Hrange : rnd (mx + - mn) = Fin r) by exact Hr.
  assert (Hnum : exists a, sub64 (Fin v) (Fin mn) = Fin a
                           /\ (0 <= a)%Q /\ (a <= r)%Q
                           /\ (v == mn -> a == 0)%Q /\ (v == mx -> a == r)%Q).
  { change (sub64 (Fin v) (Fin mn)) with (rnd (v + - mn)).
    assert (Hge : fle (Fin 0) (rnd (v + - mn)) = true)
      by (rewrite <- rnd_zero; apply rnd_monotone; lra).
    assert (Hle : fle (rnd (v + - mn)) (Fin r) = true)
      by (rewrite <- Hrange; apply rnd_monotone; lra).
    destruct (between_finite 0 r _ Hge Hle) as (a & Ha & Ha0 & Har).
    exists a. split; [exact Ha|]. split; [exact Ha0|]. split; [exact Har|].
    split; intros Hv.
    - assert (Hz : fle (rnd (v + - mn)) (rnd 0) = true)
        by (apply rnd_monotone; lra).
      rewrite rnd_zero, Ha in Hz. apply Qle_bool_iff in Hz. lra.
    - assert (Hz : fle (rnd (mx + - mn)) (rnd (v + - mn)) = true)
        by (apply rnd_monotone; lra).
      rewrite Hrange, Ha in Hz. apply Qle_bool_iff in Hz. lra. }
  destruct Hnum as (a & -> & Ha0 & Har & Hmin & Hmax).
  assert (Hdiv : div64 (Fin a) (Fin r) = rnd (a / r)).
  { unfold div64. simpl. destruct (Qeq_bool r 0) eqn:E; [|reflexivity].
    apply Qeq_bool_iff in E. lra. }
  rewrite Hdiv.
  assert (Hq0 : (0 <= a / r)%Q) by (apply Qle_shift_div_l; [exact Hpos|lra]).
  assert (Hq1 : (a / r <= 1)%Q) by (apply Qle_shift_div_r; [exact Hpos|lra]).
  destruct (rnd_unit _ Hq0 Hq1) as (w & Hw & Hw0 & Hw1).
  exists w. split; [exact Hw|]. split; [exact Hw0|]. split; [exact Hw1|].
  split; intros Hv.
  - specialize (Hmin Hv).
    assert (Hz : fle (rnd (a / r)) (rnd 0) = true).
    { apply rnd_monotone. apply Qle_shift_div_r; [exact Hpos|lra]. }
    rewrite rnd_zero, Hw in Hz. apply Qle_bool_iff in Hz. lra.
  - specialize (Hmax Hv).
    assert (Hz : fle (rnd 1) (rnd (a / r)) = true).
    { apply rnd_monotone. apply Qle_shift_div_l; [exact Hpos|lra]. }
    rewrite rnd_one, Hw in Hz. apply Qle_bool_iff in Hz. lra.
Qed.

(** C6, as the code has it.  Take a float64 response column whose
    non-missing values have the minimum [mn] and the maximum [mx], and let
    the range [mx - mn], as the array arithmetic stores it, be a positive
    number [r]: the values are not all equal and the subtraction does not
    overflow.  Then min-max normalisation writes a column in which every
    missing entry stays missing and every other entry is a number in [0,1];
    the entries equal to the minimum become 0 and those equal to the maximum
    become 1.  The arithmetic is any rounding that keeps the order and has
    0 and 1 among its values. *)
Theorem minmax_normalization_range
    (d : DataFrame) (y : string) (col : list num) (mn mx r : Q) :
  numeric_column d y = Ok col ->
  nanmin col = Fin mn -> nanmax col = Fin mx ->
  sub64 (Fin mx) (Fin mn) = Fin r -> (0 < r)%Q ->
  exists out,
    apply_normalization d y "minmax" = Ok (set_column d y (map CNum out))
    /\ List.length out = List.length col
    /\ forall i x, nth_error col i = Some x ->
         (x = NaN /\ nth_error out i = Some NaN)
         \/ (exists v w,
                x = Fin v /\ nth_error out i = Some (Fin w)
                /\ (0 <= w)%Q /\ (w <= 1)%Q
                /\ (v == mn -> w == 0)%Q /\ (v == mx -> w == 1)%Q).
Proof.
  intros Hcol Hmin Hmax Hr Hpos.
  exists (map (fun x => div64 (sub64 x (Fin mn)) (sub64 (Fin mx) (Fin mn))) col).
  split.
  - unfold apply_normalization. simpl. rewrite Hcol. simpl.
    rewrite Hmin, Hmax, map_map. reflexivity.
  - split; [apply length_map|].
    intros i x Hx. rewrite nth_error_map, Hx. simpl option_map.
    destruct (is_nan x) eqn:Ex.
    + left. destruct x; try discriminate. split; [reflexivity|].
      rewrite Hr. reflexivity.
    + right. pose proof (nth_error_In col i Hx) as Hin.
      pose proof (nanmin_le col x Hin Ex) as Hlo.
      pose proof (nanmax_ge col x Hin Ex) as Hhi.
      rewrite Hmin in Hlo. rewrite Hmax in Hhi.
      destruct (between_finite mn mx x Hlo Hhi) as (v & -> & Hv1 & Hv2).
      destruct (minmax_entry mn mx v r Hv1 Hv2 Hr Hpos) as (w & Hentry & Hw).
      exists v, w. split; [reflexivity|].
      split; [f_equal; exact Hentry|exact Hw].
Qed.

End NormalizationFacts.

(** The theorem at an arithmetic that rounds: the responses 0, 1/3 and 10 of
    [Sample.thirds], in the arithmetic [Sample.coarse] of eighths, whose
    range 10 is a value of the arithmetic. *)
Lemma minmax_normalization_range_witness :
  exists out,
    @Preprocessor.apply_normalization Sample.coarse Sample.thirds "y" "minmax"
    = Ok (set_column Sample.thirds "y" (map CNum out))
    /\ List.length out = List.length [of_Z 0; Fin (1 # 3); of_Z 10]
    /\ forall i x, nth_error [of_Z 0; Fin (1 # 3); of_Z 10] i = Some x ->
         (x = NaN /\ nth_error out i = Some NaN)
         \/ (exists v w,
                x = Fin v /\ nth_error out i = Some (Fin w)
                /\ (0 <= w)%Q /\ (w <= 1)%Q
                /\ (v == 0 -> w == 0)%Q /\ (v == 10 -> w == 1)%Q).
Proof.
  apply (@minmax_normalization_range Sample.coarse Sample.thirds "y"
           [of_Z 0; Fin (1 # 3); of_Z 10] 0%Q 10%Q 10%Q);
    reflexivity.
Defined.

(** C6 as stated fails on a column whose values are all equal: the minimum
    (and maximum) 5 of [Sample.constant] is mapped to [NaN], not to 0 or 1. *)
Lemma minmax_normalization_counterexample :
  exists out,
    numeric_column Sample.constant "y" = Ok [of_Z 5; of_Z 5; of_Z 5]
    /\ nanmin [of_Z 5; of_Z 5; of_Z 5] = of_Z 5
    /\ @Preprocessor.apply_normalization Sample.math Sample.constant "y" "minmax"
       = Ok out
    /\ numeric_column out "y" = Ok [NaN; NaN; NaN].
Proof.
  eexists. split; [reflexivity|]. split; [reflexivity|].
  split; [vm_compute; reflexivity|reflexivity].
Qed.

(** The hypothesis on the range is needed.  In the arithmetic
    [Sample.coarse], which overflows beyond 1000, the responses -600, 0 and
    600 of [Sample.wide] have a range that overflows: the entry of the
    maximum is [inf / inf], so the maximum is mapped to [NaN], and the
    other two entries to 0. *)
Lemma minmax_normalization_overflow :
  exists out,
    numeric_column Sample.wide "y" = Ok [of_Z (-600); of_Z 0; of_Z 600]
    /\ @sub64 Sample.coarse (of_Z 600) (of_Z (-600)) = PInf
    /\ @Preprocessor.apply_normalization Sample.coarse Sample.wide "y" "minmax"
       = Ok out
    /\ numeric_column out "y" = Ok [Fin 0; Fin 0; NaN].
Proof.
  eexists. split; [reflexivity|]. split; [reflexivity|].
  split; [vm_compute; reflexivity|reflexivity].
Qed.

(** ** Statistics: effect sizes and the Tukey test *)

Section StatsFacts.

Context `{StatsLib} `{App.OsLib}.
Import Stats.

(** The table [perform_anova] returns: the rows of the terms and the row
    ['Residual'], with the effect sizes over one denominator. *)
Lemma perform_anova_table (d : DataFrame) (y : string) (factors : list string)
    (model : FittedModel) (terms : list AnovaRow) :
  ols_fit (anova_formula y factors) d = Ok model ->
  typ2_terms model = Ok terms ->
  perform_anova d y factors
  = Ok (model,
        with_eta_sq model
          (terms ++ [mkRow "Residual" (ssr model) (df_resid model) NaN NaN None])%list).
Proof.
  intros Hfit Hterms. unfold perform_anova, anova_lm.
  rewrite Hfit. simpl. rewrite Hterms. reflexivity.
Qed.

Lemma run_tukey_bare (d : DataFrame) (y factor : string) (groups : list cell) :
  column d factor = Ok groups ->
  (nunique groups < 2)%nat ->
  run_tukey d y factor = Ok (Bare (skipped_message factor)).
Proof.
  intros Hcol Hfew. unfold run_tukey. rewrite Hcol. simpl.
  apply Nat.ltb_lt in Hfew. rewrite Hfew. reflexivity.
Qed.

(** C5. On a factor with fewer than 2 distinct values [run_tukey] returns
    the text "Tukey HSD skipped: only one group in '<factor>'" in place of
    the pair (summary text, comparison table), and does not raise. *)
Theorem run_tukey_skips_single_group
    (d : DataFrame) (y factor : string) (groups : list cell) :
  column d factor = Ok groups ->
  (nunique groups < 2)%nat ->
  run_tukey d y factor
  = Ok (Bare ("Tukey HSD skipped: only one group in '" ++ factor ++ "'")).
Proof.
  intros Hcol Hfew. apply (run_tukey_bare d y factor groups Hcol Hfew).
Qed.

(** C9. [run_tukey] returns values of two shapes: a bare text when the
    factor has fewer than 2 distinct values, a pair (summary text, table)
    when it has at least 2 and the test succeeds.  Unpacking the bare text
    into two names raises [ValueError]; the caller in [run_analysis] does so
    and ends that factor with the log line of a Tukey error. *)
Theorem run_tukey_two_shapes
    (d : DataFrame) (y factor : string) (groups : list cell) :
  column d factor = Ok groups ->
  ((nunique groups < 2)%nat ->
   exists text,
     run_tukey d y factor = Ok (Bare text)
     /\ unpack2 (Bare text)
        = Raise (ValueError "too many values to unpack (expected 2)")
     /\ forall output_dir,
          App.tukey_step d y factor output_dir
          = ([App.Logged ("❌ Tukey error (" ++ factor
                          ++ "): too many values to unpack (expected 2)")],
             Ok tt))
  /\ ((2 <= nunique groups)%nat ->
      forall endog tukey,
        column d y = Ok endog ->
        pairwise_tukeyhsd endog groups = Ok tukey ->
        run_tukey d y factor = Ok (Pair (tukey_text tukey) (tukey_data tukey))
        /\ unpack2 (Pair (tukey_text tukey) (tukey_data tukey))
           = Ok (OStr (tukey_text tukey), OTable (tukey_data tukey))).
Proof.
  intros Hcol. split.
  - intros Hfew. pose proof (run_tukey_bare d y factor groups Hcol Hfew) as Hrun.
    eexists. split; [exact Hrun|]. split; [reflexivity|].
    intros output_dir. unfold App.tukey_step. rewrite Hrun. reflexivity.
  - intros Hmany endog tukey Hy Htukey. split; [|reflexivity].
    unfold run_tukey. rewrite Hcol. simpl.
    destruct (nunique groups <? 2)%nat eqn:E.
    + apply Nat.ltb_lt in E. lia.
    + rewrite Hy. simpl. rewrite Htukey. reflexivity.
Qed.

End StatsFacts.

Lemma run_tukey_skips_single_group_witness :
  @Stats.run_tukey Sample.anova_ok Sample.six_rows "y" "NP"
  = Ok (Stats.Bare "Tukey HSD skipped: only one group in 'NP'").
Proof.
  apply (@run_tukey_skips_single_group Sample.anova_ok Sample.six_rows "y" "NP"
           (repeat (CStr "NDAuNP") 6)).
  - reflexivity.
  - vm_compute. lia.
Defined.

Lemma run_tukey_two_shapes_witness :
  exists text,
    @Stats.run_tukey Sample.anova_ok Sample.six_rows "y" "NP" = Ok (Stats.Bare text)
    /\ Stats.unpack2 (Stats.Bare text)
       = Raise (ValueError "too many values to unpack (expected 2)")
    /\ @App.tukey_step Sample.anova_ok Sample.os Sample.six_rows "y" "NP"
         "/opt/StatLysis/Análise/--_ALL_--"
       = ([App.Logged "❌ Tukey error (NP): too many values to unpack (expected 2)"],
          Ok tt).
Proof.
  destruct (proj1 (@run_tukey_two_shapes Sample.anova_ok Sample.os
                     Sample.six_rows "y" "NP"
                     (repeat (CStr "NDAuNP") 6) eq_refl))
    as (text & Hrun & Hunpack & Hstep).
  - vm_compute. lia.
  - exists text. split; [exact Hrun|]. split; [exact Hunpack|]. apply Hstep.
Defined.

(** C4 at a table with one term: sum of squares 6 for [C(Dose)], residual
    sum of squares 4.  The effect size attached to [C(Dose)] is 6/14, not
    6/(6+4): the denominator adds [model.ssr] to a sum that already holds the
    row ['Residual']; and the shares of the two rows add up to 10/14. *)
Theorem eta_sq_counts_residual_twice :
  exists model anova e_dose e_res,
    @Stats.perform_anova Sample.anova_ok Sample.spread "y" ["Dose"] = Ok (model, anova)
    /\ map term anova = ["C(Dose)"; "Residual"]
    /\ map sum_sq anova = [Fin 6; Fin 4]
    /\ ssr model = Fin 4
    /\ map eta_sq anova = [Some (Fin e_dose); Some (Fin e_res)]
    /\ (e_dose == 6 # 14)%Q
    /\ ~ (e_dose == 6 / (6 + 4))%Q
    /\ ~ (e_dose + e_res == 1)%Q.
Proof.
  eexists _, _, _, _. split; [vm_compute; reflexivity|].
  do 4 (split; [reflexivity|]).
  split; [vm_compute; reflexivity|].
  split; intros Heq; vm_compute in Heq; discriminate.
Qed.

(** The one denominator of the effect sizes: the sums of squares of the
    terms, the residual sum of squares of the row ['Residual'], and
    [model.ssr] once more. *)
Lemma eta_sq_denominator (model : FittedModel) (terms : list AnovaRow) :
  is_nan (ssr model) = false ->
  Stats.series_sum
    (map sum_sq (terms ++ [mkRow "Residual" (ssr model) (df_resid model) NaN NaN None])%list)
  = fadd (Stats.series_sum (map sum_sq terms)) (ssr model).
Proof.
  intros Hssr. unfold Stats.series_sum, dropna, fsum.
  rewrite map_app, filter_app, fold_left_app. simpl. rewrite Hssr. reflexivity.
Qed.

(** ** Interpretation: the conclusion sentence *)

Section InterpreterFacts.

Import Interpreter.

Lemma append_empty_r (s : string) : s ++ "" = s.
Proof. induction s as [|c s IH]; simpl; [|rewrite IH]; reflexivity. Qed.

Lemma append_assoc_r (a b c : string) : (a ++ b) ++ c = a ++ (b ++ c).
Proof. induction a as [|x a IH]; simpl; [|rewrite IH]; reflexivity. Qed.

(** The loop only appends to the conclusion it is given. *)
Lemma moderation_loop_appends (model : FittedModel) (terms : list string) :
  forall conclusion,
    moderation_loop model terms conclusion
    = (tail <- moderation_loop model terms "" ;; Ok (conclusion ++ tail)).
Proof.
  induction terms as [|term rest IH]; intros conclusion; simpl.
  - rewrite append_empty_r. reflexivity.
  - destruct (moderation_sentence model term) as [extra|e]; simpl; [|reflexivity].
    rewrite (IH (conclusion ++ extra)), (IH extra).
    destruct (moderation_loop model rest "") as [tail|e]; simpl; [|reflexivity].
    rewrite append_assoc_r. reflexivity.
Qed.

(** No interaction term in the index: the loop appends nothing. *)
Lemma moderation_loop_silent (model : FittedModel) (terms : list string) :
  Forall (fun term => PyStr.contains "Dose_numeric:C(" term = false) terms ->
  moderation_loop model terms "" = Ok "".
Proof.
  induction 1 as [|term rest Hterm _ IH]; simpl; [reflexivity|].
  unfold moderation_sentence. rewrite Hterm. simpl. exact IH.
Qed.

Lemma series_get_default (s : list (string * num)) (key : string) (default : num) :
  ~ In key (index s) -> series_get s key default = default.
Proof.
  unfold series_get, index. induction s as [|[k v] s IH]; simpl; intros Hnot.
  - reflexivity.
  - destruct (String.eqb k key) eqn:E.
    + apply String.eqb_eq in E. tauto.
    + apply IH. tauto.
Qed.

Lemma pvalues_index (model : FittedModel) :
  index (pvalues model) = index (params model).
Proof. unfold index, pvalues, params. rewrite !map_map. reflexivity. Qed.

(** C10. When ['Dose_numeric'] is not in the index of the parameters,
    [generate_conclusion] takes 0 for the coefficient and 1 for the
    p-value: the sentence says that the response tends to "remain
    constant" and that the effect was "not significant" with
    "p = 1.0000"; what the loop over the terms appends comes after it, and
    nothing is appended when no term is a dose interaction. *)
Theorem generate_conclusion_without_dose
    (model : FittedModel) (response_var cat_factor : string) :
  ~ In "Dose_numeric" (index (params model)) ->
  let sentence :=
    "Based on an R² of " ++ Format.format_fixed 2 (rsquared model)
    ++ ", there is a " ++ strength (rsquared model)
    ++ " association between '" ++ response_var ++ "' "
    ++ "and the dose. The coefficient suggests the response tends to "
    ++ "remain constant" ++ " as the dose increases. "
    ++ "This effect was " ++ "not significant" ++ " (p = " ++ "1.0000" ++ ")." in
  series_get (params model) "Dose_numeric" (Fin 0) = Fin 0
  /\ series_get (pvalues model) "Dose_numeric" (Fin 1) = Fin 1
  /\ generate_conclusion model response_var cat_factor
     = (tail <- moderation_loop model (index (params model)) "" ;;
        Ok (sentence ++ tail))
  /\ (Forall (fun term => PyStr.contains "Dose_numeric:C(" term = false)
             (index (params model)) ->
      generate_conclusion model response_var cat_factor = Ok sentence).
Proof.
  intros Hnot sentence.
  assert (Hcoef : series_get (params model) "Dose_numeric" (Fin 0) = Fin 0)
    by (apply series_get_default; exact Hnot).
  assert (Hp : series_get (pvalues model) "Dose_numeric" (Fin 1) = Fin 1)
    by (apply series_get_default; rewrite pvalues_index; exact Hnot).
  assert (Hrun : generate_conclusion model response_var cat_factor
                 = (tail <- moderation_loop model (index (params model)) "" ;;
                    Ok (sentence ++ tail))).
  { unfold generate_conclusion. rewrite Hcoef, Hp.
    rewrite moderation_loop_appends. reflexivity. }
  split; [exact Hcoef|]. split; [exact Hp|]. split; [exact Hrun|].
  intros Hsilent. rewrite Hrun, (moderation_loop_silent _ _ Hsilent). simpl.
  rewrite append_empty_r. reflexivity.
Qed.

End InterpreterFacts.

Lemma generate_conclusion_without_dose_witness :
  Interpreter.generate_conclusion
    (mkModel (Fin (1 # 2)) (Fin 4) (Fin 3) [("Intercept", (Fin 1, Fin (1 # 100)))] "")
    "y" "NP"
  = Ok ("Based on an R² of 0.50, there is a strong association between 'y' "
        ++ "and the dose. The coefficient suggests the response tends to "
        ++ "remain constant as the dose increases. "
        ++ "This effect was not significant (p = 1.0000).").
Proof.
  refine (proj2 (proj2 (proj2 (generate_conclusion_without_dose
    (mkModel (Fin (1 # 2)) (Fin 4) (Fin 3) [("Intercept", (Fin 1, Fin (1 # 100)))] "")
    "y" "NP" _))) _).
  - simpl. intros [Hc | []]. discriminate Hc.
  - repeat constructor.
Defined.

(** ** The competing regression models *)

Section ExplorerFacts.

Context `{MathLib} `{StatsLib}.
Import Explorer.

Lemma select_none {A B : Type} (f : B -> bool) (xs : list A) (ys : list B) :
  Forall (fun v => f v = false) ys -> select xs (map f ys) = [].
Proof.
  intros Hall. revert xs.
  induction Hall as [|v ys Hv _ IH]; intros [|x xs]; simpl; try reflexivity.
  rewrite Hv. apply IH.
Qed.

Lemma not_ok_raises {A : Type} (r : result A) :
  is_ok r = false -> exists e, r = Raise e.
Proof. destruct r as [a|e]; [discriminate|]. intros _. exists e. reflexivity. Qed.

(** C3, as the code has it.  On a frame with no positive [y] whose three
    polynomial fits succeed, the dict of models holds "Linear", "Poly2"
    and "Poly3", holds neither "Exponential" nor "Log-Linear", and holds
    "Logarithmic" exactly when the fit on the rows with [x > 0] succeeds. *)
Theorem models_without_positive_y
    (d : DataFrame) (x y : string) (save_path : option string)
    (xs ys lin poly2 poly3 : list num) :
  numeric_column d x = Ok xs ->
  numeric_column d y = Ok ys ->
  Forall (fun v => fgt v (Fin 0) = false) ys ->
  polyfit xs ys 1 = Ok lin ->
  polyfit xs ys 2 = Ok poly2 ->
  polyfit xs ys 3 = Ok poly3 ->
  let positive_x := map (fun v => fgt v (Fin 0)) xs in
  exists fig,
    plot_regression_models d x y save_path = Ok fig
    /\ model_names fig
       = (["Linear"; "Poly2"; "Poly3"]
          ++ if is_ok (curve_fit logarithmic (select xs positive_x)
                         (select ys positive_x) None)
             then ["Logarithmic"] else [])%list.
Proof.
  intros Hx Hy Hneg Hlin Hp2 Hp3 positive_x.
  unfold plot_regression_models.
  rewrite Hx, Hy. simpl. rewrite Hlin. simpl. rewrite Hp2. simpl. rewrite Hp3. simpl.
  rewrite !(select_none (fun v => fgt v (Fin 0)) _ ys Hneg).
  destruct (not_ok_raises _ (curve_fit_empty exponential [] (Some 10000%N)))
    as [e1 ->].
  destruct (not_ok_raises _ (polyfit_empty (map flog []) 1)) as [e2 ->].
  simpl. fold positive_x.
  eexists. split; [reflexivity|].
  unfold model_names. simpl.
  destruct (curve_fit logarithmic _ _ None); reflexivity.
Qed.

End ExplorerFacts.

Lemma models_without_positive_y_witness :
  exists fig,
    @Explorer.plot_regression_models Sample.math Sample.anova_ok
      Sample.no_positive_y "Dose_numeric" "y" None = Ok fig
    /\ Explorer.model_names fig
       = (["Linear"; "Poly2"; "Poly3"]
          ++ if is_ok (@curve_fit Sample.anova_ok (@Explorer.logarithmic Sample.math)
                         (select [of_Z 1; of_Z 2; of_Z 3; of_Z 4]
                            (map (fun v => fgt v (Fin 0))
                               [of_Z 1; of_Z 2; of_Z 3; of_Z 4]))
                         (select [of_Z (-1); of_Z (-2); of_Z (-3); of_Z (-4)]
                            (map (fun v => fgt v (Fin 0))
                               [of_Z 1; of_Z 2; of_Z 3; of_Z 4]))
                         None)
             then ["Logarithmic"] else [])%list.
Proof.
  eapply (@models_without_positive_y Sample.math Sample.anova_ok
            Sample.no_positive_y "Dose_numeric" "y" None
            [of_Z 1; of_Z 2; of_Z 3; of_Z 4]
            [of_Z (-1); of_Z (-2); of_Z (-3); of_Z (-4)]).
  - reflexivity.
  - reflexivity.
  - repeat constructor.
  - vm_compute. reflexivity.
  - vm_compute. reflexivity.
  - vm_compute. reflexivity.
Defined.

(** C3 as stated fails on [Sample.no_positive_y] (doses 1 to 4, responses -1
    to -4): the dict has no entry "Quadratic" or "Cubic", and it has the
    entry "Logarithmic", whose fit looks at the sign of [x] only. *)
Lemma models_without_positive_y_counterexample :
  exists fig,
    numeric_column Sample.no_positive_y "y"
    = Ok [of_Z (-1); of_Z (-2); of_Z (-3); of_Z (-4)]
    /\ @Explorer.plot_regression_models Sample.math Sample.anova_ok
         Sample.no_positive_y "Dose_numeric" "y" None = Ok fig
    /\ Explorer.model_names fig = ["Linear"; "Poly2"; "Poly3"; "Logarithmic"]
    /\ ~ In "Quadratic" (Explorer.model_names fig)
    /\ ~ In "Cubic" (Explorer.model_names fig)
    /\ In "Logarithmic" (Explorer.model_names fig).
Proof.
  eexists. split; [reflexivity|]. split; [vm_compute; reflexivity|].
  split; [reflexivity|].
  split; [|split].
  - simpl. intros Hin. repeat (destruct Hin as [Hin | Hin]; [discriminate Hin|]). exact Hin.
  - simpl. intros Hin. repeat (destruct Hin as [Hin | Hin]; [discriminate Hin|]). exact Hin.
  - simpl. tauto.
Qed.

(** ** The analysis run *)

Section AppFacts.

Context `{MathLib} `{StatsLib} `{App.PlotLib} `{App.OsLib}.
Import App.

(** C1, as the code has it.  When the run reaches the ANOVA phase and
    [perform_anova] raises, [run_analysis] logs "ANOVA failed" with the
    message of the exception and returns: no exception leaves it, and
    nothing of the later phases (Tukey tests, plot grid, regression and
    conclusion, write-out of the filtered data) is executed. *)
Theorem run_analysis_stops_at_anova_failure
    (self : AnalyzerApp) (events : list event)
    (d : DataFrame) (y : string) (factors : list string) (output_dir : string)
    (e : exn) :
  prepare self = (events, Ok (Some (d, y, factors, output_dir))) ->
  Stats.perform_anova d y factors = Raise e ->
  run_analysis self
  = ((events ++ [Logged ("❌ ANOVA failed: " ++ exn_message e)])%list, Ok tt).
Proof.
  intros Hprep Hfail. unfold run_analysis, rbind. rewrite Hprep.
  unfold anova_phase. rewrite Hfail. reflexivity.
Qed.

End AppFacts.

Lemma run_analysis_stops_at_anova_failure_witness :
  @App.run_analysis Sample.math Sample.anova_fails Sample.plots Sample.os Sample.app
  = (([App.Cleared;
       App.MadeDir "/opt/StatLysis/Análise";
       App.MadeDir "/opt/StatLysis/Análise/--_ALL_--"]
      ++ [App.Logged ("❌ ANOVA failed: "
                      ++ exn_message
                           (ValueError "must have at least one row in constraint matrix"))])%list,
     Ok tt).
Proof.
  eapply (@run_analysis_stops_at_anova_failure
            Sample.math Sample.anova_fails Sample.plots Sample.os Sample.app
            [App.Cleared;
             App.MadeDir "/opt/StatLysis/Análise";
             App.MadeDir "/opt/StatLysis/Análise/--_ALL_--"]).
  - vm_compute. reflexivity.
  - vm_compute. reflexivity.
Defined.

(** C1 as stated fails on [Sample.app] with a library whose [anova_lm]
    raises and whose other calls all succeed: the run reaches the ANOVA
    phase, the fit fails, and the run ends with the log line of the failure;
    it writes no file at all, although the later phases, run on the same
    frame, write the Tukey table, the plots, the regression texts and the
    filtered data. *)
Lemma run_analysis_anova_failure_counterexample :
  exists d y factors output_dir,
    @App.prepare Sample.math Sample.anova_fails Sample.os Sample.app
    = ([App.Cleared;
        App.MadeDir "/opt/StatLysis/Análise";
        App.MadeDir "/opt/StatLysis/Análise/--_ALL_--"],
       Ok (Some (d, y, factors, output_dir)))
    /\ is_ok (@Stats.perform_anova Sample.anova_fails d y factors) = false
    /\ @App.run_analysis Sample.math Sample.anova_fails Sample.plots Sample.os Sample.app
       = ([App.Cleared;
           App.MadeDir "/opt/StatLysis/Análise";
           App.MadeDir "/opt/StatLysis/Análise/--_ALL_--";
           App.Logged "❌ ANOVA failed: must have at least one row in constraint matrix"],
          Ok tt)
    /\ In (App.Wrote "/opt/StatLysis/Análise/--_ALL_--/filtered_data.csv"
             (App.FilteredCsv d))
          (fst (@App.later_phases Sample.math Sample.anova_fails Sample.plots Sample.os
                  d y factors output_dir)).
Proof.
  eexists _, _, _, _. split; [vm_compute; reflexivity|].
  split; [vm_compute; reflexivity|].
  split; [vm_compute; reflexivity|].
  vm_compute. do 10 right. left. reflexivity.
Qed.

(** * Further properties of the module *)

(** ** Loading: every file name has metadata *)

Section LoaderTotality.

Import PyStr OsPath Loader.

Lemma contains_underscore_cons (a : ascii) (s : string) :
  contains "_" (String a s) = Ascii.eqb "_" a || contains "_" s.
Proof.
  change (contains "_" (String a s))
    with (prefix "_" (String a s) || contains "_" s).
  rewrite prefix_underscore. reflexivity.
Qed.

Lemma contains_underscore_rev (s : string) :
  forall acc,
    contains "_" (rev_string acc s) = contains "_" acc || contains "_" s.
Proof.
  induction s as [|a s IH]; intros acc.
  - simpl. rewrite orb_false_r. reflexivity.
  - change (rev_string acc (String a s)) with (rev_string (String a acc) s).
    rewrite IH, !contains_underscore_cons.
    destruct (Ascii.eqb "_" a), (contains "_" acc), (contains "_" s); reflexivity.
Qed.

(** No segment of [s.split('_')] holds the separator. *)
Lemma segments_without_underscore (s : string) :
  forall cur,
    contains "_" cur = false ->
    Forall (fun seg => contains "_" seg = false) (split_go "_" 0 cur s).
Proof.
  induction s as [|a s IH]; intros cur Hcur.
  - constructor; [|constructor]. rewrite contains_underscore_rev, Hcur. reflexivity.
  - rewrite split_go_step, prefix_underscore.
    destruct (Ascii.eqb "_" a) eqn:Ea.
    + constructor.
      * rewrite contains_underscore_rev, Hcur. reflexivity.
      * apply IH. reflexivity.
    + apply IH. rewrite contains_underscore_cons, Ea, Hcur. reflexivity.
Qed.

Lemma replace_keeps_no_underscore (old : string) (s : string) :
  forall skip,
    contains "_" s = false -> contains "_" (replace_go old "" skip s) = false.
Proof.
  induction s as [|a s IH]; intros skip Hs; [reflexivity|].
  rewrite contains_underscore_cons in Hs. apply orb_false_iff in Hs.
  destruct Hs as [Ha Hs].
  destruct skip as [|k].
  - change (replace_go old "" 0 (String a s))
      with (if prefix old (String a s)
            then "" ++ replace_go old "" (String.length old - 1) s
            else String a (replace_go old "" 0 s)).
    destruct (prefix old (String a s)).
    + apply IH. exact Hs.
    + rewrite contains_underscore_cons, Ha. apply IH. exact Hs.
  - apply IH. exact Hs.
Qed.

Lemma lstrip_keeps_no_underscore (s : string) :
  contains "_" s = false -> contains "_" (lstrip s) = false.
Proof.
  induction s as [|a s IH]; intros Hs; [reflexivity|].
  simpl lstrip. destruct (is_space a); [|exact Hs].
  rewrite contains_underscore_cons in Hs. apply orb_false_iff in Hs.
  apply IH. apply Hs.
Qed.

Lemma strip_keeps_no_underscore (s : string) :
  contains "_" s = false -> contains "_" (strip s) = false.
Proof.
  intros Hs. unfold strip.
  rewrite contains_underscore_rev. simpl.
  apply lstrip_keeps_no_underscore.
  rewrite contains_underscore_rev. simpl.
  apply lstrip_keeps_no_underscore. exact Hs.
Qed.

(** X1. [parse_metadata_from_filename] never raises: for every file name it
    returns a dict with exactly the keys CellLine, Radiation, NP and Dose, in
    this order, and none of the four values holds the separator ['_']. *)
Theorem parse_metadata_total (fl : flavour) (filename : string) :
  exists cellline radiation np dose,
    parse_metadata_from_filename fl filename
    = Ok [("CellLine", cellline); ("Radiation", radiation);
          ("NP", np); ("Dose", dose)]
    /\ contains "_" cellline = false
    /\ contains "_" radiation = false
    /\ contains "_" np = false
    /\ contains "_" dose = false.
Proof.
  unfold parse_metadata_from_filename.
  pose proof (segments_without_underscore (fst (splitext fl filename)) "" eq_refl)
    as Hsegs.
  fold (split "_" (fst (splitext fl filename))) in Hsegs.
  destruct (split "_" (fst (splitext fl filename)))
    as [|p0 [|p1 [|p2 [|p3 [|p4 rest]]]]];
    try (exists "Unknown", "Unknown", "Unknown", "Unknown"; simpl;
         repeat split; reflexivity).
  inversion Hsegs as [|? ? _ H1]; subst.
  inversion H1 as [|? ? Hp1 H2]; subst.
  inversion H2 as [|? ? Hp2 H3]; subst.
  inversion H3 as [|? ? Hp3 H4]; subst.
  inversion H4 as [|? ? Hp4 _]; subst.
  exists p1, p2, p3, (strip (replace "Gy" "" p4)). simpl.
  split; [reflexivity|]. split; [exact Hp1|]. split; [exact Hp2|].
  split; [exact Hp3|].
  apply strip_keeps_no_underscore. apply replace_keeps_no_underscore. exact Hp4.
Qed.

End LoaderTotality.

(** ** The analysis run: which failures are caught *)

Section RunFacts.

Context `{MathLib} `{StatsLib} `{App.PlotLib} `{App.OsLib}.
Import App.

(** A [try] block whose handler only logs ends without an exception. *)
Lemma try_log_returns (m : run unit) (message : exn -> string) :
  try_except m (fun e => log (message e))
  = (fst (try_except m (fun e => log (message e))), Ok tt).
Proof.
  destruct m as [es [[]|e]]; reflexivity.
Qed.

Lemma rbind_returns {A : Type} (es1 es2 : list event) (k : A -> run unit)
    (m : run A) (a : A) :
  m = (es1, Ok a) -> k a = (es2, Ok tt) ->
  rbind m k = ((es1 ++ es2)%list, Ok tt).
Proof. intros -> Hk. unfold rbind. rewrite Hk. reflexivity. Qed.

(** One factor of the Tukey phase: its table and its log line, or one log
    line that reports the error. *)
Lemma tukey_step_shape (d : DataFrame) (y f : string) (output_dir : string) :
  (exists msg,
      tukey_step d y f output_dir
      = ([Logged ("❌ Tukey error (" ++ f ++ "): " ++ msg)], Ok tt))
  \/ (exists text h body,
         Stats.run_tukey d y f = Ok (Stats.Pair text (h :: body))
         /\ tukey_step d y f output_dir
            = ([Wrote (os_path_join output_dir ("tukey_" ++ f ++ ".csv"))
                  (TukeyCsv h body);
                Logged ("📌 Tukey HSD (" ++ f ++ "):" ++ String "010" "" ++ text)],
               Ok tt)).
Proof.
  unfold tukey_step.
  destruct (Stats.run_tukey d y f) as [v|e] eqn:Hrun.
  - destruct v as [text|text data].
    + left. destruct (Stats.unpack2 (Stats.Bare text)) as [[r1 r2]|e] eqn:Hun.
      * destruct text as [|a [|b [|c rest]]]; simpl in Hun; try discriminate.
        injection Hun as <- <-. eexists. reflexivity.
      * eexists. unfold lift, rbind, try_except. rewrite Hun. reflexivity.
    + destruct data as [|h body].
      * left. eexists. reflexivity.
      * destruct (write_file (os_path_join output_dir ("tukey_" ++ f ++ ".csv")))
          as [[]|e] eqn:Hw.
        -- right. exists text, h, body. split; [reflexivity|].
           unfold write, lift, rbind, try_except, emit, log. cbn [Stats.unpack2].
           rewrite Hw. reflexivity.
        -- left. eexists.
           unfold write, lift, rbind, try_except, emit, log. cbn [Stats.unpack2].
           rewrite Hw. reflexivity.
  - left. eexists. reflexivity.
Qed.

Lemma tukey_phase_flat (d : DataFrame) (y : string) (factors : list string)
    (output_dir : string) :
  tukey_phase d y factors output_dir
  = (flat_map (fun f => fst (tukey_step d y f output_dir)) factors, Ok tt).
Proof.
  induction factors as [|f rest IH]; [reflexivity|].
  simpl tukey_phase. simpl flat_map.
  apply rbind_returns with (a := tt); [|exact IH].
  unfold tukey_step. apply try_log_returns.
Qed.

(** X15. A Tukey failure is per factor.  The Tukey phase never raises; what it
    does is what each factor does on its own, in the order of the factors;
    and a factor either writes its table and logs the summary, or logs one
    line that reports the error, whatever happened to the factors before. *)
Theorem tukey_phase_per_factor
    (d : DataFrame) (y : string) (factors : list string) (output_dir : string) :
  tukey_phase d y factors output_dir
  = (flat_map (fun f => fst (tukey_step d y f output_dir)) factors, Ok tt)
  /\ forall f,
       (exists msg,
           tukey_step d y f output_dir
           = ([Logged ("❌ Tukey error (" ++ f ++ "): " ++ msg)], Ok tt))
       \/ (exists text h body,
              Stats.run_tukey d y f = Ok (Stats.Pair text (h :: body))
              /\ tukey_step d y f output_dir
                 = ([Wrote (os_path_join output_dir ("tukey_" ++ f ++ ".csv"))
                       (TukeyCsv h body);
                     Logged ("📌 Tukey HSD (" ++ f ++ "):" ++ String "010" "" ++ text)],
                    Ok tt)).
Proof.
  split; [apply tukey_phase_flat|]. intros f. apply tukey_step_shape.
Qed.

(** The phases after the ANOVA: the Tukey, plot-grid and regression phases
    end without an exception, whatever they meet, and the run ends as the
    last [to_csv] does. *)
Lemma later_phases_trace (d : DataFrame) (y : string) (factors : list string)
    (output_dir : string) :
  later_phases d y factors output_dir
  = ((fst (tukey_phase d y factors output_dir)
      ++ fst (plot_grid_phase d y output_dir)
      ++ fst (regression_phase d y factors output_dir)
      ++ match write_file (os_path_join output_dir "filtered_data.csv") with
         | Ok _ =>
             [Wrote (os_path_join output_dir "filtered_data.csv") (FilteredCsv d);
              Logged (String "010" "" ++ "✅ Saved in: " ++ output_dir)]
         | Raise _ => []
         end)%list,
     write_file (os_path_join output_dir "filtered_data.csv")).
Proof.
  unfold later_phases.
  rewrite tukey_phase_flat.
  unfold plot_grid_phase, regression_phase.
  rewrite (try_log_returns _ (fun e => "❌ Grid plot error: " ++ exn_message e)).
  rewrite (try_log_returns _ (fun e => "❌ Regression error: " ++ exn_message e)).
  unfold write, lift, rbind, emit, log. cbn [fst snd].
  destruct (write_file (os_path_join output_dir "filtered_data.csv")) as [[]|e];
    rewrite <- ?app_assoc; reflexivity.
Qed.

(** X16. [run_analysis] raises only where its code is in no [try] block.  An
    exception of the preparation (the filters, the dose column, the derived
    variables, the outlier removal, the normalisation, and [os.makedirs] for
    the output directory) leaves it.  Once the preparation has returned,
    nothing that the ANOVA, Tukey, plot-grid and regression phases meet
    leaves it, be it an exception of a library or of a file that cannot be
    written: a run whose ANOVA fails, or whose [anova.csv] cannot be
    written, returns; every other run ends as the last [to_csv] does, with
    its [OSError] if [filtered_data.csv] cannot be written. *)
Theorem run_analysis_raises_only_unguarded (self : AnalyzerApp) :
  snd (run_analysis self)
  = match snd (prepare self) with
    | Raise e => Raise e
    | Ok None => Ok tt
    | Ok (Some (d, y, factors, output_dir)) =>
        match Stats.perform_anova d y factors,
              write_file (os_path_join output_dir "anova.csv") with
        | Ok _, Ok _ => write_file (os_path_join output_dir "filtered_data.csv")
        | _, _ => Ok tt
        end
    end.
Proof.
  unfold run_analysis, rbind.
  destruct (prepare self) as [events [[[[[d y] factors] output_dir]|]|e]];
    simpl; try reflexivity.
  unfold anova_phase.
  destruct (Stats.perform_anova d y factors) as [[model anova]|e]; [|reflexivity].
  destruct (write_file (os_path_join output_dir "anova.csv")) as [[]|e];
    [|reflexivity].
  unfold rbind, emit, log. rewrite later_phases_trace. reflexivity.
Qed.

(** X17. A run whose ANOVA succeeds and whose [anova.csv] can be written goes
    through every later phase: after the events of the preparation come the
    table [anova.csv] and its log line, then the events of the Tukey phase,
    of the plot grid and of the regression phase, none of which raises, and
    last, when [filtered_data.csv] can be written, that file with the
    prepared frame and the log line that names the output directory; when
    it cannot, the run ends there with the [OSError]. *)
Theorem run_analysis_complete_after_anova
    (self : AnalyzerApp) (events : list event)
    (d : DataFrame) (y : string) (factors : list string) (output_dir : string)
    (model : FittedModel) (anova : list AnovaRow) :
  prepare self = (events, Ok (Some (d, y, factors, output_dir))) ->
  Stats.perform_anova d y factors = Ok (model, anova) ->
  write_file (os_path_join output_dir "anova.csv") = Ok tt ->
  run_analysis self
  = ((events
      ++ [Wrote (os_path_join output_dir "anova.csv") (AnovaCsv anova);
          Logged ("📈 ANOVA:" ++ String "010" "" ++ anova_to_string anova)]
      ++ fst (tukey_phase d y factors output_dir)
      ++ fst (plot_grid_phase d y output_dir)
      ++ fst (regression_phase d y factors output_dir)
      ++ match write_file (os_path_join output_dir "filtered_data.csv") with
         | Ok _ =>
             [Wrote (os_path_join output_dir "filtered_data.csv") (FilteredCsv d);
              Logged (String "010" "" ++ "✅ Saved in: " ++ output_dir)]
         | Raise _ => []
         end)%list,
     write_file (os_path_join output_dir "filtered_data.csv"))
  /\ snd (tukey_phase d y factors output_dir) = Ok tt
  /\ snd (plot_grid_phase d y output_dir) = Ok tt
  /\ snd (regression_phase d y factors output_dir) = Ok tt.
Proof.
  intros Hprep Hanova Hwrite.
  split; [|split; [|split]].
  - unfold run_analysis, rbind. rewrite Hprep.
    unfold anova_phase. rewrite Hanova, Hwrite.
    unfold rbind, emit, log. rewrite later_phases_trace. reflexivity.
  - rewrite tukey_phase_flat. reflexivity.
  - unfold plot_grid_phase. rewrite try_log_returns. reflexivity.
  - unfold regression_phase. rewrite try_log_returns. reflexivity.
Qed.

End RunFacts.

(** On a disk that is full when the run comes to its last file, the run of
    [Sample.app] raises after all its phases. *)
Lemma run_analysis_raises_only_unguarded_witness :
  snd (@App.run_analysis Sample.math Sample.anova_ok Sample.plots Sample.full_disk
         Sample.app)
  = Raise (OSError "[Errno 28] No space left on device").
Proof.
  rewrite (@run_analysis_raises_only_unguarded
             Sample.math Sample.anova_ok Sample.plots Sample.full_disk Sample.app).
  vm_compute. reflexivity.
Defined.

Lemma run_analysis_complete_after_anova_witness :
  exists d anova,
    @App.run_analysis Sample.math Sample.anova_ok Sample.plots Sample.os Sample.app
    = (([App.Cleared;
         App.MadeDir "/opt/StatLysis/Análise";
         App.MadeDir "/opt/StatLysis/Análise/--_ALL_--"]
        ++ [App.Wrote "/opt/StatLysis/Análise/--_ALL_--/anova.csv"
              (App.AnovaCsv anova);
            App.Logged ("📈 ANOVA:" ++ String "010" ""
                        ++ @anova_to_string Sample.anova_ok anova)]
        ++ fst (@App.tukey_phase Sample.anova_ok Sample.os d "y" ["Dose"; "NP"]
                  "/opt/StatLysis/Análise/--_ALL_--")
        ++ fst (@App.plot_grid_phase Sample.plots Sample.os d "y"
                  "/opt/StatLysis/Análise/--_ALL_--")
        ++ fst (@App.regression_phase Sample.math Sample.anova_ok Sample.os
                  d "y" ["Dose"; "NP"] "/opt/StatLysis/Análise/--_ALL_--")
        ++ [App.Wrote "/opt/StatLysis/Análise/--_ALL_--/filtered_data.csv"
              (App.FilteredCsv d);
            App.Logged (String "010" "" ++ "✅ Saved in: "
                        ++ "/opt/StatLysis/Análise/--_ALL_--")])%list,
       Ok tt).
Proof.
  eexists _, _.
  refine (proj1 (@run_analysis_complete_after_anova
                   Sample.math Sample.anova_ok Sample.plots Sample.os Sample.app
                   [App.Cleared;
                    App.MadeDir "/opt/StatLysis/Análise";
                    App.MadeDir "/opt/StatLysis/Análise/--_ALL_--"]
                   _ "y" ["Dose"; "NP"] "/opt/StatLysis/Análise/--_ALL_--"
                   _ _ _ _ eq_refl)).
  - vm_compute. reflexivity.
  - vm_compute. reflexivity.
Defined.

Section AbortedRuns.

Context `{MathLib} `{StatsLib} `{App.PlotLib} `{App.OsLib}.
Import App.

(** The preparation writes no file. *)
Lemma prepare_writes_nothing (self : AnalyzerApp) (file_name : string)
    (content : artefact) :
  ~ In (Wrote file_name content) (fst (prepare self)).
Proof.
  unfold prepare, make_output_dir, log, rbind, emit, lift, ret.
  cbv beta iota zeta.
  repeat (match goal with
          | |- context [match ?x with _ => _ end] =>
              lazymatch x with
              | context [match _ with _ => _ end] => fail
              | _ => destruct x
              end
          end; cbv beta iota zeta);
    simpl; intuition discriminate.
Qed.

(** X14. A run that stops before the ANOVA phase (no frame loaded, no response
    or factor selected, too few data points, or an exception of the
    preparation) writes no file. *)
Theorem aborted_run_writes_nothing (self : AnalyzerApp) :
  (forall p, snd (prepare self) <> Ok (Some p)) ->
  forall file_name content,
    ~ In (Wrote file_name content) (fst (run_analysis self)).
Proof.
  intros Hstop file_name content.
  pose proof (prepare_writes_nothing self file_name content) as Hprep.
  unfold run_analysis, rbind.
  destruct (prepare self) as [events [[p|]|e]]; simpl in *.
  - exfalso. apply (Hstop p). reflexivity.
  - rewrite app_nil_r. exact Hprep.
  - exact Hprep.
Qed.

End AbortedRuns.

Lemma aborted_run_writes_nothing_witness :
  ~ In (App.Wrote "/opt/StatLysis/Análise/--_ALL_--/y_plot_grid.png" App.PlotGridPng)
       (fst (@App.run_analysis Sample.math Sample.anova_ok Sample.plots Sample.os
               (App.mkApp Sample.spread "y" [("Dose", true)]
                  "--" "--" false false "None"))).
Proof.
  apply (@aborted_run_writes_nothing Sample.math Sample.anova_ok Sample.plots
           Sample.os
           (App.mkApp Sample.spread "y" [("Dose", true)] "--" "--" false false "None")).
  intros p. vm_compute. discriminate.
Defined.

(** ** Preprocessing: what the steps do to the frame *)

Section FrameEffects.

Lemma index_of_injective (h : list string) :
  forall a b i, index_of a h = Some i -> index_of b h = Some i -> a = b.
Proof.
  induction h as [|c h IH]; intros a b i Ha Hb; [discriminate|].
  simpl in Ha, Hb.
  destruct (String.eqb a c) eqn:Ea, (String.eqb b c) eqn:Eb.
  - apply String.eqb_eq in Ea, Eb. congruence.
  - injection Ha as <-. destruct (index_of b h); discriminate.
  - injection Hb as <-. destruct (index_of a h); discriminate.
  - destruct (index_of a h) as [ia|] eqn:Ia; [|discriminate].
    destruct (index_of b h) as [ib|] eqn:Ib; [|discriminate].
    simpl in Ha, Hb. apply (IH a b ia); [exact Ia|]. rewrite Ib. congruence.
Qed.

Lemma nth_set_nth_other {A : Type} (v default : A) (row : list A) :
  forall i j, i <> j -> nth j (set_nth i v row) default = nth j row default.
Proof.
  induction row as [|x row IH]; intros [|i] [|j] Hne; simpl; try reflexivity;
    try contradiction.
  apply IH. intros ->. apply Hne. reflexivity.
Qed.

Lemma overwrite_keeps_other {A : Type} (default : A) (i j : nat) (rows : list (list A)) :
  i <> j ->
  forall values, List.length values = List.length rows ->
    map (fun r => nth j r default)
        (map (fun rv => set_nth i (snd rv) (fst rv)) (combine rows values))
    = map (fun r => nth j r default) rows.
Proof.
  intros Hne. induction rows as [|r rows IH]; intros [|v values] Hlen;
    simpl in *; try discriminate; try reflexivity.
  rewrite (nth_set_nth_other v default r i j Hne), IH by lia. reflexivity.
Qed.

(** Overwriting a column that exists keeps the header, the number of rows and
    every other column. *)
Lemma overwrite_column (d : DataFrame) (name : string) (values : list cell) (i : nat) :
  index_of name (header d) = Some i ->
  List.length values = len d ->
  header (set_column d name values) = header d
  /\ len (set_column d name values) = len d
  /\ forall other, other <> name ->
       column (set_column d name values) other = column d other.
Proof.
  intros Hi Hlen. unfold set_column. rewrite Hi. unfold len in *. simpl.
  split; [reflexivity|]. split.
  - rewrite length_map, length_combine. lia.
  - intros other Hother. unfold column. simpl.
    destruct (index_of other (header d)) as [j|] eqn:Hj; [|reflexivity].
    f_equal. apply overwrite_keeps_other; [|exact Hlen].
    intros ->. apply Hother. apply (index_of_injective (header d) other name j Hj Hi).
Qed.

Lemma numeric_column_index (d : DataFrame) (name : string) (col : list num) :
  numeric_column d name = Ok col -> exists i, index_of name (header d) = Some i.
Proof.
  unfold numeric_column, column.
  destruct (index_of name (header d)) as [i|]; [|discriminate].
  intros _. exists i. reflexivity.
Qed.

End FrameEffects.

Section PreprocessingEffects.

Context `{MathLib}.
Import Preprocessor.

(** X6. A numeric response column makes [apply_normalization] succeed for every
    method name, and the frame it returns has the header and the number of
    rows of its argument and the same cells in every column but the
    response; a name other than log1p, zscore and minmax returns the frame
    unchanged. *)
Theorem apply_normalization_frame
    (d : DataFrame) (y method : string) (col : list num) :
  numeric_column d y = Ok col ->
  exists d',
    apply_normalization d y method = Ok d'
    /\ header d' = header d
    /\ len d' = len d
    /\ (forall other, other <> y -> column d' other = column d other)
    /\ (method <> "log1p" -> method <> "zscore" -> method <> "minmax" -> d' = d).
Proof.
  intros Hcol.
  destruct (numeric_column_index d y col Hcol) as [i Hi].
  pose proof (numeric_column_length d y col Hcol) as Hlen.
  assert (Hset : forall g : num -> num,
             let d' := set_column d y (map (fun x => CNum (g x)) col) in
             header d' = header d /\ len d' = len d
             /\ forall other, other <> y -> column d' other = column d other).
  { intros g. apply (overwrite_column d y _ i Hi). rewrite length_map. exact Hlen. }
  unfold apply_normalization.
  destruct (String.eqb method "log1p") eqn:E1;
    [|destruct (String.eqb method "zscore") eqn:E2;
      [|destruct (String.eqb method "minmax") eqn:E3]].
  - apply String.eqb_eq in E1. rewrite Hcol. simpl. eexists. split; [reflexivity|].
    destruct (Hset flog1p) as (Hh & Hl & Ho).
    repeat (split; [assumption|]). intros Hne. contradiction.
  - apply String.eqb_eq in E2. rewrite Hcol. simpl. eexists. split; [reflexivity|].
    destruct (Hset (fun x => div64 (sub64 x (nanmean col)) (nanstd 1 col)))
      as (Hh & Hl & Ho).
    repeat (split; [assumption|]). intros _ Hne. contradiction.
  - apply String.eqb_eq in E3. rewrite Hcol. simpl. eexists. split; [reflexivity|].
    destruct (Hset (fun x => div64 (sub64 x (nanmin col))
                                   (sub64 (nanmax col) (nanmin col))))
      as (Hh & Hl & Ho).
    repeat (split; [assumption|]). intros _ _ Hne. contradiction.
  - exists d. repeat (split; [reflexivity|]). reflexivity.
Qed.

(** X5. A response column whose non-missing values are all equal (or that has
    none): the z-scores are all [NaN], so [remove_outliers] drops every row
    and returns the count 0, whatever the threshold. *)
Theorem remove_outliers_constant_column
    (d : DataFrame) (y : string) (t : num) (col : list num) :
  numeric_column d y = Ok col ->
  (forall a b, In a col -> In b col ->
               is_nan a = false -> is_nan b = false -> feq a b = true) ->
  remove_outliers d y t = Ok (mkDF (header d) [], 0%nat).
Proof.
  intros Hcol Hsame.
  assert (Hconst : isconst col = true).
  { unfold isconst. destruct (dropna col) as [|y0 ys] eqn:Hd; [reflexivity|].
    apply forallb_forall. intros x Hx.
    assert (Hin : forall v, In v (y0 :: ys) -> In v col /\ is_nan v = false).
    { intros v Hv. rewrite <- Hd in Hv. apply filter_In in Hv.
      destruct Hv as [Hv Hn]. split; [exact Hv|]. apply negb_true_iff. exact Hn. }
    destruct (Hin y0 (or_introl eq_refl)) as [H0 Hn0].
    destruct (Hin x Hx) as [H1 Hn1].
    apply Hsame; assumption. }
  unfold remove_outliers. rewrite Hcol. simpl.
  unfold zscore. rewrite Hconst, !map_map. simpl.
  unfold select_rows.
  rewrite (select_none (fun _ : num => false) (rows d) col)
    by (apply Forall_forall; reflexivity).
  rewrite fge_nan_l. f_equal. f_equal.
  clear. induction col as [|x col IH]; [reflexivity|].
  simpl map. rewrite count_true_cons, IH. reflexivity.
Qed.

End PreprocessingEffects.

Lemma apply_normalization_frame_witness :
  exists d',
    @Preprocessor.apply_normalization Sample.math Sample.spread "y" "zscore" = Ok d'
    /\ header d' = header Sample.spread
    /\ len d' = len Sample.spread
    /\ (forall other, other <> "y" -> column d' other = column Sample.spread other)
    /\ ("zscore" <> "log1p" -> "zscore" <> "zscore" -> "zscore" <> "minmax" ->
        d' = Sample.spread).
Proof.
  apply (@apply_normalization_frame Sample.math Sample.spread "y" "zscore"
           [of_Z 0; of_Z 5; of_Z 10]).
  reflexivity.
Defined.

Lemma remove_outliers_constant_column_witness :
  @Preprocessor.remove_outliers Sample.math Sample.constant "y"
    Preprocessor.default_z_thresh
  = Ok (mkDF (header Sample.constant) [], 0%nat).
Proof.
  apply (@remove_outliers_constant_column Sample.math Sample.constant "y"
           Preprocessor.default_z_thresh [of_Z 5; of_Z 5; of_Z 5]).
  - reflexivity.
  - intros a b Ha Hb _ _. simpl in Ha, Hb.
    destruct Ha as [<- | [<- | [<- | []]]];
      destruct Hb as [<- | [<- | [<- | []]]]; reflexivity.
Defined.

(** ** Preprocessing: derived variables *)

Section DerivedFacts.

Import Preprocessor.



Lemma set_column_len (d : DataFrame) (name : string) (values : list cell) :
  List.length values = len d -> len (set_column d name values) = len d.
Proof.
  intros Hlen. unfold set_column, len in *.
  destruct (index_of name (header d)); simpl;
    rewrite length_map, length_combine; lia.
Qed.



(** X8. A frame with neither the nuclei count nor the ROS count has no pair of
    columns to divide: [create_derived_vars] returns it unchanged. *)
Theorem create_derived_vars_without_counts (d : DataFrame) :
  has_column d "NumNuclei" = false ->
  has_column d "NumROS" = false ->
  create_derived_vars d = Ok d.
Proof.
  intros Hnuclei Hros. unfold create_derived_vars, derive.
  do 4 (rewrite ?Hnuclei, ?Hros, ?andb_false_r; simpl).
  reflexivity.
Qed.

End DerivedFacts.

Lemma create_derived_vars_without_counts_witness :
  Preprocessor.create_derived_vars Sample.six_rows = Ok Sample.six_rows.
Proof.
  apply (create_derived_vars_without_counts Sample.six_rows); reflexivity.
Defined.

(** ** Interpretation: when the conclusion is produced *)

Section ConclusionFacts.

Import PyStr Loader Interpreter.

Lemma contains_unfold (sub : string) (c : ascii) (s : string) :
  contains sub (String c s) = prefix sub (String c s) || contains sub s.
Proof. reflexivity. Qed.

Lemma prefix_of_longer (a b : string) :
  forall t, prefix (a ++ b) t = true -> prefix a t = true.
Proof.
  induction a as [|x a IH]; intros t Ht; [apply prefix_empty|].
  destruct t as [|y t]; [discriminate|].
  simpl in *. destruct (ascii_dec x y); [|discriminate]. apply IH. exact Ht.
Qed.

Lemma prefix_holds_part (pre sub post : string) :
  forall t, prefix (pre ++ sub ++ post) t = true -> contains sub t = true.
Proof.
  induction pre as [|x pre IH]; intros t Ht.
  - simpl in Ht. apply prefix_of_longer in Ht.
    destruct t as [|y t].
    + change (contains sub "") with (prefix sub "" || false).
      rewrite Ht. reflexivity.
    + rewrite contains_unfold, Ht. reflexivity.
  - destruct t as [|y t]; [discriminate|].
    simpl in Ht. destruct (ascii_dec x y); [|discriminate].
    rewrite contains_unfold, (IH t Ht). apply orb_true_r.
Qed.

(** A text that holds [pre ++ sub ++ post] holds [sub]. *)
Lemma contains_part (pre sub post : string) (t : string) :
  contains (pre ++ sub ++ post) t = true -> contains sub t = true.
Proof.
  induction t as [|y t IH]; intros Ht.
  - change (contains (pre ++ sub ++ post) "")
      with (prefix (pre ++ sub ++ post) "" || false) in Ht.
    rewrite orb_false_r in Ht. apply (prefix_holds_part pre sub post "" Ht).
  - rewrite contains_unfold in Ht. apply orb_true_iff in Ht.
    destruct Ht as [Ht | Ht].
    + apply (prefix_holds_part pre sub post _ Ht).
    + rewrite contains_unfold, (IH Ht). apply orb_true_r.
Qed.

(** A text that holds a non-empty separator splits into two parts at least. *)
Lemma split_at_separator (a : ascii) (sep' : string) (s : string) :
  forall cur,
    contains (String a sep') s = true ->
    (2 <= List.length (split_go (String a sep') 0 cur s))%nat.
Proof.
  induction s as [|c s IH]; intros cur Hs; [discriminate|].
  rewrite split_go_step. rewrite contains_unfold in Hs.
  destruct (prefix (String a sep') (String c s)).
  - change (List.length (?x :: ?l)) with (S (List.length l)).
    apply le_n_S. apply split_go_nonempty.
  - apply IH. exact Hs.
Qed.

Lemma getitem_second (parts : list string) :
  (2 <= List.length parts)%nat -> exists p, getitem parts 1 = Ok p.
Proof.
  destruct parts as [|p0 [|p1 rest]]; simpl; intros Hlen; try lia.
  exists p1. reflexivity.
Qed.

Lemma getitem_first_of_split (sep s : string) :
  exists p, getitem (split sep s) 0 = Ok p.
Proof.
  pose proof (split_go_nonempty sep s 0 "") as Hlen. unfold split.
  destruct (split_go sep 0 "" s) as [|p0 rest]; simpl in *; [lia|].
  exists p0. reflexivity.
Qed.

Lemma getitem_raise (parts : list string) (i : nat) (e : exn) :
  getitem parts i = Raise e -> exists msg, e = IndexError msg.
Proof.
  unfold getitem. destruct (nth_error parts i); [discriminate|].
  intros [= <-]. eexists. reflexivity.
Qed.

Lemma series_at_in_index (s : list (string * num)) (key : string) :
  In key (index s) -> exists v, series_at s key = Ok v.
Proof.
  unfold series_at, index. induction s as [|[k v] s IH]; simpl; [contradiction|].
  intros [-> | Hin].
  - rewrite String.eqb_refl. exists v. reflexivity.
  - destruct (String.eqb k key); [exists v; reflexivity|apply IH; exact Hin].
Qed.

(** The body of the loop on a term of the model: it raises nothing but
    [IndexError], and nothing at all when the term, if it is a dose
    interaction, names its level after "[T.". *)
Lemma moderation_sentence_cases (model : FittedModel) (term : string) :
  In term (index (params model)) ->
  (forall e, moderation_sentence model term = Raise e -> exists msg, e = IndexError msg)
  /\ ((contains "Dose_numeric:C(" term = true -> contains "[T." term = true) ->
      exists extra, moderation_sentence model term = Ok extra).
Proof.
  intros Hin. unfold moderation_sentence.
  destruct (contains "Dose_numeric:C(" term) eqn:Hdose;
    [|split; [discriminate|intros _; eexists; reflexivity]].
  rewrite <- pvalues_index in Hin.
  destruct (series_at_in_index (pvalues model) term Hin) as [p ->]. simpl.
  destruct (flt p (Fin (5 # 100)));
    [|split; [discriminate|intros _; eexists; reflexivity]].
  assert (Hcolon : contains ":" term = true)
    by (apply (contains_part "Dose_numeric" ":" "C(" term Hdose)).
  destruct (getitem_second (split ":" term)
              (split_at_separator ":" "" term "" Hcolon)) as [after_colon ->].
  simpl.
  destruct (getitem_first_of_split "[" after_colon) as [before ->]. simpl.
  split.
  - intros e He.
    destruct (getitem (split "[T." term) 1) as [after_T|e1] eqn:E1; simpl in He.
    + destruct (getitem (split "]" after_T) 0) as [level|e2] eqn:E2; simpl in He;
        [discriminate|].
      injection He as <-. apply (getitem_raise _ _ _ E2).
    + injection He as <-. apply (getitem_raise _ _ _ E1).
  - intros Hlevel.
    destruct (getitem_second (split "[T." term)
                (split_at_separator "[" "T." term "" (Hlevel eq_refl)))
      as [after_T ->].
    simpl.
    destruct (getitem_first_of_split "]" after_T) as [level ->]. simpl.
    eexists. reflexivity.
Qed.

Lemma moderation_loop_cases (model : FittedModel) (terms : list string) :
  (forall term, In term terms -> In term (index (params model))) ->
  forall conclusion,
    (forall e, moderation_loop model terms conclusion = Raise e ->
               exists msg, e = IndexError msg)
    /\ ((forall term, In term terms ->
           contains "Dose_numeric:C(" term = true -> contains "[T." term = true) ->
        exists s, moderation_loop model terms conclusion = Ok s).
Proof.
  induction terms as [|term rest IH]; intros Hsub conclusion.
  - split; [discriminate|]. intros _. eexists. reflexivity.
  - destruct (moderation_sentence_cases model term (Hsub term (or_introl eq_refl)))
      as [Hraise Hok].
    assert (Hrest : forall t, In t rest -> In t (index (params model)))
      by (intros t Ht; apply Hsub; right; exact Ht).
    simpl moderation_loop. split.
    + intros e He.
      destruct (moderation_sentence model term) as [extra|e1]; simpl in He.
      * apply (proj1 (IH Hrest (conclusion ++ extra)) e He).
      * injection He as <-. apply Hraise. reflexivity.
    + intros Hnamed.
      destruct (Hok (Hnamed term (or_introl eq_refl))) as [extra ->]. simpl.
      apply (proj2 (IH Hrest (conclusion ++ extra))).
      intros t Ht. apply Hnamed. right. exact Ht.
Qed.

(** X11. [generate_conclusion] raises nothing but [IndexError]; and it returns a
    sentence for every model in which each term that holds
    "Dose_numeric:C(" also holds "[T.", the marker of a treatment-coded
    level. *)
Theorem generate_conclusion_returns
    (model : FittedModel) (response_var cat_factor : string) :
  (forall e, generate_conclusion model response_var cat_factor = Raise e ->
             exists msg, e = IndexError msg)
  /\ ((forall term, In term (index (params model)) ->
         contains "Dose_numeric:C(" term = true -> contains "[T." term = true) ->
      exists sentence,
        generate_conclusion model response_var cat_factor = Ok sentence).
Proof.
  unfold generate_conclusion.
  apply moderation_loop_cases. intros term Hin. exact Hin.
Qed.

End ConclusionFacts.

Lemma generate_conclusion_returns_witness :
  exists sentence,
    Interpreter.generate_conclusion
      (mkModel (Fin (1 # 10)) (Fin 4) (Fin 3)
         [("Intercept", (Fin 1, Fin (1 # 100)));
          ("Dose_numeric", (Fin (-2), Fin (1 # 50)));
          ("Dose_numeric:C(NP)[T.SemNDAuNP]", (Fin 1, Fin (1 # 1000)))] "")
      "y" "NP"
    = Ok sentence.
Proof.
  apply (proj2 (generate_conclusion_returns
    (mkModel (Fin (1 # 10)) (Fin 4) (Fin 3)
       [("Intercept", (Fin 1, Fin (1 # 100)));
        ("Dose_numeric", (Fin (-2), Fin (1 # 50)));
        ("Dose_numeric:C(NP)[T.SemNDAuNP]", (Fin 1, Fin (1 # 1000)))] "")
    "y" "NP")).
  intros term Hin Hdose. simpl in Hin.
  destruct Hin as [<- | [<- | [<- | []]]];
    [discriminate Hdose|discriminate Hdose|reflexivity].
Defined.

(** ** The regression comparison plot: what can fail *)

Section PlotFacts.

Context `{MathLib} `{StatsLib}.
Import Explorer.

Lemma linspace_length (start stop : num) (n : nat) :
  List.length (linspace start stop n) = S (n - 1).
Proof.
  unfold linspace. rewrite length_app, length_map, length_seq. simpl. lia.
Qed.

(** X12. The figure [plot_regression_models] returns, with two numeric
    columns.  When it returns a figure, the three polynomial fits have
    succeeded, and the dict it plots is "Linear", "Poly2", "Poly3", then
    "Exponential" exactly when the exponential fit on the rows with a
    positive response succeeded, then "Logarithmic" exactly when the
    logarithmic fit on the rows with a positive abscissa succeeded, then
    "Log-Linear" exactly when the line fitted to the logarithms of the
    positive responses came with its two coefficients; every curve in it has
    200 abscissas and 200 ordinates, and the scatter is the two columns.
    And a polynomial fit that raises makes [plot_regression_models] raise:
    it is in no [try] block. *)
Theorem plot_regression_models_legend
    (d : DataFrame) (x y : string) (save_path : option string)
    (xs ys : list num) :
  numeric_column d x = Ok xs ->
  numeric_column d y = Ok ys ->
  let positive_y := map (fun v => fgt v (Fin 0)) ys in
  let positive_x := map (fun v => fgt v (Fin 0)) xs in
  let exponential_fit :=
    curve_fit exponential (select xs positive_y) (select ys positive_y)
      (Some 10000%N) in
  let logarithmic_fit :=
    curve_fit logarithmic (select xs positive_x) (select ys positive_x) None in
  let loglinear_fit :=
    polyfit (select xs positive_y) (map flog (select ys positive_y)) 1 in
  (forall fig,
      plot_regression_models d x y save_path = Ok fig ->
      is_ok (polyfit xs ys 1) = true
      /\ is_ok (polyfit xs ys 2) = true
      /\ is_ok (polyfit xs ys 3) = true
      /\ model_names fig
         = (["Linear"; "Poly2"; "Poly3"]
            ++ (if is_ok exponential_fit then ["Exponential"] else [])
            ++ (if is_ok logarithmic_fit then ["Logarithmic"] else [])
            ++ (match loglinear_fit with
                | Ok linfit =>
                    if (2 <=? List.length linfit)%nat then ["Log-Linear"] else []
                | Raise _ => []
                end))%list
      /\ Forall (fun m => List.length (fst (snd m)) = 200%nat
                          /\ List.length (snd (snd m)) = 200%nat) (models fig)
      /\ scatter fig = (xs, ys)
      /\ saved_to fig = save_path)
  /\ (is_ok (polyfit xs ys 1) && is_ok (polyfit xs ys 2)
      && is_ok (polyfit xs ys 3) = false ->
      is_ok (plot_regression_models d x y save_path) = false).
Proof.
  intros Hx Hy positive_y positive_x exponential_fit logarithmic_fit loglinear_fit.
  subst exponential_fit logarithmic_fit loglinear_fit positive_y positive_x.
  unfold plot_regression_models. rewrite Hx, Hy.
  unfold bind. cbv beta iota zeta.
  pose proof (linspace_length (nanmin xs) (nanmax xs) 200) as Hlen.
  change (S (200 - 1)) with 200%nat in Hlen.
  remember (linspace (nanmin xs) (nanmax xs) 200) as x_vals eqn:Hvals.
  clear Hvals.
  destruct (polyfit xs ys 1) as [lin|e1];
    [|split; [intros fig Hfig; discriminate Hfig|reflexivity]].
  destruct (polyfit xs ys 2) as [poly2|e2];
    [|split; [intros fig Hfig; discriminate Hfig|reflexivity]].
  destruct (polyfit xs ys 3) as [poly3|e3];
    [|split; [intros fig Hfig; discriminate Hfig|reflexivity]].
  split; [|intros Hfalse; discriminate Hfalse].
  intros fig [= <-].
  do 3 (split; [reflexivity|]).
  unfold model_names, try_put, put, polyval, models, scatter, saved_to, coefficient.
  cbv beta iota zeta.
  destruct (curve_fit exponential _ _ _) as [popt1|e1];
    destruct (curve_fit logarithmic _ _ _) as [popt2|e2];
    destruct (polyfit _ _ 1) as [[|c0 [|c1 rest]]|e3];
    cbn [is_ok nth_error List.length Nat.leb];
    (split; [reflexivity|]);
    (split; [|split; reflexivity]);
    repeat (apply Forall_app; split);
    repeat constructor; cbn [fst snd]; rewrite ?length_map; exact Hlen.
Qed.

End PlotFacts.

(** The theorem on the four rows of [Sample.no_positive_y]: no response is
    positive, so the exponential fit and the line through the logarithms
    get no point and raise, and the legend is the three polynomials and
    "Logarithmic". *)
Lemma plot_regression_models_legend_witness :
  exists fig,
    @Explorer.plot_regression_models Sample.math Sample.anova_ok
      Sample.no_positive_y "Dose_numeric" "y" None = Ok fig
    /\ Explorer.model_names fig = ["Linear"; "Poly2"; "Poly3"; "Logarithmic"].
Proof.
  eexists. split; [vm_compute; reflexivity|].
  apply (proj1 (@plot_regression_models_legend Sample.math Sample.anova_ok
                  Sample.no_positive_y "Dose_numeric" "y" None
                  [of_Z 1; of_Z 2; of_Z 3; of_Z 4]
                  [of_Z (-1); of_Z (-2); of_Z (-3); of_Z (-4)] eq_refl eq_refl)
               _ eq_refl).
Defined.

(** ** The Tukey test: when it is skipped *)

Section TukeySkip.

Context `{StatsLib}.
Import Stats.

Lemma Qeq_bool_comm (a b : Q) : Qeq_bool a b = Qeq_bool b a.
Proof.
  destruct (Qeq_bool a b) eqn:E1, (Qeq_bool b a) eqn:E2; try reflexivity.
  - apply Qeq_bool_iff in E1. symmetry in E1. apply Qeq_bool_iff in E1. congruence.
  - apply Qeq_bool_iff in E2. symmetry in E2. apply Qeq_bool_iff in E2. congruence.
Qed.

Lemma cell_eqb_sym (a b : cell) : cell_eqb a b = cell_eqb b a.
Proof.
  destruct a as [x|s], b as [z|t]; simpl; try reflexivity.
  - destruct x, z; simpl; try reflexivity. apply Qeq_bool_comm.
  - apply String.eqb_sym.
Qed.

Lemma cell_eqb_trans (a b c : cell) :
  cell_eqb a b = true -> cell_eqb b c = true -> cell_eqb a c = true.
Proof.
  destruct a as [x|s], b as [z|t], c as [w|u]; simpl; try discriminate.
  - destruct x, z, w; simpl; try discriminate; try reflexivity.
    intros H1 H2. apply Qeq_bool_iff in H1, H2. apply Qeq_bool_iff.
    rewrite H1. exact H2.
  - intros H1 H2. apply String.eqb_eq in H1, H2. subst. apply String.eqb_refl.
Qed.

Lemma cell_eqb_refl (a : cell) : is_missing a = false -> cell_eqb a a = true.
Proof.
  destruct a as [x|s]; simpl; [|intros _; apply String.eqb_refl].
  destruct x; simpl; try discriminate; try reflexivity.
  intros _. apply Qeq_bool_iff. reflexivity.
Qed.

(** Nothing new is found exactly when every non-missing value was seen. *)
Lemma distinct_nil (cs : list cell) :
  forall seen,
    distinct seen cs = []
    <-> (forall c, In c cs -> is_missing c = false ->
                   existsb (cell_eqb c) seen = true).
Proof.
  induction cs as [|c cs IH]; intros seen; simpl.
  - split; [intros _ c []|reflexivity].
  - destruct (is_missing c) eqn:Hm; simpl.
    + rewrite IH. split.
      * intros Hall x [<- | Hx] Hx'; [congruence|apply Hall; assumption].
      * intros Hall x Hx. apply Hall. right. exact Hx.
    + destruct (existsb (cell_eqb c) seen) eqn:Hs.
      * rewrite IH. split.
        -- intros Hall x [<- | Hx] Hx'; [exact Hs|apply Hall; assumption].
        -- intros Hall x Hx. apply Hall. right. exact Hx.
      * split; [discriminate|].
        intros Hall. specialize (Hall c (or_introl eq_refl) Hm). congruence.
Qed.

(** Fewer than two distinct values: the non-missing values are all equal. *)
Lemma nunique_below_two (cs : list cell) :
  (nunique cs < 2)%nat
  <-> (forall a b, In a cs -> In b cs ->
                   is_missing a = false -> is_missing b = false ->
                   cell_eqb a b = true).
Proof.
  unfold nunique. induction cs as [|c cs IH]; simpl.
  - split; [intros _ a b []|lia].
  - destruct (is_missing c) eqn:Hm; simpl.
    + rewrite IH. split.
      * intros Hall a b [<- | Ha] [<- | Hb] Hma Hmb; try congruence.
        apply Hall; assumption.
      * intros Hall a b Ha Hb. apply Hall; right; assumption.
    + split.
      * intros Hlen.
        assert (Hnil : distinct [c] cs = [])
          by (destruct (distinct [c] cs); [reflexivity|simpl in Hlen; lia]).
        assert (Hc : forall x, In x (c :: cs) -> is_missing x = false ->
                               cell_eqb x c = true).
        { intros x [<- | Hx] Hmx; [apply cell_eqb_refl; exact Hmx|].
          pose proof (proj1 (distinct_nil cs [c]) Hnil x Hx Hmx) as Hex.
          simpl in Hex. rewrite orb_false_r in Hex. exact Hex. }
        intros a b Ha Hb Hma Hmb.
        apply (cell_eqb_trans a c b); [apply Hc; assumption|].
        rewrite cell_eqb_sym. apply Hc; assumption.
      * intros Hall.
        assert (Hnil : distinct [c] cs = []).
        { apply distinct_nil. intros x Hx Hmx. simpl. rewrite orb_false_r.
          apply Hall; [right; exact Hx|left; reflexivity|exact Hmx|exact Hm]. }
        rewrite Hnil. simpl. lia.
Qed.

(** X9. [run_tukey] answers with the bare text of a skipped test exactly when
    the non-missing values of the factor column are all equal (which
    includes a column with no value at all). *)
Theorem run_tukey_skipped_iff
    (d : DataFrame) (y factor : string) (groups : list cell) :
  column d factor = Ok groups ->
  ((exists text, run_tukey d y factor = Ok (Bare text))
   <-> (forall a b, In a groups -> In b groups ->
                    is_missing a = false -> is_missing b = false ->
                    cell_eqb a b = true)).
Proof.
  intros Hcol. rewrite <- nunique_below_two. split.
  - intros [text Hrun]. unfold run_tukey in Hrun. rewrite Hcol in Hrun.
    simpl in Hrun.
    destruct (nunique groups <? 2)%nat eqn:E; [apply Nat.ltb_lt; exact E|].
    destruct (column d y) as [endog|e]; simpl in Hrun; [|discriminate].
    destruct (pairwise_tukeyhsd endog groups); simpl in Hrun; discriminate.
  - intros Hfew. eexists. apply (run_tukey_bare d y factor groups Hcol Hfew).
Qed.

End TukeySkip.

Lemma run_tukey_skipped_iff_witness :
  (exists text,
      @Stats.run_tukey Sample.anova_ok Sample.six_rows "y" "NP" = Ok (Stats.Bare text))
  <-> (forall a b,
          In a (repeat (CStr "NDAuNP") 6) -> In b (repeat (CStr "NDAuNP") 6) ->
          Stats.is_missing a = false -> Stats.is_missing b = false ->
          Stats.cell_eqb a b = true).
Proof.
  apply (@run_tukey_skipped_iff Sample.anova_ok Sample.six_rows "y" "NP"
           (repeat (CStr "NDAuNP") 6)).
  reflexivity.
Defined.

(** ** The output directory *)

Section OutputDir.

Context `{App.OsLib}.
Import PyStr App.

Lemma prefix_space (c : ascii) (s : string) :
  prefix " " (String c s) = Ascii.eqb " " c.
Proof.
  change (prefix " " (String c s))
    with (if ascii_dec " " c then prefix "" s else false).
  destruct (ascii_dec " " c) as [<- | Hne].
  - rewrite prefix_empty. reflexivity.
  - symmetry. apply Ascii.eqb_neq. exact Hne.
Qed.

Lemma spaces_replaced (s : string) :
  contains " " (replace " " "_" s) = false.
Proof.
  unfold replace. induction s as [|c s IH]; [reflexivity|].
  change (replace_go " " "_" 0 (String c s))
    with (if prefix " " (String c s)
          then "_" ++ replace_go " " "_" (String.length " " - 1) s
          else String c (replace_go " " "_" 0 s)).
  rewrite prefix_space.
  destruct (Ascii.eqb " " c) eqn:Ec.
  - change ("_" ++ replace_go " " "_" (String.length " " - 1) s)
      with (String "_" (replace_go " " "_" 0 s)).
    rewrite contains_unfold, prefix_space, IH. reflexivity.
  - rewrite contains_unfold, prefix_space, Ec, IH. reflexivity.
Qed.

(** X10. The directory name [make_output_dir] builds holds no space, whatever
    the cell line, the radiation and the nanoparticle status are; the
    directory of that name is made under [Análise], after [Análise] itself,
    and its path is what [make_output_dir] returns. *)
Theorem output_dir_without_space (cellline radiation np_status : string) :
  make_output_dir cellline radiation np_status
  = (let base_dir := os_path_join module_dir "Análise" in
     let output_dir :=
       os_path_join base_dir (group_name cellline radiation np_status) in
     match makedirs base_dir, makedirs output_dir with
     | Ok _, Ok _ => ([MadeDir base_dir; MadeDir output_dir], Ok output_dir)
     | Ok _, Raise e => ([MadeDir base_dir], Raise e)
     | Raise e, _ => ([], Raise e)
     end)
  /\ contains " " (group_name cellline radiation np_status) = false.
Proof.
  split; [|unfold group_name; apply spaces_replaced].
  unfold make_output_dir, lift, rbind, emit, ret. cbv zeta.
  destruct (makedirs (os_path_join module_dir "Análise")) as [[]|e];
    [|reflexivity].
  destruct (makedirs _) as [[]|e]; reflexivity.
Qed.

End OutputDir.

(** ** The analysis run: what reaches the ANOVA phase *)

Section PrepareFacts.

Context `{MathLib} `{StatsLib}.
Import Preprocessor App.

Lemma index_of_app (name : string) (h l : list string) (i : nat) :
  index_of name h = Some i -> index_of name (h ++ l) = Some i.
Proof.
  revert i. induction h as [|c h IH]; intros i; simpl; [discriminate|].
  destruct (String.eqb name c); [trivial|].
  destruct (index_of name h) as [j|]; [|discriminate].
  rewrite (IH j eq_refl). trivial.
Qed.

Lemma index_of_appended (name : string) (h : list string) :
  exists i, index_of name (h ++ [name]) = Some i.
Proof.
  induction h as [|c h [i IH]]; simpl.
  - rewrite String.eqb_refl. eexists. reflexivity.
  - destruct (String.eqb name c); [eexists; reflexivity|].
    rewrite IH. eexists. reflexivity.
Qed.

Lemma has_column_header (d d' : DataFrame) (name : string) :
  header d' = header d -> has_column d' name = has_column d name.
Proof. unfold has_column. intros ->. reflexivity. Qed.

Lemma has_column_set_same (d : DataFrame) (name : string) (values : list cell) :
  has_column (set_column d name values) name = true.
Proof.
  unfold has_column, set_column.
  destruct (index_of name (header d)) as [i|] eqn:Hi; simpl.
  - rewrite Hi. reflexivity.
  - destruct (index_of_appended name (header d)) as [j ->]. reflexivity.
Qed.

Lemma has_column_set_mono (d : DataFrame) (name other : string) (values : list cell) :
  has_column d other = true -> has_column (set_column d name values) other = true.
Proof.
  unfold has_column, set_column.
  destruct (index_of other (header d)) as [j|] eqn:Hj; [|discriminate].
  intros _. destruct (index_of name (header d)); simpl.
  - rewrite Hj. reflexivity.
  - rewrite (index_of_app other (header d) [name] j Hj). reflexivity.
Qed.

Lemma dropna_subset_header (d d' : DataFrame) (name : string) :
  dropna_subset d name = Ok d' ->
  header d' = header d /\ has_column d name = true.
Proof.
  unfold dropna_subset, column, has_column.
  destruct (index_of name (header d)); [|discriminate].
  simpl. intros [= <-]. split; reflexivity.
Qed.

Lemma derive_keeps_columns (target numerator denominator : string)
    (d d' : DataFrame) (other : string) :
  derive target numerator denominator d = Ok d' ->
  has_column d other = true -> has_column d' other = true.
Proof.
  unfold derive.
  destruct (has_column d numerator && has_column d denominator);
    [|intros [= <-]; trivial].
  destruct (numeric_column d numerator); [|discriminate].
  destruct (numeric_column d denominator); [|discriminate].
  simpl. intros [= <-]. apply has_column_set_mono.
Qed.

Lemma create_derived_vars_keeps_columns (d d' : DataFrame) (other : string) :
  create_derived_vars d = Ok d' ->
  has_column d other = true -> has_column d' other = true.
Proof.
  unfold create_derived_vars. intros Hrun Hcol.
  destruct (derive "ROS_per_Nucleus" "NumROS" "NumNuclei" d) as [d1|] eqn:E1;
    [|discriminate].
  simpl in Hrun.
  destruct (derive "Fluo_per_Nucleus" "TotalROSFluorescence" "NumNuclei" d1)
    as [d2|] eqn:E2; [|discriminate].
  simpl in Hrun.
  destruct (derive "Area_per_ROS" "TotalROSArea" "NumROS" d2) as [d3|] eqn:E3;
    [|discriminate].
  simpl in Hrun.
  eapply derive_keeps_columns; [exact Hrun|].
  eapply derive_keeps_columns; [exact E3|].
  eapply derive_keeps_columns; [exact E2|].
  eapply derive_keeps_columns; [exact E1|exact Hcol].
Qed.

Lemma remove_outliers_header (d d' : DataFrame) (y : string) (t : num) (n : nat) :
  remove_outliers d y t = Ok (d', n) -> header d' = header d.
Proof.
  unfold remove_outliers. destruct (numeric_column d y); [|discriminate].
  simpl. intros [= <- _]. reflexivity.
Qed.

Lemma apply_normalization_shape (d d' : DataFrame) (y method : string) :
  apply_normalization d y method = Ok d' ->
  header d' = header d /\ len d' = len d.
Proof.
  assert (Hset : forall (g : num -> num) col,
             numeric_column d y = Ok col ->
             let r := set_column d y (map (fun x => CNum (g x)) col) in
             header r = header d /\ len r = len d).
  { intros g col Hcol.
    destruct (numeric_column_index d y col Hcol) as [i Hi].
    destruct (overwrite_column d y (map (fun x => CNum (g x)) col) i Hi)
      as (Hh & Hl & _); [|split; assumption].
    rewrite length_map. apply (numeric_column_length d y col Hcol). }
  unfold apply_normalization.
  destruct (String.eqb method "log1p");
    [|destruct (String.eqb method "zscore");
      [|destruct (String.eqb method "minmax")]];
    try (destruct (numeric_column d y) as [col|] eqn:Hcol; [|discriminate];
         simpl; intros [= <-]; apply (Hset _ col eq_refl)).
  intros [= <-]. split; reflexivity.
Qed.

End PrepareFacts.

Section PrepareInvariant.

Context `{MathLib} `{StatsLib} `{App.OsLib}.
Import Preprocessor App.

(** X13. What reaches the ANOVA phase: a frame of at least 5 rows that has the
    response column and the column [Dose_numeric], the response that was
    selected (not empty), and the ticked factors (at least one); and the
    last thing done before is the creation of the output directory.  So the
    later phases never find [factors[0]] or ['Dose_numeric'] missing. *)
Theorem prepared_run_invariants
    (self : AnalyzerApp) (events : list event)
    (d : DataFrame) (y : string) (factors : list string) (output_dir : string) :
  prepare self = (events, Ok (Some (d, y, factors, output_dir))) ->
  (5 <= len d)%nat
  /\ y = response_combo self /\ y <> ""
  /\ factors = map fst (filter snd (factor_vars self)) /\ factors <> []
  /\ has_column d "Dose_numeric" = true
  /\ has_column d y = true
  /\ exists before, events = (before ++ [MadeDir output_dir])%list.
Proof.
  intros Hprep.
  unfold prepare, make_output_dir, log, rbind, emit, lift, ret in Hprep.
  cbv beta iota zeta in Hprep.
  repeat (match type of Hprep with
          | context [match ?x with _ => _ end] =>
              lazymatch x with
              | context [match _ with _ => _ end] => fail
              | _ => destruct x eqn:?
              end
          end; cbv beta iota zeta in Hprep; try discriminate Hprep).
  all: injection Hprep as <- <- <- <- <-.
  all: repeat match goal with
              | p : (DataFrame * nat)%type |- _ => destruct p
              end; cbn [fst snd] in *.
  all: repeat match goal with
              | Hn : apply_normalization _ _ _ = Ok _ |- _ =>
                  apply apply_normalization_shape in Hn; destruct Hn as [? ?]
              | Hr : remove_outliers _ _ _ = Ok _ |- _ =>
                  apply remove_outliers_header in Hr
              | Hd : dropna_subset _ _ = Ok _ |- _ =>
                  apply dropna_subset_header in Hd; destruct Hd as [? ?]
              | Hb : _ || _ = false |- _ =>
                  apply orb_false_iff in Hb; destruct Hb as [_ Hb];
                  apply Nat.ltb_ge in Hb
              end.
  all: split; [lia|].
  all: split; [reflexivity|]; split; [discriminate|].
  all: split; [reflexivity|]; split; [discriminate|].
  all: split;
    [repeat first [ erewrite has_column_header by eassumption
                  | eapply create_derived_vars_keeps_columns; [eassumption|] ];
     apply has_column_set_same|].
  all: split;
    [repeat first [ erewrite has_column_header by eassumption
                  | eapply create_derived_vars_keeps_columns; [eassumption|] ];
     assumption|].
  all: match goal with
       | |- exists before, ?l = _ => exists (removelast l); reflexivity
       end.
Qed.

End PrepareInvariant.

Lemma prepared_run_invariants_witness :
  exists d,
    @App.prepare Sample.math Sample.anova_ok Sample.os Sample.app
    = ([App.Cleared;
        App.MadeDir "/opt/StatLysis/Análise";
        App.MadeDir "/opt/StatLysis/Análise/--_ALL_--"],
       Ok (Some (d, "y", ["Dose"; "NP"], "/opt/StatLysis/Análise/--_ALL_--")))
    /\ ((5 <= len d)%nat
        /\ "y" = App.response_combo Sample.app /\ "y" <> ""
        /\ ["Dose"; "NP"] = map fst (filter snd (App.factor_vars Sample.app))
        /\ ["Dose"; "NP"] <> []
        /\ has_column d "Dose_numeric" = true
        /\ has_column d "y" = true
        /\ exists before,
             [App.Cleared;
              App.MadeDir "/opt/StatLysis/Análise";
              App.MadeDir "/opt/StatLysis/Análise/--_ALL_--"]
             = (before ++ [App.MadeDir "/opt/StatLysis/Análise/--_ALL_--"])%list).
Proof.
  eexists. split; [vm_compute; reflexivity|].
  apply (@prepared_run_invariants Sample.math Sample.anova_ok Sample.os Sample.app
           [App.Cleared;
            App.MadeDir "/opt/StatLysis/Análise";
            App.MadeDir "/opt/StatLysis/Análise/--_ALL_--"]
           _ "y" ["Dose"; "NP"] "/opt/StatLysis/Análise/--_ALL_--").
  vm_compute. reflexivity.
Defined.

(** ** Reading the aggregated files *)

Section ReadFacts.

Context `{Files.IoLib}.
Import App Files.

Lemma parse_metadata_keys (fl : OsPath.flavour) (name : string) :
  exists metadata,
    Loader.parse_metadata_from_filename fl name = Ok metadata
    /\ map fst metadata = ["CellLine"; "Radiation"; "NP"; "Dose"].
Proof.
  unfold Loader.parse_metadata_from_filename.
  destruct (PyStr.split "_" (fst (OsPath.splitext fl name)))
    as [|p0 [|p1 [|p2 [|p3 [|p4 rest]]]]];
    simpl; eexists; split; reflexivity.
Qed.

Lemma set_constant_effect (d : DataFrame) (k v : string) :
  len (set_constant d k v) = len d
  /\ has_column (set_constant d k v) k = true
  /\ forall name, has_column d name = true ->
                  has_column (set_constant d k v) name = true.
Proof.
  unfold set_constant. split; [|split].
  - apply set_column_len. apply repeat_length.
  - apply has_column_set_same.
  - intros name. apply has_column_set_mono.
Qed.

Lemma attach_metadata_effect (metadata : Loader.dict) :
  forall d,
    len (attach_metadata metadata d) = len d
    /\ (forall name, has_column d name = true ->
                     has_column (attach_metadata metadata d) name = true)
    /\ (forall k, In k (map fst metadata) ->
                  has_column (attach_metadata metadata d) k = true).
Proof.
  unfold attach_metadata.
  induction metadata as [|[k v] metadata IH]; intros d; simpl.
  - split; [reflexivity|]. split; [trivial|intros k []].
  - destruct (set_constant_effect d k v) as (Hlen & Hk & Hmono).
    destruct (IH (set_constant d k v)) as (Hlen' & Hmono' & Hkeys).
    split; [congruence|]. split.
    + intros name Hname. apply Hmono', Hmono, Hname.
    + intros k' [<- | Hin]; [apply Hmono', Hk|apply Hkeys, Hin].
Qed.

Lemma all_floats_length (cs : list cell) :
  forall values, all_floats cs = Some values -> List.length values = List.length cs.
Proof.
  induction cs as [|c cs IH]; simpl; intros values.
  - intros [= <-]. reflexivity.
  - destruct (comma_to_float c); [|discriminate].
    destruct (all_floats cs) as [vs|]; [|discriminate].
    intros [= <-]. simpl. f_equal. apply IH. reflexivity.
Qed.

Lemma convert_column_shape (d : DataFrame) (col : string) :
  header (convert_column d col) = header d
  /\ len (convert_column d col) = len d.
Proof.
  unfold convert_column.
  destruct (column d col) as [cs|] eqn:Hcol; [|split; reflexivity].
  destruct (existsb has_comma cs); [|split; reflexivity].
  destruct (all_floats cs) as [values|] eqn:Hall; [|split; reflexivity].
  pose proof (column_length d col cs Hcol) as Hlen.
  unfold column in Hcol.
  destruct (index_of col (header d)) as [i|] eqn:Hi; [|discriminate].
  destruct (overwrite_column d col values i Hi) as (Hh & Hl & _);
    [|split; assumption].
  rewrite (all_floats_length cs values Hall). exact Hlen.
Qed.

Lemma convert_columns_shape (cols : list string) :
  forall d,
    header (fold_left convert_column cols d) = header d
    /\ len (fold_left convert_column cols d) = len d.
Proof.
  induction cols as [|col cols IH]; intros d; simpl; [split; reflexivity|].
  destruct (IH (convert_column d col)) as [Hh Hl].
  destruct (convert_column_shape d col) as [Hh' Hl'].
  split; congruence.
Qed.

(** The loop over the object columns stops at the first column on which
    [.str] is refused, and converts them all when there is none. *)
Lemma convert_columns_outcome (others cols : list string) :
  forall d,
    convert_columns others cols d
    = if existsb (fun col => mem col others) cols
      then Raise (AttributeError "Can only use .str accessor with string values!")
      else Ok (fold_left convert_column cols d).
Proof.
  induction cols as [|col cols IH]; intros d; simpl; [reflexivity|].
  unfold str_accessor. destruct (mem col others); simpl; [reflexivity|].
  apply IH.
Qed.

Lemma object_columns_others (others : list string) (d : DataFrame) :
  existsb (fun col => mem col others) (object_columns others d)
  = existsb (fun col => mem col others) (header d).
Proof.
  unfold object_columns.
  induction (header d) as [|name names IH]; simpl; [reflexivity|].
  destruct (mem name others) eqn:E; simpl; [rewrite E; reflexivity|].
  destruct (match column d name with
            | Ok cs => existsb is_text cs
            | Raise _ => false
            end); simpl; [rewrite E|]; exact IH.
Qed.

Lemma mem_filter (name : string) (keep : string -> bool) (names : list string) :
  mem name (filter keep names) = mem name names && keep name.
Proof.
  unfold mem. induction names as [|n names IH]; simpl; [reflexivity|].
  destruct (keep n) eqn:Hk; simpl; rewrite IH.
  - destruct (String.eqb name n) eqn:E; simpl; [|reflexivity].
    apply String.eqb_eq in E. subst n. rewrite Hk. reflexivity.
  - destruct (String.eqb name n) eqn:E; simpl; [|reflexivity].
    apply String.eqb_eq in E. subst n. rewrite Hk.
    rewrite andb_false_r. reflexivity.
Qed.

Lemma existsb_pointwise {A : Type} (f g : A -> bool) (xs : list A) :
  (forall x, f x = g x) -> existsb f xs = existsb g xs.
Proof.
  intros Hfg. induction xs as [|x xs IH]; simpl; [reflexivity|].
  rewrite Hfg, IH. reflexivity.
Qed.

(** Assigning a column keeps the header, or appends the name to it. *)
Lemma set_constant_header (d : DataFrame) (k v : string) :
  header (set_constant d k v)
  = (header d ++ (if has_column d k then [] else [k]))%list.
Proof.
  unfold set_constant, set_column, has_column.
  destruct (index_of k (header d)); simpl; [rewrite app_nil_r|]; reflexivity.
Qed.

Lemma attach_metadata_header (metadata : Loader.dict) :
  forall d,
    exists extra,
      header (attach_metadata metadata d) = (header d ++ extra)%list
      /\ Forall (fun name => mem name (map fst metadata) = true) extra.
Proof.
  unfold attach_metadata.
  induction metadata as [|[k v] metadata IH]; intros d; simpl.
  - exists []. rewrite app_nil_r. split; [reflexivity|constructor].
  - destruct (IH (set_constant d k v)) as (extra & Hh & Hextra).
    rewrite Hh, set_constant_header, <- app_assoc.
    eexists. split; [reflexivity|].
    apply Forall_app. split.
    + destruct (has_column d k); constructor; [|constructor].
      unfold mem. simpl. rewrite String.eqb_refl. reflexivity.
    + eapply Forall_impl; [|exact Hextra].
      intros name Hname. unfold mem in *. simpl. rewrite Hname.
      apply orb_true_r.
Qed.

(** X2. [read_aggregated_excel] never raises, and it has three outcomes.  A
    workbook that cannot be read gives the error box "Read Error" with the
    message of the exception, and a frame with no column and no row.  So
    does a workbook that can be read but has, under a name other than
    CellLine, Radiation, NP and Dose, a column of dtype object that holds no
    text: the accessor [.str] raises inside the outer [try].  Any other
    workbook gives, without a message, a frame with the rows of its first
    sheet, the columns of the sheet and the four metadata columns. *)
Theorem read_aggregated_excel_outcomes (filepath : string) :
  (forall e,
      read_first_sheet filepath = Raise e ->
      read_aggregated_excel filepath
      = ([ErrorBox "Read Error"
            (filepath ++ ":" ++ String "010" "" ++ exn_message e)],
         Ok (mkDF [] [])))
  /\ (forall sheet,
         read_first_sheet filepath = Ok sheet ->
         if existsb
              (fun name =>
                 mem name (other_objects sheet)
                 && negb (mem name ["CellLine"; "Radiation"; "NP"; "Dose"]))
              (header (cells sheet))
         then
           read_aggregated_excel filepath
           = ([ErrorBox "Read Error"
                 (filepath ++ ":" ++ String "010" ""
                  ++ "Can only use .str accessor with string values!")],
              Ok (mkDF [] []))
         else
           exists d,
             read_aggregated_excel filepath = ([], Ok d)
             /\ len d = len (cells sheet)
             /\ (forall name, has_column (cells sheet) name = true ->
                              has_column d name = true)
             /\ (forall k, In k ["CellLine"; "Radiation"; "NP"; "Dose"] ->
                           has_column d k = true)).
Proof.
  unfold read_aggregated_excel, read_and_convert.
  destruct (parse_metadata_keys flavour (basename filepath)) as (metadata & -> & Hkeys).
  split.
  - intros e ->. reflexivity.
  - intros sheet ->. unfold lift, rbind, bind. cbv beta iota zeta.
    set (others := filter (fun name => negb (mem name (map fst metadata)))
                          (other_objects sheet)).
    set (d := attach_metadata metadata (cells sheet)).
    rewrite convert_columns_outcome, object_columns_others.
    assert (Hrefused :
              existsb (fun col => mem col others) (header d)
              = existsb
                  (fun name =>
                     mem name (other_objects sheet)
                     && negb (mem name ["CellLine"; "Radiation"; "NP"; "Dose"]))
                  (header (cells sheet))).
    { destruct (attach_metadata_header metadata (cells sheet)) as (extra & Hh & Hextra).
      subst d. rewrite Hh, existsb_app.
      assert (Hnone : existsb (fun col => mem col others) extra = false).
      { clear Hh. induction Hextra as [|name extra Hname _ IH]; [reflexivity|].
        simpl. rewrite IH. subst others. rewrite mem_filter, Hname. simpl.
        rewrite andb_false_r. reflexivity. }
      rewrite Hnone, orb_false_r.
      apply existsb_pointwise. intros name. subst others.
      rewrite mem_filter, Hkeys. reflexivity. }
    rewrite Hrefused.
    destruct (existsb _ (header (cells sheet))); [reflexivity|].
    eexists. split; [reflexivity|].
    destruct (attach_metadata_effect metadata (cells sheet)) as (Hlen & Hmono & Hmeta).
    destruct (convert_columns_shape (object_columns others d) d) as [Hh Hl].
    split; [subst d; congruence|]. split.
    + intros name Hname. rewrite (has_column_header _ _ name Hh). apply Hmono, Hname.
    + intros k Hk. rewrite (has_column_header _ _ k Hh). apply Hmeta.
      rewrite Hkeys. exact Hk.
Qed.

Lemma all_floats_fails (cs : list cell) (s : string) :
  In (CStr s) cs -> py_float (PyStr.replace "," "." s) = None ->
  all_floats cs = None.
Proof.
  induction cs as [|c cs IH]; intros Hin Hfail; [contradiction|].
  simpl. destruct Hin as [-> | Hin].
  - simpl. rewrite Hfail. reflexivity.
  - rewrite (IH Hin Hfail). destruct (comma_to_float c); reflexivity.
Qed.

(** X3. The conversion of a text column is all or nothing: a column in which no
    text holds a comma, or in which [float] refuses one text after the
    commas were replaced, is left as it is, and so is the whole frame. *)
Theorem convert_column_leaves_text
    (d : DataFrame) (col : string) (cs : list cell) :
  column d col = Ok cs ->
  (existsb has_comma cs = false
   \/ exists s, In (CStr s) cs /\ py_float (PyStr.replace "," "." s) = None) ->
  convert_column d col = d.
Proof.
  intros Hcol Hcase. unfold convert_column. rewrite Hcol.
  destruct Hcase as [-> | (s & Hin & Hfail)]; [reflexivity|].
  rewrite (all_floats_fails cs s Hin Hfail).
  destruct (existsb has_comma cs); reflexivity.
Qed.

End ReadFacts.

(** The third outcome on a sample: the workbook has a column Treated of
    TRUE / FALSE and blanks, and reading it ends in the error box. *)
Lemma read_aggregated_excel_outcomes_witness :
  @Files.read_aggregated_excel SampleFiles.io
    "data/Aggregated_A549_Xray_flags_2Gy.xlsx"
  = ([App.ErrorBox "Read Error"
        ("data/Aggregated_A549_Xray_flags_2Gy.xlsx" ++ ":" ++ String "010" ""
         ++ "Can only use .str accessor with string values!")],
     Ok (mkDF [] [])).
Proof.
  apply (proj2 (@read_aggregated_excel_outcomes SampleFiles.io
                  "data/Aggregated_A549_Xray_flags_2Gy.xlsx")
           (Files.mkSheet SampleFiles.flags ["Treated"]) eq_refl).
Defined.

Lemma convert_column_leaves_text_witness :
  @Files.convert_column SampleFiles.io
    (mkDF ["Area"] [[CStr "1,5"]; [CStr "n,a"]]) "Area"
  = mkDF ["Area"] [[CStr "1,5"]; [CStr "n,a"]].
Proof.
  apply (@convert_column_leaves_text SampleFiles.io
           (mkDF ["Area"] [[CStr "1,5"]; [CStr "n,a"]]) "Area"
           [CStr "1,5"; CStr "n,a"]).
  - reflexivity.
  - right. exists "n,a". split; [right; left; reflexivity|reflexivity].
Defined.

(** ** Loading a folder *)

Section LoadFacts.

Context `{Files.IoLib}.
Import App Files.

Lemma read_returns (filepath : string) :
  exists events d, read_aggregated_excel filepath = (events, Ok d).
Proof.
  unfold read_aggregated_excel.
  destruct (parse_metadata_keys flavour (basename filepath)) as (metadata & -> & _).
  unfold lift, rbind.
  destruct (read_and_convert metadata filepath); eexists _, _; reflexivity.
Qed.

(** The names that are not those of aggregated workbooks play no part. *)
Lemma load_names_skips (folder : string) (names : list string) :
  forall dfs,
    load_names folder names dfs
    = load_names folder (filter is_aggregated_name names) dfs.
Proof.
  induction names as [|fname rest IH]; intros dfs; [reflexivity|].
  simpl. destruct (is_aggregated_name fname) eqn:E; [|apply IH].
  simpl. rewrite E.
  destruct (read_returns (path_join folder fname)) as (events & d & ->).
  unfold rbind. rewrite IH. reflexivity.
Qed.

(** The loop returns, and it collects frames that are not empty. *)
Lemma load_names_collects (folder : string) (names : list string) :
  forall dfs,
    Forall (fun d => empty d = false) dfs ->
    exists events out,
      load_names folder names dfs = (events, Ok out)
      /\ Forall (fun d => empty d = false) out.
Proof.
  induction names as [|fname rest IH]; intros dfs Hdfs.
  - exists [], dfs. split; [reflexivity|exact Hdfs].
  - simpl. destruct (is_aggregated_name fname); [|apply IH; exact Hdfs].
    destruct (read_returns (path_join folder fname)) as (events & d & ->).
    unfold rbind.
    destruct (IH (if empty d then dfs else dfs ++ [d])%list) as (events' & out & -> & Hout).
    + destruct (empty d) eqn:Hd; [exact Hdfs|].
      apply Forall_app. split; [exact Hdfs|]. constructor; [exact Hd|constructor].
    + eexists _, out. split; [reflexivity|exact Hout].
Qed.

Lemma union_grows (dfs : list DataFrame) :
  forall acc,
    acc <> [] ->
    fold_left
      (fun acc d =>
         (acc ++ filter (fun name => negb (existsb (String.eqb name) acc)) (header d))%list)
      dfs acc <> [].
Proof.
  induction dfs as [|d dfs IH]; intros acc Hacc; simpl; [exact Hacc|].
  apply IH. destruct acc; [contradiction|discriminate].
Qed.

(** Frames that are not empty concatenate to a frame that is not empty. *)
Lemma concat_not_empty (d : DataFrame) (dfs : list DataFrame) :
  empty d = false -> empty (concat (d :: dfs)) = false.
Proof.
  intros Hd. unfold empty in Hd.
  destruct (header d) as [|c h] eqn:Hh; [discriminate|].
  destruct (rows d) as [|r rs] eqn:Hr; [discriminate|].
  unfold concat, empty. simpl header. simpl rows.
  rewrite Hr. simpl.
  assert (Hunion : union_headers (d :: dfs) <> []).
  { unfold union_headers. simpl. apply union_grows. rewrite Hh. simpl. discriminate. }
  destruct (union_headers (d :: dfs)); [contradiction|reflexivity].
Qed.

(** X4. Once the folder can be listed, [load_all_aggregated_data] does not
    raise, whatever happens to the single workbooks, and what it returns is
    either the frame with no column and no row or a frame that is not empty;
    a folder in which no name starts with "Aggregated_" and ends with
    ".xlsx" gives the former, without reading a file or showing a message;
    and names of other files change nothing. *)
Theorem load_all_aggregated_data_outcomes (folder : string) (names : list string) :
  listdir folder = Ok names ->
  exists events d,
    load_all_aggregated_data folder = (events, Ok d)
    /\ (d = mkDF [] [] \/ empty d = false)
    /\ ((forall fname, In fname names -> is_aggregated_name fname = false) ->
        events = [] /\ d = mkDF [] [])
    /\ load_names folder names [] = load_names folder (filter is_aggregated_name names) [].
Proof.
  intros Hlist. unfold load_all_aggregated_data. rewrite Hlist.
  unfold lift, rbind, ret.
  destruct (load_names_collects folder names [] (Forall_nil _))
    as (events & out & Hload & Hout).
  rewrite Hload. simpl.
  eexists _, _. split; [reflexivity|].
  split; [|split].
  - destruct out as [|d out]; [left; reflexivity|right].
    inversion Hout as [|? ? Hd _]; subst. apply concat_not_empty. exact Hd.
  - intros Hnone.
    assert (Hfilter : filter is_aggregated_name names = []).
    { clear Hload Hlist. induction names as [|n rest IH]; [reflexivity|].
      simpl. rewrite (Hnone n (or_introl eq_refl)).
      apply IH. intros f Hf. apply Hnone. right. exact Hf. }
    rewrite load_names_skips, Hfilter in Hload. simpl in Hload.
    injection Hload as <- <-. rewrite app_nil_r. split; reflexivity.
  - rewrite <- Hload. apply load_names_skips.
Qed.

End LoadFacts.

Lemma load_all_aggregated_data_outcomes_witness :
  exists events d,
    @Files.load_all_aggregated_data SampleFiles.io "data" = (events, Ok d)
    /\ (d = mkDF [] [] \/ empty d = false)
    /\ ((forall fname,
            In fname ["Aggregated_A549_Xray_NDAuNP_2Gy.xlsx"; "notes.txt";
                      "Aggregated_A549_Xray_NDAuNP_4Gy.xlsx"; "Aggregated_broken.xlsx"] ->
            Files.is_aggregated_name fname = false) ->
        events = [] /\ d = mkDF [] [])
    /\ @Files.load_names SampleFiles.io "data"
         ["Aggregated_A549_Xray_NDAuNP_2Gy.xlsx"; "notes.txt";
          "Aggregated_A549_Xray_NDAuNP_4Gy.xlsx"; "Aggregated_broken.xlsx"] []
       = @Files.load_names SampleFiles.io "data"
           (filter Files.is_aggregated_name
              ["Aggregated_A549_Xray_NDAuNP_2Gy.xlsx"; "notes.txt";
               "Aggregated_A549_Xray_NDAuNP_4Gy.xlsx"; "Aggregated_broken.xlsx"]) [].
Proof.
  apply (@load_all_aggregated_data_outcomes SampleFiles.io "data").
  reflexivity.
Defined.
